(** * Custom compliance framework resource: reconciliation of sections,
      controls and rules against the remote store.

    Shallow embedding of
      internal/cloud_compliance/custom_framework_resource.go
      internal/cloud_compliance/custom_framework_resource_helpers.go

    Go maps are [gmap]s and a [range] loop over a map walks [map_to_list];
    Go leaves the order of such a walk open, and no general statement below
    depends on it.  The Terraform value types (types.String, types.Bool,
    types.Set) keep their three states null / unknown / known.  Every
    remote call goes through a [Gateway], whose answers are arbitrary, and
    is recorded in the list of events of the run, together with the writes
    to the state of the response. *)

From stdpp Require Import gmap strings list fin_maps.
From Stdlib Require Import ZArith Ascii.

Open Scope string_scope.
Open Scope list_scope.

(** ** Terraform attribute values (terraform-plugin-framework, [types]) *)

Inductive TfString :=
| StringNull
| StringUnknown
| StringValue (s : string).

Inductive TfBool :=
| BoolNull
| BoolUnknown
| BoolValue (b : bool).

Inductive TfSet (A : Type) :=
| SetNull
| SetUnknown
| SetValue (elems : list A).
Arguments SetNull {A}.
Arguments SetUnknown {A}.
Arguments SetValue {A} elems.

#[global] Instance TfString_eq_dec : EqDecision TfString.
Proof. solve_decision. Defined.

Module Tf.

Definition StringIsNull (v : TfString) : bool :=
  match v with StringNull => true | _ => false end.
Definition StringIsUnknown (v : TfString) : bool :=
  match v with StringUnknown => true | _ => false end.
(** [ValueString] is the empty string for a null or unknown value. *)
Definition ValueString (v : TfString) : string :=
  match v with StringValue s => s | _ => "" end.

Definition BoolIsNull (v : TfBool) : bool :=
  match v with BoolNull => true | _ => false end.
(** [ValueBool] is [false] for a null or unknown value. *)
Definition ValueBool (v : TfBool) : bool :=
  match v with BoolValue b => b | _ => false end.

Definition IsNull {A} (s : TfSet A) : bool :=
  match s with SetNull => true | _ => false end.
Definition IsUnknown {A} (s : TfSet A) : bool :=
  match s with SetUnknown => true | _ => false end.
(** [Elements] of a null or unknown set is the empty slice. *)
Definition Elements {A} (s : TfSet A) : list A :=
  match s with SetValue l => l | _ => [] end.

(** [Set.Equal]: same state, and for known sets the same number of
    elements with every element of the receiver contained in the other. *)
Definition SetEqual {A} `{EqDecision A} (s o : TfSet A) : bool :=
  match s, o with
  | SetNull, SetNull => true
  | SetUnknown, SetUnknown => true
  | SetValue l1, SetValue l2 =>
      bool_decide (length l1 = length l2)
      && forallb (fun e => bool_decide (e ∈ l2)) l1
  | _, _ => false
  end.

(** [ElementsAs(ctx, &[]string, false)] on a set of strings: a null or
    unknown element cannot be stored in a Go string and is an error. *)
Fixpoint StringsAs (l : list TfString) : option (list string) :=
  match l with
  | [] => Some []
  | StringValue s :: l' =>
      match StringsAs l' with Some r => Some (s :: r) | None => None end
  | _ :: _ => None
  end.

End Tf.

(** ** Resource models *)

(** [ControlModel]: fields ID, Name, Description, Rules. *)
Record ControlModel := mkControl {
  cID : TfString;
  cName : TfString;
  cDescription : TfString;
  cRules : TfSet TfString
}.

(** [SectionModel]: fields ID, Name, Controls. *)
Record SectionModel := mkSection {
  sID : TfString;
  sName : TfString;
  sControls : TfSet ControlModel
}.

(** [cloudComplianceCustomFrameworkResourceModel]. *)
Record cloudComplianceCustomFrameworkResourceModel := mkModel {
  mID : TfString;
  mName : TfString;
  mDescription : TfString;
  mActive : TfBool;
  mSections : TfSet SectionModel
}.

(** The zero value [ControlModel{}]. *)
Definition emptyControl : ControlModel :=
  mkControl StringNull StringNull StringNull SetNull.

(** ** Diagnostics *)

Inductive Severity := SeverityError | SeverityWarning.

(** Summaries of diagnostics.  The package-level constants live in a file
    of the package that is not part of the sources at hand; they are kept
    symbolic. *)
Inductive Summary :=
| errorCreatingFramework
| errorReadingFramework
| errorUpdatingFramework
| errorDeletingFramework
| errorCreatingControl
| errorGettingControls
| errorQueryingControls
| errorQueryingRules
| errorUpdatingControl
| errorAssigningRules
| SummaryText (s : string).

(** Operation tags handed to [handleAPIError]; symbolic for the same reason. *)
Inductive ApiOperation :=
| apiOperationCreateFramework
| apiOperationReadFramework
| apiOperationUpdateFramework
| apiOperationDeleteFramework
| apiOperationCreateControl
| apiOperationReadControls.

Record Diag := mkDiag {
  dSeverity : Severity;
  dSummary : Summary;
  dDetail : string
}.

Definition Diagnostics := list Diag.

Definition isError (d : Diag) : bool :=
  match dSeverity d with SeverityError => true | SeverityWarning => false end.

Definition HasError (ds : Diagnostics) : bool := existsb isError ds.

Definition AddError (ds : Diagnostics) (s : Summary) (detail : string) : Diagnostics :=
  ds ++ [mkDiag SeverityError s detail].

Definition AddWarning (ds : Diagnostics) (s : Summary) (detail : string) : Diagnostics :=
  ds ++ [mkDiag SeverityWarning s detail].

(** ** Identity generator

    [uuid.NewSHA1] (github.com/google/uuid) hashes the sixteen bytes of the
    name space followed by the data with SHA-1, keeps the first sixteen
    bytes of the digest and stamps version 5 and the RFC 4122 variant on
    them.  Bytes and 32-bit words are [Z] with the wrap-around written out. *)

Module UUID.

Open Scope Z_scope.

Definition mask32 : Z := 4294967295.
Definition add32 (a b : Z) : Z := Z.land (a + b) mask32.
Definition rotl32 (n : Z) (x : Z) : Z :=
  Z.land (Z.lor (Z.shiftl x n) (Z.shiftr x (32 - n))) mask32.
Definition not32 (x : Z) : Z := Z.lxor x mask32.

Fixpoint bytes_of_string (s : string) : list Z :=
  match s with
  | EmptyString => []
  | String.String c s' => Z.of_N (N_of_ascii c) :: bytes_of_string s'
  end.

(** Big-endian bytes of [x], [n] of them. *)
Fixpoint be_bytes (n : nat) (x : Z) : list Z :=
  match n with
  | O => []
  | S n' => Z.land (Z.shiftr x (8 * Z.of_nat n')) 255 :: be_bytes n' x
  end.

Definition be_word (bs : list Z) : Z :=
  fold_left (fun acc b => Z.lor (Z.shiftl acc 8) b) bs 0.

(** SHA-1 padding: 0x80, zeros up to 56 modulo 64, the length in bits. *)
Definition sha1_pad (msg : list Z) : list Z :=
  let len := Z.of_nat (length msg) in
  let zeros := Z.to_nat ((55 - len) mod 64) in
  msg ++ [128] ++ repeat 0 zeros ++ be_bytes 8 (8 * len).

Fixpoint chunks (k : nat) (fuel : nat) (l : list Z) : list (list Z) :=
  match fuel with
  | O => []
  | S fuel' =>
      match l with
      | [] => []
      | _ => firstn k l :: chunks k fuel' (skipn k l)
      end
  end.

Definition words_of_block (blk : list Z) : list Z :=
  map be_word (chunks 4 16 blk).

Definition sha1_f (t : nat) (b c d : Z) : Z :=
  if (t <? 20)%nat then Z.lor (Z.land b c) (Z.land (not32 b) d)
  else if (t <? 40)%nat then Z.lxor (Z.lxor b c) d
  else if (t <? 60)%nat then
    Z.lor (Z.lor (Z.land b c) (Z.land b d)) (Z.land c d)
  else Z.lxor (Z.lxor b c) d.

Definition sha1_k (t : nat) : Z :=
  if (t <? 20)%nat then 1518500249
  else if (t <? 40)%nat then 1859775393
  else if (t <? 60)%nat then 2400959708
  else 3395469782.

Record sha1_state := mkSha1 { hA : Z; hB : Z; hC : Z; hD : Z; hE : Z }.

(** Rounds [t], [t+1], ... of one block; [w] is the window of the last
    sixteen words of the message schedule, oldest first. *)
Fixpoint sha1_rounds (n : nat) (t : nat) (w : list Z) (s : sha1_state)
  : sha1_state :=
  match n with
  | O => s
  | S n' =>
      let wt := nth 0 w 0 in
      let tmp :=
        add32 (add32 (add32 (add32 (rotl32 5 (hA s))
                                   (sha1_f t (hB s) (hC s) (hD s)))
                            (hE s)) wt) (sha1_k t) in
      let next :=
        rotl32 1 (Z.lxor (Z.lxor (Z.lxor (nth 13 w 0) (nth 8 w 0))
                                 (nth 2 w 0)) (nth 0 w 0)) in
      sha1_rounds n' (S t) (skipn 1 w ++ [next])
        (mkSha1 tmp (hA s) (rotl32 30 (hB s)) (hC s) (hD s))
  end.

Definition sha1_block (s : sha1_state) (blk : list Z) : sha1_state :=
  let r := sha1_rounds 80 0 (words_of_block blk) s in
  mkSha1 (add32 (hA s) (hA r)) (add32 (hB s) (hB r)) (add32 (hC s) (hC r))
         (add32 (hD s) (hD r)) (add32 (hE s) (hE r)).

Definition sha1_init : sha1_state :=
  mkSha1 1732584193 4023233417 2562383102 271733878 3285377520.

Definition sha1 (msg : list Z) : list Z :=
  let padded := sha1_pad msg in
  let s := fold_left sha1_block (chunks 64 (length padded) padded) sha1_init in
  be_bytes 4 (hA s) ++ be_bytes 4 (hB s) ++ be_bytes 4 (hC s)
    ++ be_bytes 4 (hD s) ++ be_bytes 4 (hE s).

(** [NewHash(sha1.New(), space, data, 5)]. *)
Definition NewSHA1 (space : list Z) (data : list Z) : list Z :=
  let u := firstn 16 (sha1 (space ++ data)) in
  let u6 := Z.lor (Z.land (nth 6 u 0) 15) (Z.shiftl (Z.land 5 15) 4) in
  let u8 := Z.lor (Z.land (nth 8 u 0) 63) 128 in
  firstn 6 u ++ [u6] ++ [nth 7 u 0] ++ [u8] ++ skipn 9 u.

Definition hex_digit (d : Z) : ascii :=
  if d <? 10 then ascii_of_N (Z.to_N (48 + d))
  else ascii_of_N (Z.to_N (87 + d)).

Fixpoint hex (bs : list Z) : string :=
  match bs with
  | [] => EmptyString
  | b :: bs' =>
      String.String (hex_digit (Z.shiftr b 4))
        (String.String (hex_digit (Z.land b 15)) (hex bs'))
  end.

(** [UUID.String]: xxxxxxxx-xxxx-xxxx-xxxx-xxxxxxxxxxxx, lower case. *)
Definition String (u : list Z) : string :=
  (hex (firstn 4 u) +:+ "-" +:+ hex (firstn 2 (skipn 4 u)) +:+ "-"
   +:+ hex (firstn 2 (skipn 6 u)) +:+ "-" +:+ hex (firstn 2 (skipn 8 u))
   +:+ "-" +:+ hex (skipn 10 u))%string.

Close Scope Z_scope.

End UUID.

(** [uuid.MustParse("a1b2c3d4-e5f6-7890-abcd-ef1234567890")]. *)
Definition crowdStrikeComplianceNamespace : list Z :=
  [161; 178; 195; 212; 229; 246; 120; 144; 171; 205; 239; 18; 52; 86; 120; 144]%Z.

(** [generateDeterministicUUID]: UUID v5 of "<framework>:<section>". *)
Definition generateDeterministicUUID (frameworkName sectionName : string) : string :=
  let deterministicUUID :=
    UUID.NewSHA1 crowdStrikeComplianceNamespace
      (UUID.bytes_of_string (frameworkName +:+ ":" +:+ sectionName)) in
  UUID.String deterministicUUID.

(** ** Remote gateway and events of a run *)

(** Errors returned by the client: [errNotFound] stands for the typed
    NotFound error of the operation, [errExplain] for [falcon.ErrorExplain]. *)
Record ApiError := mkApiError {
  errNotFound : bool;
  errExplain : string
}.

Inductive ApiResult (A : Type) :=
| ApiErr (e : ApiError)
| ApiOk (payload : A).
Arguments ApiErr {A} e.
Arguments ApiOk {A} payload.

(** Payload of a response: the reported errors and the resources. *)
Record Payload (R : Type) := mkPayload {
  pErrors : list string;
  pResources : list R
}.
Arguments mkPayload {R}.
Arguments pErrors {R}.
Arguments pResources {R}.

(** [models.ApimodelsSecurityFramework]; the pointer field Name is required
    by the API schema and taken to be set. *)
Record ApimodelsSecurityFramework := mkApiFramework {
  fwUUID : string;
  fwName : string;
  fwDescription : string;
  fwActive : bool
}.

(** [models.ApimodelsControl]; UUID and Name are required pointer fields. *)
Record ApimodelsControl := mkApiControl {
  acUUID : string;
  acName : string;
  acDescription : string;
  acSectionName : string;
  acRequirement : string
}.

(** The calls of [client.CloudPolicies] with the parameters the resource
    sets on them. *)
Inductive Call :=
| CreateComplianceFramework (name description : string) (active : bool)
| GetComplianceFrameworks (ids : list string)
| UpdateComplianceFramework (id name description : string) (active : bool)
| DeleteComplianceFramework (id : string)
| CreateComplianceControl (frameworkID sectionName controlName description : string)
| GetComplianceControls (ids : list string)
| UpdateComplianceControl (id name : string)
| DeleteComplianceControl (ids : list string)
| QueryComplianceControls (filter : string)
| QueryRule (filter : string)
| ReplaceControlRules (uid : string) (ruleIds : list string)
| RenameSectionComplianceFramework (frameworkID oldSectionName newSectionName : string).

(** What a run does that can be observed from outside: remote calls and
    writes to the state of the response. *)
Inductive Event :=
| Remote (c : Call)
| StateSetAttributeID (id : TfString)
| StateSet (m : cloudComplianceCustomFrameworkResourceModel)
| StateRemoveResource.

(** The remote store.  Every answer may depend on everything that happened
    before in the run. *)
Record Gateway := mkGateway {
  gwCreateComplianceFramework :
    list Event -> string -> string -> bool -> ApiResult (Payload ApimodelsSecurityFramework);
  gwGetComplianceFrameworks :
    list Event -> list string -> ApiResult (Payload ApimodelsSecurityFramework);
  gwUpdateComplianceFramework :
    list Event -> string -> string -> string -> bool -> ApiResult (Payload ApimodelsSecurityFramework);
  gwDeleteComplianceFramework :
    list Event -> string -> ApiResult (option (list string));
  gwCreateComplianceControl :
    list Event -> string -> string -> string -> string -> ApiResult (Payload ApimodelsControl);
  gwGetComplianceControls :
    list Event -> list string -> ApiResult (Payload ApimodelsControl);
  gwUpdateComplianceControl : list Event -> string -> string -> ApiResult unit;
  gwDeleteComplianceControl : list Event -> list string -> ApiResult unit;
  gwQueryComplianceControls : list Event -> string -> ApiResult (option (list string));
  gwQueryRule : list Event -> string -> ApiResult (option (list string));
  gwReplaceControlRules : list Event -> string -> list string -> ApiResult unit;
  gwRenameSectionComplianceFramework :
    list Event -> string -> string -> string -> ApiResult unit
}.

(** ** Computations

    A computation reads the history of the run and returns its result with
    the events it adds.  [Panic] is a Go run-time panic (an index out of
    range). *)

Inductive Res (A : Type) :=
| Val (a : A)
| Panic.
Arguments Val {A} a.
Arguments Panic {A}.

Definition M (A : Type) : Type := list Event -> Res A * list Event.

Definition ret {A} (a : A) : M A := fun _ => (Val a, []).

Definition bind {A B} (m : M A) (f : A -> M B) : M B :=
  fun h =>
    match m h with
    | (Val a, e1) =>
        match f a (h ++ e1) with
        | (r, e2) => (r, e1 ++ e2)
        end
    | (Panic, e1) => (Panic, e1)
    end.

Definition panic {A} : M A := fun _ => (Panic, []).

Definition emit (e : Event) : M unit := fun _ => (Val tt, [e]).

(** A remote call: the answer is the gateway's, the call is recorded. *)
Definition call {A} (answer : list Event -> A) (c : Call) : M A :=
  fun h => (Val (answer h), [Remote c]).

Declare Scope m_scope.
Delimit Scope m_scope with m.
Notation "x <- c1 ;; c2" := (bind c1 (fun x => c2))
  (at level 100, c1 at next level, right associativity) : m_scope.
Notation "c1 ;;; c2" := (bind c1 (fun _ => c2))
  (at level 100, c2 at level 200, right associativity) : m_scope.

(** A [for] loop over a slice carrying the variables the body updates. *)
Fixpoint forEach {A S} (l : list A) (body : A -> S -> M S) (s : S) : M S :=
  match l with
  | [] => ret s
  | x :: l' => bind (body x s) (forEach l' body)
  end.

(** The events of a run that starts with the history [h]. *)
Definition events {A} (m : M A) (h : list Event) : list Event := snd (m h).
Definition result {A} (m : M A) (h : list Event) : Res A := fst (m h).

Open Scope m_scope.

(** ** Tree codec (custom_framework_resource_helpers.go) *)

(** The diagnostic of a failed [ElementsAs]. *)
Definition elementsAsError : Diag :=
  mkDiag SeverityError (SummaryText "Value Conversion Error") "".

(** [convertRulesToTerraformSet]. *)
Definition convertRulesToTerraformSet (rules : list string)
  : TfSet TfString * Diagnostics :=
  (SetValue (map StringValue rules), []).

(** [convertControlsMapToTerraformSet]: the key of an entry is not used,
    the element carries the control's own Name.  [types.ObjectValueFrom]
    and [types.SetValue] report nothing for values of the declared types,
    here and in the next function. *)
Definition convertControlsMapToTerraformSet (controlsMap : gmap string ControlModel)
  : TfSet ControlModel * Diagnostics :=
  let controlsAttrValue :=
    map (fun kv : string * ControlModel =>
           let control := kv.2 in
           mkControl (cID control) (cName control) (cDescription control)
                     (cRules control))
        (map_to_list controlsMap) in
  (SetValue controlsAttrValue, []).

(** [convertSectionsMapToTerraformSet]: the Name of an element is the key. *)
Definition convertSectionsMapToTerraformSet (sections : gmap string SectionModel)
  : TfSet SectionModel * Diagnostics :=
  let sectionsAttrValue :=
    map (fun kv : string * SectionModel =>
           let sectionName := kv.1 in
           let section := kv.2 in
           mkSection (sID section) (StringValue sectionName) (sControls section))
        (map_to_list sections) in
  (SetValue sectionsAttrValue, []).

(** The key [convertTerraformSetToControlsMap] files a control under:
    its ID, or its name when the ID is empty. *)
Definition controlKey (control : ControlModel) : string :=
  let key := Tf.ValueString (cID control) in
  if bool_decide (key = "") then Tf.ValueString (cName control) else key.

(** [convertTerraformSetToControlsMap]. *)
Definition convertTerraformSetToControlsMap (controlsSet : TfSet ControlModel)
  : gmap string ControlModel * Diagnostics :=
  if Tf.IsNull controlsSet || Tf.IsUnknown controlsSet then (∅, [])
  else
    let controls := Tf.Elements controlsSet in
    (foldl (fun controlsMap control => <[controlKey control := control]> controlsMap)
           ∅ controls, []).

(** [convertTerraformSetToSectionsMap]. *)
Definition convertTerraformSetToSectionsMap (sectionsSet : TfSet SectionModel)
  : gmap string SectionModel * Diagnostics :=
  if Tf.IsNull sectionsSet || Tf.IsUnknown sectionsSet then (∅, [])
  else
    let sections := Tf.Elements sectionsSet in
    (foldl (fun sectionsMap section =>
              <[Tf.ValueString (sName section) := section]> sectionsMap)
           ∅ sections, []).

(** ** Validation *)

(** [validateActiveFieldTransition]. *)
Definition validateActiveFieldTransition (currentActive newActive : TfBool)
  : Diagnostics :=
  if negb (Tf.BoolIsNull currentActive) && Tf.ValueBool currentActive
     && negb (Tf.ValueBool newActive)
  then AddError [] (SummaryText "Invalid Active Field Change")
         "The active field cannot be changed from true to false. Once a custom compliance framework is activated, it must remain active."
  else [].

(** ** Rename detector *)

(** [detectSectionRenames]: the keys of both maps are compared, a rename is
    recorded when the two entries under one key carry different names. *)
Definition detectSectionRenames (stateSections planSections : gmap string SectionModel)
  : gmap string string :=
  foldl (fun renames kv =>
           let sectionID : string := kv.1 in
           let planSection : SectionModel := kv.2 in
           match stateSections !! sectionID with
           | Some stateSection =>
               let stateName := Tf.ValueString (sName stateSection) in
               let planName := Tf.ValueString (sName planSection) in
               if bool_decide (stateName <> planName)
               then <[stateName := planName]> renames
               else renames
           | None => renames
           end)
        (∅ : gmap string string) (map_to_list planSections).

(** FQL filters. *)
Definition complianceControlsByFrameworkFilter (frameworkName : string) : string :=
  "compliance_control_benchmark_name:'" +:+ frameworkName
  +:+ "'+compliance_control_authority:'Custom'".

Definition complianceRulesByControlFilter (frameworkName sectionName requirement : string)
  : string :=
  "rule_compliance_benchmark:'" +:+ frameworkName +:+ "'+rule_control_section:'"
  +:+ sectionName +:+ "'+rule_control_requirement:'" +:+ requirement
  +:+ "'+rule_domain:'CSPM'+rule_subdomain:'IOM'".

(** [%s] applied to a slice of strings. *)
Definition sliceString (l : list string) : string :=
  "[" +:+ String.concat " " l +:+ "]".

(** ** The resource *)

Section Resource.

Variable gw : Gateway.

(** [handleAPIError] and [validateAPIResponse] are defined in a file of
    the package that is not part of the sources at hand: whatever
    diagnostics they report, the resource behaves as below. *)
Variable handleAPIError : ApiError -> ApiOperation -> string -> Diagnostics.
Variable validateAPIResponse : forall R, Payload R -> Summary -> Diagnostics.

Definition controlWithID (controlID controlName : string) (control : ControlModel)
  : ControlModel :=
  mkControl (StringValue controlID) (StringValue controlName)
            (cDescription control) (cRules control).

(** [createSingleControlAndReturn]. *)
Definition createSingleControlAndReturn
    (frameworkID sectionName controlName : string) (control : ControlModel)
  : M (ControlModel * Diagnostics) :=
  let diags : Diagnostics := [] in
  let controlDesc := Tf.ValueString (cDescription control) in
  createResp <- call (fun h => gwCreateComplianceControl gw h frameworkID
                                 sectionName controlName controlDesc)
                     (CreateComplianceControl frameworkID sectionName
                                              controlName controlDesc) ;;
  match createResp with
  | ApiErr err =>
      ret (emptyControl, diags ++ handleAPIError err apiOperationCreateControl "")
  | ApiOk payload =>
      let diags := diags ++ validateAPIResponse _ payload errorCreatingControl in
      if HasError diags then ret (emptyControl, diags)
      else
        match pResources payload with
        | [] => panic
        | created :: _ =>
            let controlID := acUUID created in
            if negb (Tf.IsNull (cRules control))
               && bool_decide (0 < length (Tf.Elements (cRules control)))
            then
              match Tf.StringsAs (Tf.Elements (cRules control)) with
              | None => ret (emptyControl, diags ++ [elementsAsError])
              | Some ruleIds =>
                  assignResp <- call (fun h => gwReplaceControlRules gw h controlID ruleIds)
                                     (ReplaceControlRules controlID ruleIds) ;;
                  match assignResp with
                  | ApiErr assignRulesErr =>
                      ret (emptyControl,
                           AddError diags (SummaryText "Error Assigning Rules")
                             ("Failed to assign rules to control " +:+ controlName
                              +:+ ": " +:+ errExplain assignRulesErr))
                  | ApiOk _ => ret (controlWithID controlID controlName control, diags)
                  end
              end
            else ret (controlWithID controlID controlName control, diags)
        end
  end.

(** Body of the inner loop of [createControlsForFramework]. *)
Definition createControlStep (frameworkID sectionName : string)
    (kv : string * ControlModel) (st : gmap string ControlModel * Diagnostics)
  : M (gmap string ControlModel * Diagnostics) :=
  let controlName := kv.1 in
  let control := kv.2 in
  let newControlsMap := st.1 in
  let diags := st.2 in
  created <- createSingleControlAndReturn frameworkID sectionName controlName control ;;
  let diags := diags ++ created.2 in
  if HasError diags then ret (newControlsMap, diags)
  else ret (<[controlName := created.1]> newControlsMap, diags).

(** Body of the outer loop of [createControlsForFramework]. *)
Definition createSectionStep (frameworkID : string)
    (kv : string * SectionModel) (st : gmap string SectionModel * Diagnostics)
  : M (gmap string SectionModel * Diagnostics) :=
  let sectionName := kv.1 in
  let section := kv.2 in
  let sections := st.1 in
  let diags := st.2 in
  let converted := convertTerraformSetToControlsMap (sControls section) in
  let sectionControls := converted.1 in
  let diags := diags ++ converted.2 in
  if HasError diags then ret (sections, diags)
  else
    done <- forEach (map_to_list sectionControls)
              (createControlStep frameworkID sectionName) (∅, diags) ;;
    let newControlsMap := done.1 in
    let diags := done.2 in
    if bool_decide (0 < size newControlsMap) then
      let encoded := convertControlsMapToTerraformSet newControlsMap in
      let diags := diags ++ encoded.2 in
      if negb (HasError diags)
      then ret (<[sectionName := mkSection (sID section) (sName section) encoded.1]>
                  sections, diags)
      else ret (sections, diags)
    else ret (sections, diags).

(** [createControlsForFramework]; the map of the caller is updated in
    place, so it is returned with the diagnostics. *)
Definition createControlsForFramework (frameworkID : string)
    (sections : gmap string SectionModel)
  : M (gmap string SectionModel * Diagnostics) :=
  forEach (map_to_list sections) (createSectionStep frameworkID) (sections, []).

(** [queryFrameworkControls]. *)
Definition queryFrameworkControls (frameworkName : string)
  : M (list string * Diagnostics) :=
  let frameworkNameFilter := complianceControlsByFrameworkFilter frameworkName in
  queryControlsResp <- call (fun h => gwQueryComplianceControls gw h frameworkNameFilter)
                            (QueryComplianceControls frameworkNameFilter) ;;
  match queryControlsResp with
  | ApiErr err =>
      ret ([], AddError [] errorQueryingControls
                 ("Failed to query controls for framework " +:+ frameworkName
                  +:+ ": " +:+ errExplain err))
  | ApiOk None => ret ([], [])
  | ApiOk (Some resources) => ret (resources, [])
  end.

(** [getControlDetails]. *)
Definition getControlDetails (controlIds : list string)
  : M (list ApimodelsControl * Diagnostics) :=
  getControlsResp <- call (fun h => gwGetComplianceControls gw h controlIds)
                          (GetComplianceControls controlIds) ;;
  match getControlsResp with
  | ApiErr err =>
      ret ([], handleAPIError err apiOperationReadControls
                 (String.concat "," controlIds))
  | ApiOk payload =>
      let diags := validateAPIResponse _ payload errorGettingControls in
      if HasError diags then ret ([], diags)
      else ret (pResources payload, diags)
  end.

(** [queryControlRules]. *)
Definition queryControlRules (frameworkName sectionName requirement : string)
  : M (list string * Diagnostics) :=
  let rulesByControlFilter :=
    complianceRulesByControlFilter frameworkName sectionName requirement in
  queryRulesResp <- call (fun h => gwQueryRule gw h rulesByControlFilter)
                         (QueryRule rulesByControlFilter) ;;
  match queryRulesResp with
  | ApiErr queryRuleErr =>
      ret ([], AddError [] errorQueryingRules
                 ("Failed to query rules for control: " +:+ errExplain queryRuleErr))
  | ApiOk None => ret ([], [])
  | ApiOk (Some resources) => ret (resources, [])
  end.

(** [readControlWithRules]. *)
Definition readControlWithRules (control : ApimodelsControl) (frameworkName : string)
  : M (ControlModel * Diagnostics) :=
  queried <- queryControlRules frameworkName (acSectionName control)
                               (acRequirement control) ;;
  let ruleIDs := queried.1 in
  let diags := queried.2 in
  if HasError diags then ret (emptyControl, diags)
  else
    let converted := convertRulesToTerraformSet ruleIDs in
    let diags := diags ++ converted.2 in
    if HasError diags then ret (emptyControl, diags)
    else ret (mkControl (StringValue (acUUID control)) (StringValue (acName control))
                        (StringValue (acDescription control)) converted.1, diags).

(** Body of the loop of [readControlsForFramework] over the controls the
    remote store returned. *)
Definition readControlStep (frameworkName : string) (apiControl : ApimodelsControl)
    (st : gmap string (gmap string ControlModel) * Diagnostics)
  : M (gmap string (gmap string ControlModel) * Diagnostics) :=
  let sectionToControlsMap := st.1 in
  let diags := st.2 in
  let sectionName := acSectionName apiControl in
  let controlName := acName apiControl in
  let sectionToControlsMap :=
    match sectionToControlsMap !! sectionName with
    | Some _ => sectionToControlsMap
    | None => <[sectionName := ∅]> sectionToControlsMap
    end in
  read <- readControlWithRules apiControl frameworkName ;;
  let diags := diags ++ read.2 in
  if HasError diags then ret (sectionToControlsMap, diags)
  else
    ret (<[sectionName :=
             <[controlName := read.1]> (default ∅ (sectionToControlsMap !! sectionName))]>
           sectionToControlsMap, diags).

(** The identifier [readControlsForFramework] gives to a section: the one
    of the prior state when it is there and known, the derived one
    otherwise. *)
Definition sectionIDFor (existingSections : gmap string SectionModel)
    (frameworkName sectionName : string) : TfString :=
  match existingSections !! sectionName with
  | Some existingSection =>
      if negb (Tf.StringIsNull (sID existingSection))
         && negb (Tf.StringIsUnknown (sID existingSection))
      then sID existingSection
      else StringValue (generateDeterministicUUID frameworkName sectionName)
  | None => StringValue (generateDeterministicUUID frameworkName sectionName)
  end.

(** Body of the loop of [readControlsForFramework] that builds the
    sections. *)
Definition readSectionStep (existingSections : gmap string SectionModel)
    (frameworkName : string)
    (st : gmap string SectionModel * Diagnostics)
    (kv : string * gmap string ControlModel)
  : gmap string SectionModel * Diagnostics :=
  let sectionsMap := st.1 in
  let diags := st.2 in
  let sectionName := kv.1 in
  let controls := kv.2 in
  let encoded := convertControlsMapToTerraformSet controls in
  let diags := diags ++ encoded.2 in
  if HasError diags then (sectionsMap, diags)
  else
    let sectionID := sectionIDFor existingSections frameworkName sectionName in
    (<[sectionName := mkSection sectionID (StringValue sectionName) encoded.1]>
       sectionsMap, diags).

(** The sections of the prior state, by name, as [readControlsForFramework]
    looks them up to preserve their identifiers. *)
Definition existingSectionsOf
    (existingState : option cloudComplianceCustomFrameworkResourceModel)
  : gmap string SectionModel :=
  match existingState with
  | Some st =>
      if negb (Tf.IsNull (mSections st)) && negb (Tf.IsUnknown (mSections st))
      then (convertTerraformSetToSectionsMap (mSections st)).1
      else ∅
  | None => ∅
  end.

(** [readControlsForFramework]. *)
Definition readControlsForFramework (framework : ApimodelsSecurityFramework)
    (existingState : option cloudComplianceCustomFrameworkResourceModel)
  : M (TfSet SectionModel * Diagnostics) :=
  let frameworkName := fwName framework in
  queried <- queryFrameworkControls frameworkName ;;
  let controlIDs := queried.1 in
  let diags : Diagnostics := queried.2 in
  if HasError diags then ret (SetNull, diags)
  else if bool_decide (length controlIDs = 0) then
    let encoded := convertSectionsMapToTerraformSet ∅ in
    ret (encoded.1, diags ++ encoded.2)
  else
    details <- getControlDetails controlIDs ;;
    let apiControls := details.1 in
    let diags := diags ++ details.2 in
    if HasError diags then ret (SetNull, diags)
    else
      organized <- forEach apiControls (readControlStep frameworkName) (∅, diags) ;;
      let sectionToControlsMap := organized.1 in
      let diags := organized.2 in
      let existingSections := existingSectionsOf existingState in
      let built :=
        foldl (readSectionStep existingSections frameworkName) (∅, diags)
              (map_to_list sectionToControlsMap) in
      let encoded := convertSectionsMapToTerraformSet built.1 in
      ret (encoded.1, built.2 ++ encoded.2).

(** [buildExistingControlsMap]. *)
Definition buildExistingControlsMap (stateSections : gmap string SectionModel)
  : gmap string (gmap string ControlModel) * Diagnostics :=
  foldl (fun (st : gmap string (gmap string ControlModel) * Diagnostics)
             (kv : string * SectionModel) =>
           let converted := convertTerraformSetToControlsMap (sControls kv.2) in
           let diags := st.2 ++ converted.2 in
           if HasError diags then (st.1, diags)
           else (<[kv.1 := converted.1]> st.1, diags))
        (∅, []) (map_to_list stateSections).

(** [buildControlsByIDMap]. *)
Definition buildControlsByIDMap (existingControls : gmap string (gmap string ControlModel))
  : gmap string ControlModel :=
  foldl (fun (controlsByID : gmap string ControlModel)
             (skv : string * gmap string ControlModel) =>
           foldl (fun (controlsByID : gmap string ControlModel)
                      (ckv : string * ControlModel) =>
                    let control := ckv.2 in
                    if negb (Tf.StringIsNull (cID control))
                       && negb (Tf.StringIsUnknown (cID control))
                    then <[Tf.ValueString (cID control) := control]> controlsByID
                    else controlsByID)
                 controlsByID (map_to_list skv.2))
        ∅ (map_to_list existingControls).

(** [updateExistingControl]: the request carries the name only. *)
Definition updateExistingControl (existingControl planControl : ControlModel)
    (controlName sectionName : string) : M Diagnostics :=
  let controlID := Tf.ValueString (cID existingControl) in
  updateResp <- call (fun h => gwUpdateComplianceControl gw h controlID controlName)
                     (UpdateComplianceControl controlID controlName) ;;
  match updateResp with
  | ApiErr err =>
      ret (AddError [] errorUpdatingControl
             ("Failed to update control " +:+ controlName +:+ " in section "
              +:+ sectionName +:+ ": " +:+ errExplain err))
  | ApiOk _ => ret []
  end.

(** The rule identifiers [updateControlRules] sends: none for a null or
    empty set. *)
Definition planRuleIds (rules : TfSet TfString) : option (list string) :=
  if negb (Tf.IsNull rules) && bool_decide (0 < length (Tf.Elements rules))
  then Tf.StringsAs (Tf.Elements rules)
  else Some [].

(** [updateControlRules]. *)
Definition updateControlRules (controlID : string) (planControl : ControlModel)
    (controlName : string) : M Diagnostics :=
  match planRuleIds (cRules planControl) with
  | None => ret [elementsAsError]
  | Some ruleIds =>
      assignResp <- call (fun h => gwReplaceControlRules gw h controlID ruleIds)
                         (ReplaceControlRules controlID ruleIds) ;;
      match assignResp with
      | ApiErr assignRulesErr =>
          ret (AddError [] errorAssigningRules
                 ("Failed to assign rules to control " +:+ controlName +:+ ": "
                  +:+ errExplain assignRulesErr))
      | ApiOk _ => ret []
      end
  end.

(** The update branch of [processControlUpdates]: the plan control carries
    an identifier found among the existing controls. *)
Definition updateMatchedControl (existingControl planControl : ControlModel)
    (controlID controlName sectionName : string)
    (st : gmap string ControlModel * Diagnostics)
  : M (gmap string ControlModel * Diagnostics) :=
  let updatedControls := st.1 in
  let diags := st.2 in
  updateDiags <- updateExistingControl existingControl planControl
                                       controlName sectionName ;;
  let diags := diags ++ updateDiags in
  rulesDiags <- (if negb (Tf.SetEqual (cRules existingControl) (cRules planControl))
                 then updateControlRules controlID planControl controlName
                 else ret []) ;;
  let diags := diags ++ rulesDiags in
  ret (<[controlName := mkControl (cID existingControl) (StringValue controlName)
                                  (cDescription planControl) (cRules planControl)]>
         updatedControls, diags).

(** The create branch of [processControlUpdates]. *)
Definition createPlannedControl (frameworkID sectionName controlName : string)
    (planControl : ControlModel) (st : gmap string ControlModel * Diagnostics)
  : M (gmap string ControlModel * Diagnostics) :=
  let updatedControls := st.1 in
  let diags := st.2 in
  created <- createSingleControlAndReturn frameworkID sectionName controlName
                                          planControl ;;
  let diags := diags ++ created.2 in
  if negb (HasError diags)
  then ret (<[controlName := created.1]> updatedControls, diags)
  else ret (updatedControls, diags).

(** Body of the inner loop of [processControlUpdates]. *)
Definition processControlStep (frameworkID : string)
    (existingControlsByID : gmap string ControlModel) (sectionName : string)
    (kv : string * ControlModel) (st : gmap string ControlModel * Diagnostics)
  : M (gmap string ControlModel * Diagnostics) :=
  let controlName := kv.1 in
  let planControl := kv.2 in
  if negb (Tf.StringIsNull (cID planControl))
     && negb (Tf.StringIsUnknown (cID planControl))
  then
    let controlID := Tf.ValueString (cID planControl) in
    match existingControlsByID !! controlID with
    | Some existingControl =>
        updateMatchedControl existingControl planControl controlID controlName
                             sectionName st
    | None => createPlannedControl frameworkID sectionName controlName planControl st
    end
  else createPlannedControl frameworkID sectionName controlName planControl st.

(** Body of the outer loop of [processControlUpdates]. *)
Definition processSectionStep (frameworkID : string)
    (existingControlsByID : gmap string ControlModel)
    (kv : string * SectionModel) (st : gmap string SectionModel * Diagnostics)
  : M (gmap string SectionModel * Diagnostics) :=
  let sectionName := kv.1 in
  let planSection := kv.2 in
  let updatedSections := st.1 in
  let diags := st.2 in
  let converted := convertTerraformSetToControlsMap (sControls planSection) in
  let planControls := converted.1 in
  let diags := diags ++ converted.2 in
  if HasError diags then ret (updatedSections, diags)
  else
    done <- forEach (map_to_list planControls)
              (processControlStep frameworkID existingControlsByID sectionName)
              (∅, diags) ;;
    let updatedControls := done.1 in
    let diags := done.2 in
    let encoded := convertControlsMapToTerraformSet updatedControls in
    let diags := diags ++ encoded.2 in
    if HasError diags then ret (updatedSections, diags)
    else ret (<[sectionName := mkSection StringNull (StringValue sectionName) encoded.1]>
                updatedSections, diags).

(** [processControlUpdates]. *)
Definition processControlUpdates (frameworkID : string)
    (existingControls : gmap string (gmap string ControlModel))
    (planSections : gmap string SectionModel)
  : M (gmap string SectionModel * Diagnostics) :=
  let existingControlsByID := buildControlsByIDMap existingControls in
  forEach (map_to_list planSections)
          (processSectionStep frameworkID existingControlsByID) (∅, []).

(** Body of the inner loop of [deleteRemovedControls]: the state control
    is looked up, under the key it has in the state, among the controls of
    the plan section that has the name of its state section. *)
Definition deleteRemovedStep (planSections : gmap string SectionModel)
    (stateSectionName : string) (kv : string * ControlModel) (diags : Diagnostics)
  : M Diagnostics :=
  let stateControlName := kv.1 in
  let stateControl := kv.2 in
  let checked : bool * Diagnostics :=
    match planSections !! stateSectionName with
    | Some planSection =>
        let converted := convertTerraformSetToControlsMap (sControls planSection) in
        let diags := diags ++ converted.2 in
        if negb (HasError diags)
        then (bool_decide (is_Some (converted.1 !! stateControlName)), diags)
        else (false, diags)
    | None => (false, diags)
    end in
  let controlStillExists := checked.1 in
  let diags := checked.2 in
  if negb controlStillExists then
    let controlID := Tf.ValueString (cID stateControl) in
    deleteResp <- call (fun h => gwDeleteComplianceControl gw h [controlID])
                       (DeleteComplianceControl [controlID]) ;;
    match deleteResp with
    | ApiErr err =>
        ret (AddWarning diags (SummaryText "Error Deleting Control")
               ("Failed to delete control " +:+ stateControlName +:+ ": "
                +:+ errExplain err))
    | ApiOk _ => ret diags
    end
  else ret diags.

(** [deleteRemovedControls]. *)
Definition deleteRemovedControls
    (existingControls : gmap string (gmap string ControlModel))
    (planSections : gmap string SectionModel) : M Diagnostics :=
  forEach (map_to_list existingControls)
    (fun (skv : string * gmap string ControlModel) (diags : Diagnostics) =>
       forEach (map_to_list skv.2) (deleteRemovedStep planSections skv.1) diags)
    [].

(** [updateControlsForFramework]. *)
Definition updateControlsForFramework (frameworkID : string)
    (stateSections planSections : gmap string SectionModel)
  : M (TfSet SectionModel * Diagnostics) :=
  let built := buildExistingControlsMap stateSections in
  let existingControls := built.1 in
  let diags : Diagnostics := built.2 in
  if HasError diags then ret (SetNull, diags)
  else
    processed <- processControlUpdates frameworkID existingControls planSections ;;
    let updatedSections := processed.1 in
    let diags := diags ++ processed.2 in
    if HasError diags then ret (SetNull, diags)
    else
      deleteDiags <- deleteRemovedControls existingControls planSections ;;
      let diags := diags ++ deleteDiags in
      let encoded := convertSectionsMapToTerraformSet updatedSections in
      ret (encoded.1, diags ++ encoded.2).

(** [handleSectionRenames]. *)
Definition handleSectionRenames (frameworkID : string)
    (stateSections planSections : gmap string SectionModel) : M Diagnostics :=
  let sectionRenames := detectSectionRenames stateSections planSections in
  forEach (map_to_list sectionRenames)
    (fun (kv : string * string) (diags : Diagnostics) =>
       let oldSectionName := kv.1 in
       let newSectionName := kv.2 in
       renameResp <- call (fun h => gwRenameSectionComplianceFramework gw h frameworkID
                                      oldSectionName newSectionName)
                          (RenameSectionComplianceFramework frameworkID
                             oldSectionName newSectionName) ;;
       match renameResp with
       | ApiErr err =>
           ret (AddError diags (SummaryText "Error Renaming Section")
                  ("Failed to rename section from '" +:+ oldSectionName +:+ "' to '"
                   +:+ newSectionName +:+ "': " +:+ errExplain err))
       | ApiOk _ => ret diags
       end)
    [].

(** [deleteControlsForFramework]. *)
Definition deleteControlsForFramework (frameworkName : string) : M Diagnostics :=
  queried <- queryFrameworkControls frameworkName ;;
  let controlIds := queried.1 in
  let controlDiag := queried.2 in
  if HasError controlDiag then ret controlDiag
  else
    deleteResp <- call (fun h => gwDeleteComplianceControl gw h controlIds)
                       (DeleteComplianceControl controlIds) ;;
    match deleteResp with
    | ApiErr err =>
        ret (AddWarning [] (SummaryText "Error Deleting Controls")
               ("Failed to delete controls " +:+ sliceString controlIds +:+ ": "
                +:+ errExplain err))
    | ApiOk _ => ret []
    end.

(** [wrap]: the scalar fields of the model are taken from the response. *)
Definition wrap (d : cloudComplianceCustomFrameworkResourceModel)
    (framework : ApimodelsSecurityFramework)
  : cloudComplianceCustomFrameworkResourceModel :=
  mkModel (StringValue (fwUUID framework)) (StringValue (fwName framework))
          (StringValue (fwDescription framework)) (BoolValue (fwActive framework))
          (mSections d).

Definition withSections (d : cloudComplianceCustomFrameworkResourceModel)
    (sections : TfSet SectionModel) : cloudComplianceCustomFrameworkResourceModel :=
  mkModel (mID d) (mName d) (mDescription d) (mActive d) sections.

Definition withID (d : cloudComplianceCustomFrameworkResourceModel) (id : TfString)
  : cloudComplianceCustomFrameworkResourceModel :=
  mkModel id (mName d) (mDescription d) (mActive d) (mSections d).

Definition sectionsConfigured (d : cloudComplianceCustomFrameworkResourceModel) : bool :=
  negb (Tf.IsNull (mSections d)) && negb (Tf.IsUnknown (mSections d)).

(** The loop of [Create] that gives every section without an identifier
    its derived one. *)
Definition deriveSectionIDs (frameworkName : string)
    (sectionsMap : gmap string SectionModel) : gmap string SectionModel :=
  foldl (fun (sectionsMap : gmap string SectionModel) (kv : string * SectionModel) =>
           let sectionName := kv.1 in
           let section := kv.2 in
           if Tf.StringIsNull (sID section) || Tf.StringIsUnknown (sID section)
           then <[sectionName :=
                    mkSection (StringValue (generateDeterministicUUID frameworkName
                                                                     sectionName))
                              (sName section) (sControls section)]> sectionsMap
           else sectionsMap)
        sectionsMap (map_to_list sectionsMap).

(** [Create].  The plan is the decoded [req.Plan]; the result is
    [resp.Diagnostics]. *)
Definition Create (plan : cloudComplianceCustomFrameworkResourceModel) : M Diagnostics :=
  let name := Tf.ValueString (mName plan) in
  let description := Tf.ValueString (mDescription plan) in
  let active := Tf.ValueBool (mActive plan) in
  createResp <- call (fun h => gwCreateComplianceFramework gw h name description active)
                     (CreateComplianceFramework name description active) ;;
  match createResp with
  | ApiErr err => ret (handleAPIError err apiOperationCreateFramework "")
  | ApiOk payload =>
      let diags := validateAPIResponse _ payload errorCreatingFramework in
      if HasError diags then ret diags
      else
        match pResources payload with
        | [] => panic
        | framework :: _ =>
            let plan := withID plan (StringValue (fwUUID framework)) in
            emit (StateSetAttributeID (mID plan)) ;;;
            created <-
              (if sectionsConfigured plan then
                 let converted := convertTerraformSetToSectionsMap (mSections plan) in
                 let diags := diags ++ converted.2 in
                 if HasError diags then ret (None, diags, true)
                 else
                   let sectionsMap :=
                     deriveSectionIDs (Tf.ValueString (mName plan)) converted.1 in
                   done <- createControlsForFramework (fwUUID framework) sectionsMap ;;
                   let diags := diags ++ done.2 in
                   ret (Some done.1, diags, HasError diags)
               else ret (None, diags, false)) ;;
            let sectionsMap : option (gmap string SectionModel) := created.1.1 in
            let diags : Diagnostics := created.1.2 in
            let stop : bool := created.2 in
            if stop then ret diags
            else
              let plan := wrap plan framework in
              match (if sectionsConfigured plan then sectionsMap else None) with
              | Some sectionsMap =>
                  let encoded := convertSectionsMapToTerraformSet sectionsMap in
                  let diags := diags ++ encoded.2 in
                  if HasError diags then ret diags
                  else
                    emit (StateSet (withSections plan encoded.1)) ;;; ret diags
              | None => emit (StateSet plan) ;;; ret diags
              end
        end
  end.

(** [Read].  The state is the decoded [req.State]. *)
Definition Read (state : cloudComplianceCustomFrameworkResourceModel) : M Diagnostics :=
  let id := Tf.ValueString (mID state) in
  getResp <- call (fun h => gwGetComplianceFrameworks gw h [id])
                  (GetComplianceFrameworks [id]) ;;
  match getResp with
  | ApiErr err =>
      let diags := handleAPIError err apiOperationReadFramework id in
      if errNotFound err then emit StateRemoveResource ;;; ret diags
      else ret diags
  | ApiOk payload =>
      let diags := validateAPIResponse _ payload errorReadingFramework in
      if HasError diags then ret diags
      else
        match pResources payload with
        | [] => emit StateRemoveResource ;;; ret diags
        | framework :: _ =>
            let state := wrap state framework in
            read <- readControlsForFramework framework (Some state) ;;
            let sectionsMap := read.1 in
            let diags := diags ++ read.2 in
            if HasError diags then ret diags
            else
              let state :=
                if bool_decide (0 < length (Tf.Elements sectionsMap))
                   || sectionsConfigured state
                then withSections state sectionsMap
                else state in
              emit (StateSet state) ;;; ret diags
        end
  end.

(** [Update].  Plan and state are the decoded [req.Plan] and [req.State]. *)
Definition Update (plan state : cloudComplianceCustomFrameworkResourceModel)
  : M Diagnostics :=
  let diags := validateActiveFieldTransition (mActive state) (mActive plan) in
  if HasError diags then ret diags
  else
    let id := Tf.ValueString (mID plan) in
    let name := Tf.ValueString (mName plan) in
    let description := Tf.ValueString (mDescription plan) in
    let active := Tf.ValueBool (mActive plan) in
    updateResp <- call (fun h => gwUpdateComplianceFramework gw h id name description active)
                       (UpdateComplianceFramework id name description active) ;;
    match updateResp with
    | ApiErr err => ret (diags ++ handleAPIError err apiOperationUpdateFramework id)
    | ApiOk payload =>
        let diags := diags ++ validateAPIResponse _ payload errorUpdatingFramework in
        if HasError diags then ret diags
        else
          match pResources payload with
          | [] => panic
          | framework :: _ =>
              reconciled <-
                (if sectionsConfigured plan then
                   let convertedPlan := convertTerraformSetToSectionsMap (mSections plan) in
                   let planSections := convertedPlan.1 in
                   let diags := diags ++ convertedPlan.2 in
                   if HasError diags then ret (plan, diags, true)
                   else
                     let convertedState :=
                       if sectionsConfigured state
                       then convertTerraformSetToSectionsMap (mSections state)
                       else (∅, []) in
                     let stateSections := convertedState.1 in
                     let diags := diags ++ convertedState.2 in
                     if HasError diags then ret (plan, diags, true)
                     else
                       updated <- updateControlsForFramework (Tf.ValueString (mID plan))
                                    stateSections planSections ;;
                       let diags := diags ++ updated.2 in
                       if HasError diags then ret (plan, diags, true)
                       else ret (withSections plan updated.1, diags, false)
                 else if sectionsConfigured state then
                   deleteDiags <- deleteControlsForFramework (Tf.ValueString (mName plan)) ;;
                   let diags := diags ++ deleteDiags in
                   ret (plan, diags, HasError diags)
                 else ret (plan, diags, false)) ;;
              let plan : cloudComplianceCustomFrameworkResourceModel := reconciled.1.1 in
              let diags : Diagnostics := reconciled.1.2 in
              let stop : bool := reconciled.2 in
              if stop then ret diags
              else
                let plan := wrap plan framework in
                if sectionsConfigured plan then
                  read <- readControlsForFramework framework (Some state) ;;
                  let diags := diags ++ read.2 in
                  if HasError diags then ret diags
                  else emit (StateSet (withSections plan read.1)) ;;; ret diags
                else emit (StateSet plan) ;;; ret diags
          end
    end.

(** [falcon.AssertNoError] on the errors of a payload. *)
Definition AssertNoError (errors : list string) : option string :=
  match errors with
  | [] => None
  | _ => Some (String.concat "; " errors)
  end.

(** [Delete].  The state is the decoded [req.State]. *)
Definition Delete (state : cloudComplianceCustomFrameworkResourceModel) : M Diagnostics :=
  diags <- deleteControlsForFramework (Tf.ValueString (mName state)) ;;
  if HasError diags then ret diags
  else
    let id := Tf.ValueString (mID state) in
    deleteResp <- call (fun h => gwDeleteComplianceFramework gw h id)
                       (DeleteComplianceFramework id) ;;
    match deleteResp with
    | ApiErr err =>
        if errNotFound err then ret diags
        else ret (diags ++ handleAPIError err apiOperationDeleteFramework id)
    | ApiOk (Some errors) =>
        match AssertNoError errors with
        | Some explain =>
            ret (AddError diags errorDeletingFramework
                   ("Failed to delete custom compliance framework: " +:+ explain))
        | None => ret diags
        end
    | ApiOk None => ret diags
    end.

End Resource.

(** ** Validation of the configuration *)

(** Body of the loop of [ValidateConfig]: once the diagnostics hold an
    error the remaining sections are passed over. *)
Definition validateSectionStep (diags : Diagnostics) (kv : string * SectionModel)
  : Diagnostics :=
  let section := kv.2 in
  let converted := convertTerraformSetToControlsMap (sControls section) in
  let controls := converted.1 in
  let diags := diags ++ converted.2 in
  if HasError diags then diags
  else if bool_decide (size controls = 0) then
    let sectionName := Tf.ValueString (sName section) in
    AddError diags (SummaryText "Empty Section Not Allowed")
      ("Section '" +:+ sectionName
       +:+ "' cannot be empty. Each section must contain at least one control.")
  else diags.

(** [ValidateConfig].  The configuration is the decoded [req.Config]; the
    result is [resp.Diagnostics].  No remote call is made. *)
Definition ValidateConfig (config : cloudComplianceCustomFrameworkResourceModel)
  : Diagnostics :=
  if Tf.IsNull (mSections config) || Tf.IsUnknown (mSections config) then []
  else
    let converted := convertTerraformSetToSectionsMap (mSections config) in
    let sections := converted.1 in
    let diags := converted.2 in
    if HasError diags then diags
    else foldl validateSectionStep diags (map_to_list sections).

(** * Vocabulary of the properties *)

(** A computation is [quiet] for [P] when every event of every run is in [P]. *)
Definition quiet (P : Event -> Prop) {A} (m : M A) : Prop :=
  forall h, Forall P (events m h).

(** Kinds of events. *)
Definition isControlCreate (e : Event) : bool :=
  match e with Remote (CreateComplianceControl _ _ _ _) => true | _ => false end.

Definition isControlUpdate (e : Event) : bool :=
  match e with Remote (UpdateComplianceControl _ _) => true | _ => false end.

Definition isControlDelete (e : Event) : bool :=
  match e with Remote (DeleteComplianceControl _) => true | _ => false end.

Definition isRuleReplace (e : Event) : bool :=
  match e with Remote (ReplaceControlRules _ _) => true | _ => false end.

Definition isSectionRename (e : Event) : bool :=
  match e with Remote (RenameSectionComplianceFramework _ _ _) => true | _ => false end.

(** A control is deleted by a call when its identifier is among those of the
    call. *)
Definition deletesControl (id : string) (e : Event) : bool :=
  match e with
  | Remote (DeleteComplianceControl ids) => bool_decide (id ∈ ids)
  | _ => false
  end.

(** The identifiers of the controls of a tree. *)
Definition controlIDsOf (sections : TfSet SectionModel) : list TfString :=
  flat_map (fun s => map cID (Tf.Elements (sControls s))) (Tf.Elements sections).

(** Two sets of the client with the same elements, in any order. *)
Definition sameElements {A} (s t : TfSet A) : Prop :=
  match s, t with
  | SetNull, SetNull => True
  | SetUnknown, SetUnknown => True
  | SetValue l1, SetValue l2 => l1 ≡ₚ l2
  | _, _ => False
  end.

(** Two sections that differ at most in the order of their controls. *)
Definition sectionEquiv (a b : SectionModel) : Prop :=
  sID a = sID b /\ sName a = sName b /\ sameElements (sControls a) (sControls b).

(** Two trees that differ at most in the order of their sections and of the
    controls of each section. *)
Definition treeEquiv (t1 t2 : list SectionModel) : Prop :=
  exists l, l ≡ₚ t1 /\ Forall2 sectionEquiv l t2.

(** Decoding a tree into maps and encoding the maps again: the sections by
    [convertTerraformSetToSectionsMap], the controls of every section by
    [convertTerraformSetToControlsMap], and back. *)
Definition recodeControls (controls : TfSet ControlModel) : TfSet ControlModel :=
  (convertControlsMapToTerraformSet (convertTerraformSetToControlsMap controls).1).1.

Definition recodeTree (sections : TfSet SectionModel) : TfSet SectionModel :=
  let sectionsMap := (convertTerraformSetToSectionsMap sections).1 in
  let recoded :=
    (fun s => mkSection (sID s) (sName s) (recodeControls (sControls s))) <$> sectionsMap in
  (convertSectionsMapToTerraformSet recoded).1.

(** ** A remote store for the examples

    Every call succeeds; a created framework or control gets an identifier
    made of a prefix and its name; the queries answer with fixed lists. *)
Module Example.

Definition gateway (controlIds ruleIds : list string) : Gateway := {|
  gwCreateComplianceFramework := fun _ name description active =>
    ApiOk (mkPayload [] [mkApiFramework ("fw-" +:+ name) name description active]);
  gwGetComplianceFrameworks := fun _ ids =>
    ApiOk (mkPayload [] (map (fun id => mkApiFramework id "Framework" "" false) ids));
  gwUpdateComplianceFramework := fun _ id name description active =>
    ApiOk (mkPayload [] [mkApiFramework id name description active]);
  gwDeleteComplianceFramework := fun _ _ => ApiOk None;
  gwCreateComplianceControl := fun _ frameworkID sectionName controlName description =>
    ApiOk (mkPayload [] [mkApiControl ("ctl-" +:+ controlName) controlName description
                                      sectionName "1.1"]);
  gwGetComplianceControls := fun _ ids =>
    ApiOk (mkPayload []
             (map (fun id => mkApiControl id ("Control " +:+ id) "" "Section 1" id) ids));
  gwUpdateComplianceControl := fun _ _ _ => ApiOk tt;
  gwDeleteComplianceControl := fun _ _ => ApiOk tt;
  gwQueryComplianceControls := fun _ _ => ApiOk (Some controlIds);
  gwQueryRule := fun _ _ => ApiOk (Some ruleIds);
  gwReplaceControlRules := fun _ _ _ => ApiOk tt;
  gwRenameSectionComplianceFramework := fun _ _ _ _ => ApiOk tt
|}.

(** A remote store on which the deletion of controls fails and the
    framework is already gone. *)
Definition failingGateway (controlIds : list string) : Gateway := {|
  gwCreateComplianceFramework := fun _ _ _ _ => ApiErr (mkApiError false "down");
  gwGetComplianceFrameworks := fun _ _ => ApiErr (mkApiError true "not found");
  gwUpdateComplianceFramework := fun _ _ _ _ _ => ApiErr (mkApiError false "down");
  gwDeleteComplianceFramework := fun _ _ => ApiErr (mkApiError true "not found");
  gwCreateComplianceControl := fun _ _ _ _ _ => ApiErr (mkApiError false "down");
  gwGetComplianceControls := fun _ _ => ApiErr (mkApiError false "down");
  gwUpdateComplianceControl := fun _ _ _ => ApiErr (mkApiError false "down");
  gwDeleteComplianceControl := fun _ _ => ApiErr (mkApiError false "down");
  gwQueryComplianceControls := fun _ _ => ApiOk (Some controlIds);
  gwQueryRule := fun _ _ => ApiErr (mkApiError false "down");
  gwReplaceControlRules := fun _ _ _ => ApiErr (mkApiError false "down");
  gwRenameSectionComplianceFramework := fun _ _ _ _ => ApiErr (mkApiError false "down")
|}.

Definition handleAPIError (e : ApiError) (op : ApiOperation) (id : string) : Diagnostics :=
  [mkDiag SeverityError (SummaryText "API error") (errExplain e)].

Definition validateAPIResponse (R : Type) (p : Payload R) (s : Summary) : Diagnostics :=
  match pErrors p, pResources p with
  | [], _ :: _ => []
  | _, _ => [mkDiag SeverityError s "invalid response"]
  end.

Definition rules (l : list string) : TfSet TfString := SetValue (map StringValue l).

Definition control (id name : string) (r : TfSet TfString) : ControlModel :=
  mkControl (StringValue id) (StringValue name) (StringValue (name +:+ " description")) r.

Definition section (id name : string) (controls : list ControlModel) : SectionModel :=
  mkSection (StringValue id) (StringValue name) (SetValue controls).

Definition sectionsOf (t : list SectionModel) : gmap string SectionModel :=
  (convertTerraformSetToSectionsMap (SetValue t)).1.

Definition framework (id name : string) (active : bool) (sections : TfSet SectionModel)
  : cloudComplianceCustomFrameworkResourceModel :=
  mkModel (StringValue id) (StringValue name) (StringValue "description")
          (BoolValue active) sections.

(** The reconciliation of an update against the store that accepts
    everything, from an empty history. *)
Definition reconcile (state plan : list SectionModel)
  : Res (TfSet SectionModel * Diagnostics) * list Event :=
  updateControlsForFramework (gateway [] []) handleAPIError validateAPIResponse
    "fw-1" (sectionsOf state) (sectionsOf plan) [].

(** Observed: Section 1 holds the controls X and Y, Section 2 holds Z. *)
Definition observedTwoSections : list SectionModel :=
  [section "sec-1" "Section 1"
     [control "ctl-X" "Control X" (rules ["r1"; "r2"]);
      control "ctl-Y" "Control Y" (rules [])];
   section "sec-2" "Section 2" [control "ctl-Z" "Control Z" (rules [])]].

(** Desired: the control X, with its identifier, now in Section 2. *)
Definition desiredMovedX : list SectionModel :=
  [section "sec-1" "Section 1" [control "ctl-Y" "Control Y" (rules [])];
   section "sec-2" "Section 2"
     [control "ctl-Z" "Control Z" (rules []);
      control "ctl-X" "Control X" (rules ["r1"; "r2"])]].

(** Desired: the control X, with its identifier, under a new name. *)
Definition desiredRenamedX : list SectionModel :=
  [section "sec-1" "Section 1"
     [control "ctl-X" "Control X renamed" (rules ["r1"; "r2"]);
      control "ctl-Y" "Control Y" (rules [])];
   section "sec-2" "Section 2" [control "ctl-Z" "Control Z" (rules [])]].

(** Observed: one section with two controls. *)
Definition observedOneSection : list SectionModel :=
  [section "sec-1" "Section 1"
     [control "ctl-A" "Control A" (rules []);
      control "ctl-B" "Control B" (rules [])]].

(** Desired: the same section under a new name, nothing else changed. *)
Definition desiredRenamedSection : list SectionModel :=
  [section "sec-1" "Section One"
     [control "ctl-A" "Control A" (rules []);
      control "ctl-B" "Control B" (rules [])]].

(** Observed: ControlA with the rules r1 and r2. *)
Definition observedRules : list SectionModel :=
  [section "sec-1" "Section1" [control "ctl-A" "ControlA" (rules ["r1"; "r2"])]].

(** Desired: ControlA with no rule, nothing else changed. *)
Definition desiredNoRules : list SectionModel :=
  [section "sec-1" "Section1" [control "ctl-A" "ControlA" (rules [])]].

(** Observed: ControlA with the empty set of rules, as a read stores it. *)
Definition observedEmptyRules : list SectionModel :=
  [section "sec-1" "Section1" [control "ctl-A" "ControlA" (rules [])]].

(** Desired: ControlA with the attribute rules left out. *)
Definition desiredOmittedRules : list SectionModel :=
  [section "sec-1" "Section1" [control "ctl-A" "ControlA" SetNull]].

(** Two controls of one section with different names and one identifier. *)
Definition sharedIdentifier : list ControlModel :=
  [control "ctl-1" "Control 1" (rules []); control "ctl-1" "Control 2" (rules [])].

(** A plan with one section, one control and two rules. *)
Definition planToCreate : cloudComplianceCustomFrameworkResourceModel :=
  mkModel StringUnknown (StringValue "Framework") (StringValue "description")
    (BoolValue false)
    (SetValue
       [mkSection StringUnknown (StringValue "Section1")
          (SetValue [mkControl StringUnknown (StringValue "ControlA")
                       (StringValue "first control") (rules ["r1"; "r2"])])]).

(** A prior state that knows the section "Section 1" as sec-1. *)
Definition priorState : cloudComplianceCustomFrameworkResourceModel :=
  framework "fw-1" "Framework" false
    (SetValue [section "sec-1" "Section 1" [control "c1" "Control c1" (rules [])]]).

(** The controls of an observed tree, by section. *)
Definition existingOf (state : list SectionModel)
  : gmap string (gmap string ControlModel) :=
  (buildExistingControlsMap (sectionsOf state)).1.

(** One step of the reconciliation: the desired ControlA, filed under its
    identifier, against the observed tree. *)
Definition stepFor (observed : list SectionModel) (rulesOfPlan : TfSet TfString)
  : M (gmap string ControlModel * Diagnostics) :=
  processControlStep (gateway [] []) handleAPIError validateAPIResponse "fw-1"
    (buildControlsByIDMap (existingOf observed)) "Section1"
    ("ctl-A", control "ctl-A" "ControlA" rulesOfPlan) (∅, []).

(** A read of the framework fw-1 whose controls c1 and c2 are in
    "Section 1", against a prior state. *)
Definition readRun (prior : option cloudComplianceCustomFrameworkResourceModel)
  : Res (TfSet SectionModel * Diagnostics) * list Event :=
  readControlsForFramework (gateway ["c1"; "c2"] ["r1"]) handleAPIError
    validateAPIResponse (mkApiFramework "fw-1" "Framework" "" false) prior [].

Definition sectionIDsOf (run : Res (TfSet SectionModel * Diagnostics) * list Event)
  : list TfString :=
  match run.1 with
  | Val out => map sID (Tf.Elements out.1)
  | Panic => []
  end.

Definition createRun : Res Diagnostics * list Event :=
  Create (gateway [] []) handleAPIError validateAPIResponse planToCreate [].

End Example.

(** A model with its active flag replaced. *)
Definition setActive (d : cloudComplianceCustomFrameworkResourceModel) (active : TfBool)
  : cloudComplianceCustomFrameworkResourceModel :=
  mkModel (mID d) (mName d) (mDescription d) active (mSections d).

(** The first remote call of an update: the update of the framework with
    the scalar fields of the plan. *)
Definition frameworkUpdateCall (plan : cloudComplianceCustomFrameworkResourceModel) : Event :=
  Remote (UpdateComplianceFramework
            (Tf.ValueString (mID plan)) (Tf.ValueString (mName plan))
            (Tf.ValueString (mDescription plan)) (Tf.ValueBool (mActive plan))).

(** An event other than the bulk rename of a section. *)
Definition noSectionRename (e : Event) : Prop := isSectionRename e = false.

(** The name of a section: its [Name.ValueString()]. *)
Definition sectionNameOf (s : SectionModel) : string := Tf.ValueString (sName s).

(** A map of sections in which every section is filed under its name. *)
Definition keyedByName (m : gmap string SectionModel) : Prop :=
  forall k s, m !! k = Some s -> sectionNameOf s = k.

(** A tree of the client as the codec expects it: the names of the sections
    are known and differ from one another, the controls of every section
    are a known set and no two of them have the key
    [convertTerraformSetToControlsMap] files them under. *)
Definition wellKeyedSection (s : SectionModel) : Prop :=
  sName s = StringValue (sectionNameOf s)
  /\ exists controls, sControls s = SetValue controls /\ NoDup (map controlKey controls).

Definition wellKeyedTree (t : list SectionModel) : Prop :=
  NoDup (map sectionNameOf t) /\ Forall wellKeyedSection t.

(** A map of controls in which every control is filed under its key. *)
Definition keyedByControlKey (m : gmap string ControlModel) : Prop :=
  forall k c, m !! k = Some c -> controlKey c = k.

(** A computation [returns] with [Q] when every run ends, without a panic,
    in a value that satisfies [Q]. *)
Definition returns {A} (Q : A -> Prop) (m : M A) : Prop :=
  forall h, exists a, result m h = Val a /\ Q a.


(** An event that is a remote call. *)
Definition isRemoteCall (e : Event) : Prop :=
  match e with Remote _ => True | _ => False end.

(** The events and the result of a finished run. *)
Definition events_of {A} (run : Res A * list Event) : list Event := run.2.
Definition result_of {A} (run : Res A * list Event) : Res A := run.1.

(** The calls the reconciliation makes for a desired control that carries
    the identifier of an observed one: the update of the control, then the
    replacement of its rules when they are not [Equal] to the observed. *)
Definition matchedCalls (existingControlsByID : gmap string ControlModel)
    (kv : string * ControlModel) : list Event :=
  match existingControlsByID !! Tf.ValueString (cID kv.2) with
  | Some existingControl =>
      Remote (UpdateComplianceControl (Tf.ValueString (cID existingControl)) kv.1)
      :: (if Tf.SetEqual (cRules existingControl) (cRules kv.2) then []
          else match planRuleIds (cRules kv.2) with
               | Some ruleIds =>
                   [Remote (ReplaceControlRules (Tf.ValueString (cID kv.2)) ruleIds)]
               | None => []
               end)
  | None => []
  end.

(** A desired control that carries a known identifier found among the
    observed controls. *)
Definition matched (existingControlsByID : gmap string ControlModel)
    (planControl : ControlModel) : Prop :=
  exists controlID,
    cID planControl = StringValue controlID
    /\ is_Some (existingControlsByID !! controlID).

(** * Vocabulary of the further properties *)

(** A set of controls that decodes to no control at all: a null or unknown
    set, or a known set without element. *)
Definition noControls (controls : TfSet ControlModel) : Prop :=
  Tf.Elements controls = [].

(** A call that only reads from the remote store. *)
Definition isReadingCall (e : Event) : Prop :=
  match e with
  | Remote (GetComplianceFrameworks _)
  | Remote (GetComplianceControls _)
  | Remote (QueryComplianceControls _)
  | Remote (QueryRule _) => True
  | _ => False
  end.

(** An event that writes to the state of the response. *)
Definition isStateWrite (e : Event) : bool :=
  match e with
  | Remote _ => false
  | _ => true
  end.

(** The diagnostic [ValidateConfig] reports for a section without control. *)
Definition emptySectionError (section : SectionModel) : Diag :=
  mkDiag SeverityError (SummaryText "Empty Section Not Allowed")
    ("Section '" +:+ Tf.ValueString (sName section)
     +:+ "' cannot be empty. Each section must contain at least one control.").

(** Events a read may produce: reading calls and writes to the state. *)
Definition readsOnly (e : Event) : Prop := isReadingCall e \/ isStateWrite e = true.

(** Calls that create, change or delete the framework itself or rename a
    section in bulk. *)
Definition touchesFramework (e : Event) : bool :=
  match e with
  | Remote (CreateComplianceFramework _ _ _)
  | Remote (UpdateComplianceFramework _ _ _ _)
  | Remote (DeleteComplianceFramework _) => true
  | _ => false
  end.

(** Events of a create: the creation of the framework and of controls, the
    assignment of rules, writes to the state. *)
Definition createsOnly (e : Event) : Prop :=
  match e with
  | Remote (CreateComplianceFramework _ _ _)
  | Remote (CreateComplianceControl _ _ _ _)
  | Remote (ReplaceControlRules _ _) => True
  | Remote _ => False
  | _ => True
  end.

(** Events of a delete: the query for the controls and the two deletions. *)
Definition deletesOnly (e : Event) : Prop :=
  match e with
  | Remote (QueryComplianceControls _)
  | Remote (DeleteComplianceControl _)
  | Remote (DeleteComplianceFramework _) => True
  | _ => False
  end.

(** Events of an update: everything but the creation, the read and the
    deletion of a framework and the bulk rename of a section. *)
Definition updatesOnly (e : Event) : Prop :=
  match e with
  | Remote (CreateComplianceFramework _ _ _)
  | Remote (GetComplianceFrameworks _)
  | Remote (DeleteComplianceFramework _)
  | Remote (RenameSectionComplianceFramework _ _ _) => False
  | StateSetAttributeID _ | StateRemoveResource => False
  | _ => True
  end.

(** The call that creates the control filed under [kv.1] in a section. *)
Definition createCallFor (frameworkID sectionName : string) (kv : string * ControlModel)
  : Event :=
  Remote (CreateComplianceControl frameworkID sectionName kv.1
            (Tf.ValueString (cDescription kv.2))).

(** The query for the rules of a control the remote store returned. *)
Definition ruleQueryFor (frameworkName : string) (control : ApimodelsControl) : Event :=
  Remote (QueryRule (complianceRulesByControlFilter frameworkName
                       (acSectionName control) (acRequirement control))).

(** What the create does to the identifier of a section filed under
    [sectionName]: a known identifier stays, any other is derived. *)
Definition withDerivedID (frameworkName sectionName : string) (section : SectionModel)
  : SectionModel :=
  if Tf.StringIsNull (sID section) || Tf.StringIsUnknown (sID section)
  then mkSection (StringValue (generateDeterministicUUID frameworkName sectionName))
                 (sName section) (sControls section)
  else section.

(** The bulk rename of a section of the framework. *)
Definition renameCallFor (frameworkID : string) (kv : string * string) : Event :=
  Remote (RenameSectionComplianceFramework frameworkID kv.1 kv.2).

(** ** Further examples *)

Module Scenario.

(** A remote store that answers no query. *)
Definition silentGateway : Gateway := {|
  gwCreateComplianceFramework := gwCreateComplianceFramework (Example.gateway [] []);
  gwGetComplianceFrameworks := gwGetComplianceFrameworks (Example.gateway [] []);
  gwUpdateComplianceFramework := gwUpdateComplianceFramework (Example.gateway [] []);
  gwDeleteComplianceFramework := gwDeleteComplianceFramework (Example.gateway [] []);
  gwCreateComplianceControl := gwCreateComplianceControl (Example.gateway [] []);
  gwGetComplianceControls := gwGetComplianceControls (Example.gateway [] []);
  gwUpdateComplianceControl := gwUpdateComplianceControl (Example.gateway [] []);
  gwDeleteComplianceControl := gwDeleteComplianceControl (Example.gateway [] []);
  gwQueryComplianceControls := fun _ _ => ApiErr (mkApiError false "timeout");
  gwQueryRule := fun _ _ => ApiErr (mkApiError false "timeout");
  gwReplaceControlRules := gwReplaceControlRules (Example.gateway [] []);
  gwRenameSectionComplianceFramework :=
    gwRenameSectionComplianceFramework (Example.gateway [] [])
|}.

(** The framework the example store knows under an identifier. *)
Definition remoteFramework : ApimodelsSecurityFramework :=
  mkApiFramework "fw-1" "Framework" "" false.

(** A configuration with a section that has no control. *)
Definition emptySection : SectionModel :=
  mkSection StringUnknown (StringValue "Empty Section") (SetValue []).

Definition configWithEmptySection : cloudComplianceCustomFrameworkResourceModel :=
  mkModel StringUnknown (StringValue "Framework") (StringValue "description")
    (BoolValue false)
    (SetValue [Example.section "sec-1" "Section 1"
                 [Example.control "" "Control 1" (Example.rules [])];
               emptySection]).

(** A desired control that has no identifier yet. *)
Definition newControl : ControlModel :=
  mkControl StringUnknown (StringValue "ControlA") (StringValue "first control")
            (Example.rules ["r1"; "r2"]).

Definition newSection : SectionModel :=
  mkSection StringUnknown (StringValue "Section1")
    (SetValue [newControl;
               mkControl StringUnknown (StringValue "ControlB")
                         (StringValue "second control") SetNull]).

(** A plan without sections for the framework of [Example.priorState]. *)
Definition planWithoutSections : cloudComplianceCustomFrameworkResourceModel :=
  Example.framework "fw-1" "Framework" false SetNull.



(** The model of the last write of a run to the state. *)
Definition lastWritten (run : Res Diagnostics * list Event)
  : cloudComplianceCustomFrameworkResourceModel :=
  match last run.2 with
  | Some (StateSet m) => m
  | _ => planWithoutSections
  end.

Definition firstSection (m : cloudComplianceCustomFrameworkResourceModel)
  : SectionModel :=
  match Tf.Elements (mSections m) with
  | s :: _ => s
  | [] => emptySection
  end.

End Scenario.

(** * Properties *)

(** ** Runs *)

Lemma events_ret {A} (a : A) h : events (ret a) h = [].
Proof. reflexivity. Qed.

Lemma events_bind {A B} (m : M A) (f : A -> M B) h :
  events (bind m f) h =
  match result m h with
  | Val a => events m h ++ events (f a) (h ++ events m h)
  | Panic => events m h
  end.
Proof.
  unfold events, result, bind.
  destruct (m h) as [[a|] e1]; simpl; [|reflexivity].
  destruct (f a (h ++ e1)); reflexivity.
Qed.

Lemma result_bind {A B} (m : M A) (f : A -> M B) h :
  result (bind m f) h =
  match result m h with
  | Val a => result (f a) (h ++ events m h)
  | Panic => Panic
  end.
Proof.
  unfold events, result, bind.
  destruct (m h) as [[a|] e1]; simpl; [|reflexivity].
  destruct (f a (h ++ e1)); reflexivity.
Qed.

Lemma events_call {A} (answer : list Event -> A) c h :
  events (call answer c) h = [Remote c].
Proof. reflexivity. Qed.

Lemma result_call {A} (answer : list Event -> A) c h :
  result (call answer c) h = Val (answer h).
Proof. reflexivity. Qed.


Section Quiet.

Variable P : Event -> Prop.

Lemma quiet_ret {A} (a : A) : quiet P (ret a).
Proof. intros h. constructor. Qed.

Lemma quiet_panic {A} : quiet P (@panic A).
Proof. intros h. constructor. Qed.

Lemma quiet_emit e : P e -> quiet P (emit e).
Proof. intros He h. repeat constructor. exact He. Qed.

Lemma quiet_call {A} (answer : list Event -> A) c :
  P (Remote c) -> quiet P (call answer c).
Proof. intros He h. repeat constructor. exact He. Qed.

Lemma quiet_bind {A B} (m : M A) (f : A -> M B) :
  quiet P m -> (forall a, quiet P (f a)) -> quiet P (bind m f).
Proof.
  intros Hm Hf h. rewrite events_bind.
  destruct (result m h) as [a|]; [|apply Hm].
  apply Forall_app. split; [apply Hm | apply Hf].
Qed.

Lemma quiet_forEach {A S} (l : list A) (body : A -> S -> M S) (s : S) :
  (forall x s', quiet P (body x s')) -> quiet P (forEach l body s).
Proof.
  intros Hbody. revert s.
  induction l as [|x l IH]; intros s; simpl.
  - apply quiet_ret.
  - apply quiet_bind; [apply Hbody | exact IH].
Qed.

End Quiet.

(** Decomposes a computation along its binds, loops and case distinctions;
    what is left are the calls and the writes to the state. *)
Ltac quiet_step :=
  match goal with
  | |- quiet _ (ret _) => apply quiet_ret
  | |- quiet _ panic => apply quiet_panic
  | |- quiet _ (bind _ _) => apply quiet_bind; [|intros ?]
  | |- quiet _ (forEach _ _ _) => apply quiet_forEach; intros ? ?
  | |- quiet _ (call _ _) => apply quiet_call
  | |- quiet _ (emit _) => apply quiet_emit
  | |- quiet _ (match ?x with _ => _ end) => destruct x
  | |- quiet _ (if ?b then _ else _) => destruct b
  | |- quiet _ (let _ := _ in _) => cbv zeta
  end.

Create HintDb quietdb.

Ltac quiet_tac :=
  repeat first [ solve [auto with quietdb] | reflexivity | quiet_step ].

(** ** No operation of the resource renames a section in bulk *)

Section NoRename.

Variable gw : Gateway.
Variable handleAPIError : ApiError -> ApiOperation -> string -> Diagnostics.
Variable validateAPIResponse : forall R, Payload R -> Summary -> Diagnostics.

Lemma createSingleControlAndReturn_quiet frameworkID sectionName controlName control :
  quiet noSectionRename
    (createSingleControlAndReturn gw handleAPIError validateAPIResponse
       frameworkID sectionName controlName control).
Proof. unfold createSingleControlAndReturn. quiet_tac. Qed.
Hint Resolve createSingleControlAndReturn_quiet : quietdb.

Lemma createControlsForFramework_quiet frameworkID sections :
  quiet noSectionRename
    (createControlsForFramework gw handleAPIError validateAPIResponse
       frameworkID sections).
Proof.
  unfold createControlsForFramework, createSectionStep, createControlStep.
  quiet_tac.
Qed.
Hint Resolve createControlsForFramework_quiet : quietdb.

Lemma queryFrameworkControls_quiet frameworkName :
  quiet noSectionRename (queryFrameworkControls gw frameworkName).
Proof. unfold queryFrameworkControls. quiet_tac. Qed.
Hint Resolve queryFrameworkControls_quiet : quietdb.

Lemma readControlsForFramework_quiet framework existingState :
  quiet noSectionRename
    (readControlsForFramework gw handleAPIError validateAPIResponse
       framework existingState).
Proof.
  unfold readControlsForFramework, getControlDetails, readControlStep,
    readControlWithRules, queryControlRules.
  quiet_tac.
Qed.
Hint Resolve readControlsForFramework_quiet : quietdb.

Lemma updateControlsForFramework_quiet frameworkID stateSections planSections :
  quiet noSectionRename
    (updateControlsForFramework gw handleAPIError validateAPIResponse
       frameworkID stateSections planSections).
Proof.
  unfold updateControlsForFramework, processControlUpdates, processSectionStep,
    processControlStep, updateMatchedControl, createPlannedControl,
    updateExistingControl, updateControlRules, deleteRemovedControls,
    deleteRemovedStep.
  quiet_tac.
Qed.
Hint Resolve updateControlsForFramework_quiet : quietdb.

Lemma deleteControlsForFramework_quiet frameworkName :
  quiet noSectionRename (deleteControlsForFramework gw frameworkName).
Proof. unfold deleteControlsForFramework. quiet_tac. Qed.
Hint Resolve deleteControlsForFramework_quiet : quietdb.

Lemma Create_quiet plan :
  quiet noSectionRename (Create gw handleAPIError validateAPIResponse plan).
Proof. unfold Create. quiet_tac. Qed.

Lemma Read_quiet state :
  quiet noSectionRename (Read gw handleAPIError validateAPIResponse state).
Proof. unfold Read. quiet_tac. Qed.

Lemma Update_quiet plan state :
  quiet noSectionRename (Update gw handleAPIError validateAPIResponse plan state).
Proof. unfold Update. quiet_tac. Qed.

Lemma Delete_quiet state :
  quiet noSectionRename (Delete gw handleAPIError state).
Proof. unfold Delete. quiet_tac. Qed.

End NoRename.

(** ** Maps of sections filed under their names *)

Lemma keyedByName_empty : keyedByName ∅.
Proof. intros k s Hk. rewrite lookup_empty in Hk. discriminate. Qed.

Lemma keyedByName_insert (m : gmap string SectionModel) s :
  keyedByName m -> keyedByName (<[sectionNameOf s := s]> m).
Proof.
  intros Hm k s' Hk.
  destruct (decide (sectionNameOf s = k)) as [<-|Hne].
  - rewrite lookup_insert_eq in Hk. congruence.
  - rewrite lookup_insert_ne in Hk by exact Hne. eapply Hm, Hk.
Qed.

Lemma convertTerraformSetToSectionsMap_keyed (sectionsSet : TfSet SectionModel) :
  keyedByName (convertTerraformSetToSectionsMap sectionsSet).1.
Proof.
  unfold convertTerraformSetToSectionsMap.
  destruct sectionsSet as [| |sections]; simpl; try apply keyedByName_empty.
  generalize (∅ : gmap string SectionModel) keyedByName_empty.
  induction sections as [|s sections IH]; intros m Hm; simpl.
  - exact Hm.
  - apply IH, keyedByName_insert, Hm.
Qed.

Lemma detectSectionRenames_keyed (stateSections planSections : gmap string SectionModel) :
  keyedByName stateSections -> keyedByName planSections ->
  detectSectionRenames stateSections planSections = ∅.
Proof.
  intros Hstate Hplan. unfold detectSectionRenames.
  assert (Hall : Forall (fun kv : string * SectionModel => sectionNameOf kv.2 = kv.1)
                        (map_to_list planSections)).
  { apply Forall_forall. intros [k s] Hin.
    apply elem_of_map_to_list in Hin. simpl. eapply Hplan, Hin. }
  induction Hall as [|[k s] l Hks _ IH]; simpl; [reflexivity|].
  simpl in Hks. destruct (stateSections !! k) as [stateSection|] eqn:Hk; [|exact IH].
  apply Hstate in Hk. unfold sectionNameOf in Hk, Hks.
  rewrite Hk, Hks. rewrite bool_decide_eq_false_2 by (intros Hne; apply Hne; reflexivity).
  exact IH.
Qed.

(** ** Equality of sets of the client *)

Lemma SetEqual_known_Permutation (l1 l2 : list TfString) :
  NoDup l1 ->
  Tf.SetEqual (SetValue l1) (SetValue l2) = true <-> l1 ≡ₚ l2.
Proof.
  intros Hnodup. unfold Tf.SetEqual. rewrite andb_true_iff, bool_decide_eq_true.
  rewrite forallb_forall. split.
  - intros [Hlen Hsub].
    apply submseteq_length_Permutation; [|rewrite Hlen; reflexivity].
    apply NoDup_submseteq; [exact Hnodup|].
    intros x Hx. apply list_elem_of_In, Hsub in Hx.
    apply bool_decide_eq_true in Hx. exact Hx.
  - intros Hperm. split; [apply Permutation_length, Hperm|].
    intros x Hx. apply bool_decide_eq_true. rewrite <- Hperm.
    apply list_elem_of_In, Hx.
Qed.

Lemma SetEqual_sameElements (s o : TfSet TfString) :
  NoDup (Tf.Elements s) ->
  Tf.SetEqual s o = true <-> sameElements s o.
Proof.
  intros Hnodup. destruct s as [| |l1], o as [| |l2]; simpl;
    try (split; [discriminate | contradiction]);
    try (split; [constructor | reflexivity]).
  apply SetEqual_known_Permutation, Hnodup.
Qed.

Lemma StringsAs_values (l : list string) : Tf.StringsAs (map StringValue l) = Some l.
Proof. induction l as [|x l IH]; simpl; [reflexivity | rewrite IH; reflexivity]. Qed.

(** ** The update of a matched control *)

Section UpdateSteps.

Variable gw : Gateway.
Variable handleAPIError : ApiError -> ApiOperation -> string -> Diagnostics.
Variable validateAPIResponse : forall R, Payload R -> Summary -> Diagnostics.

Lemma updateExistingControl_run existingControl planControl controlName sectionName h :
  exists diags,
    updateExistingControl gw existingControl planControl controlName sectionName h =
    (Val diags,
     [Remote (UpdateComplianceControl (Tf.ValueString (cID existingControl))
                                      controlName)]).
Proof.
  unfold updateExistingControl, bind, call.
  destruct (gwUpdateComplianceControl gw h _ controlName); simpl; eauto.
Qed.

Lemma updateControlRules_run controlID planControl controlName h :
  exists diags,
    updateControlRules gw controlID planControl controlName h =
    (Val diags,
     match planRuleIds (cRules planControl) with
     | Some ruleIds => [Remote (ReplaceControlRules controlID ruleIds)]
     | None => []
     end).
Proof.
  unfold updateControlRules.
  destruct (planRuleIds (cRules planControl)) as [ruleIds|]; [|simpl; eauto].
  unfold bind, call.
  destruct (gwReplaceControlRules gw h controlID ruleIds); simpl; eauto.
Qed.

(** The calls of the update branch: the update of the control, and the
    replacement of its rules when the rules of the plan are not [Equal] to
    those of the existing control. *)
Lemma updateMatchedControl_run existingControl planControl controlID controlName
    sectionName st h :
  exists updated,
    updateMatchedControl gw existingControl planControl controlID controlName
                         sectionName st h =
    (Val updated,
     Remote (UpdateComplianceControl (Tf.ValueString (cID existingControl)) controlName)
     :: (if Tf.SetEqual (cRules existingControl) (cRules planControl) then []
         else match planRuleIds (cRules planControl) with
              | Some ruleIds => [Remote (ReplaceControlRules controlID ruleIds)]
              | None => []
              end))
    /\ updated.1 !! controlName =
       Some (mkControl (cID existingControl) (StringValue controlName)
                       (cDescription planControl) (cRules planControl)).
Proof.
  unfold updateMatchedControl, bind at 1.
  destruct (updateExistingControl_run existingControl planControl controlName
              sectionName h) as (d1 & ->).
  destruct (Tf.SetEqual (cRules existingControl) (cRules planControl)); simpl.
  - eexists. split; [reflexivity|]. simpl. apply lookup_insert_eq.
  - unfold bind.
    match goal with |- context [updateControlRules gw controlID planControl controlName ?h'] =>
      destruct (updateControlRules_run controlID planControl controlName h') as (d2 & ->)
    end.
    simpl. rewrite app_nil_r.
    eexists. split; [reflexivity|]. simpl. apply lookup_insert_eq.
Qed.

(** Every control in the index by identifier is filed under its own,
    known identifier. *)
Lemma buildControlsByIDMap_key existingControls controlID existingControl :
  buildControlsByIDMap existingControls !! controlID = Some existingControl ->
  cID existingControl = StringValue controlID.
Proof.
  unfold buildControlsByIDMap.
  generalize (map_to_list existingControls). intros sections.
  assert (Hinit : forall k c, (∅ : gmap string ControlModel) !! k = Some c ->
                              cID c = StringValue k).
  { intros k c Hk. rewrite lookup_empty in Hk. discriminate. }
  revert Hinit. generalize (∅ : gmap string ControlModel).
  induction sections as [|skv sections IH]; intros m Hm; simpl.
  - apply Hm.
  - apply IH. clear IH. revert m Hm.
    generalize (map_to_list skv.2). intros controls.
    induction controls as [|ckv controls IHc]; intros m Hm; simpl.
    + exact Hm.
    + apply IHc. destruct (cID ckv.2) as [| |id] eqn:Hid; simpl; try exact Hm.
      intros k c Hk. destruct (decide (id = k)) as [<-|Hne].
      * rewrite lookup_insert_eq in Hk. injection Hk as <-. exact Hid.
      * rewrite lookup_insert_ne in Hk by exact Hne. apply Hm, Hk.
Qed.

(** A loop whose steps all end and make calls that depend on the element
    only makes the calls of its elements, one element after the other. *)
Lemma forEach_run {A S} (l : list A) (body : A -> S -> M S) (calls : A -> list Event) :
  (forall x, x ∈ l -> forall s h, exists s', body x s h = (Val s', calls x)) ->
  forall s h, exists s', forEach l body s h = (Val s', flat_map calls l).
Proof.
  induction l as [|x l IH]; intros Hbody s h; simpl.
  - eexists. reflexivity.
  - unfold bind.
    destruct (Hbody x (list_elem_of_here _ _) s h) as (s1 & ->).
    destruct (IH (fun y Hy => Hbody y (list_elem_of_further _ _ _ Hy)) s1
                 (h ++ calls x)) as (s2 & ->).
    eexists. reflexivity.
Qed.

Lemma processControlStep_matched frameworkID existingControlsByID sectionName kv st h :
  matched existingControlsByID kv.2 ->
  exists st',
    processControlStep gw handleAPIError validateAPIResponse frameworkID
      existingControlsByID sectionName kv st h
    = (Val st', matchedCalls existingControlsByID kv).
Proof.
  intros (controlID & Hid & existingControl & Hexisting).
  unfold processControlStep, matchedCalls. rewrite Hid. simpl. rewrite Hexisting.
  destruct (updateMatchedControl_run existingControl kv.2 controlID kv.1 sectionName
              st h) as (updated & -> & _).
  eexists. reflexivity.
Qed.

(** In a section of the plan that is processed (no error before it) and
    whose controls all carry identifiers of observed controls, every control
    is processed: the calls of the section are those of its controls. *)
Lemma processSectionStep_matched frameworkID existingControlsByID sectionName
    planSection updatedSections diags h :
  HasError diags = false ->
  (forall key planControl,
     (convertTerraformSetToControlsMap (sControls planSection)).1 !! key
       = Some planControl ->
     matched existingControlsByID planControl) ->
  events (processSectionStep gw handleAPIError validateAPIResponse frameworkID
            existingControlsByID (sectionName, planSection) (updatedSections, diags)) h
  = flat_map (matchedCalls existingControlsByID)
      (map_to_list (convertTerraformSetToControlsMap (sControls planSection)).1).
Proof.
  intros Hdiags Hmatched. unfold processSectionStep. cbn [fst snd].
  assert (Hconv : (convertTerraformSetToControlsMap (sControls planSection)).2 = []).
  { unfold convertTerraformSetToControlsMap. destruct (_ || _); reflexivity. }
  rewrite Hconv, app_nil_r, Hdiags.
  unfold events, bind.
  match goal with |- context [forEach ?l ?body ?s0 ?h0] =>
    assert (Hloop : exists done,
              forEach l body s0 h0
              = (Val done, flat_map (matchedCalls existingControlsByID) l))
  end.
  { apply forEach_run. intros [key planControl] Hin s h'.
    apply processControlStep_matched. simpl.
    apply elem_of_map_to_list in Hin. eapply Hmatched, Hin. }
  destruct Hloop as (done & ->).
  simpl.
  match goal with |- context [if HasError ?d then _ else _] => destruct (HasError d) end;
    simpl; rewrite app_nil_r; reflexivity.
Qed.

End UpdateSteps.

(** ** The codec *)

(** Filing the elements of a list one after the other under keys that
    differ from one another keeps them all. *)
Lemma foldl_insert_to_list {A} (key : A -> string) (l : list A) (m : gmap string A) :
  NoDup (map key l) ->
  (forall x, x ∈ l -> m !! key x = None) ->
  map_to_list (foldl (fun acc x => <[key x := x]> acc) m l)
    ≡ₚ map (fun x => (key x, x)) l ++ map_to_list m.
Proof.
  revert m. induction l as [|a l IH]; intros m Hnodup Hfresh; simpl.
  - reflexivity.
  - apply NoDup_cons in Hnodup as [Hnotin Hnodup].
    rewrite IH.
    + rewrite map_to_list_insert by (apply Hfresh; left).
      rewrite Permutation_middle. reflexivity.
    + exact Hnodup.
    + intros x Hx. rewrite lookup_insert_ne.
      * apply Hfresh. right. exact Hx.
      * intros Heq. apply Hnotin. rewrite Heq.
        apply list_elem_of_fmap_2. exact Hx.
Qed.

Lemma foldl_insert_keyed {A} (key : A -> string) (l : list A) (m : gmap string A) :
  (forall k x, m !! k = Some x -> key x = k) ->
  forall k x, foldl (fun acc x => <[key x := x]> acc) m l !! k = Some x -> key x = k.
Proof.
  revert m. induction l as [|a l IH]; intros m Hm; simpl; [exact Hm|].
  apply IH. intros k x Hk.
  destruct (decide (key a = k)) as [<-|Hne].
  - rewrite lookup_insert_eq in Hk. congruence.
  - rewrite lookup_insert_ne in Hk by exact Hne. apply Hm, Hk.
Qed.

(** A control with a known, non-empty identifier is filed under the
    identifier: in the loops over the decoded controls, the variable that
    holds the key then holds the identifier, not the name. *)
Lemma controlKey_identified (control : ControlModel) (id : string) :
  cID control = StringValue id -> id <> "" -> controlKey control = id.
Proof.
  intros Hid Hne. unfold controlKey. rewrite Hid. simpl.
  rewrite bool_decide_eq_false_2 by exact Hne. reflexivity.
Qed.

Lemma convertTerraformSetToControlsMap_keyed (controlsSet : TfSet ControlModel) :
  keyedByControlKey (convertTerraformSetToControlsMap controlsSet).1.
Proof.
  unfold convertTerraformSetToControlsMap.
  destruct controlsSet as [| |controls]; simpl;
    try (intros k c Hk; rewrite lookup_empty in Hk; discriminate).
  unfold keyedByControlKey. apply (foldl_insert_keyed controlKey).
  intros k c Hk. rewrite lookup_empty in Hk. discriminate.
Qed.

Lemma recodeControls_known (controls : list ControlModel) :
  NoDup (map controlKey controls) ->
  exists controls',
    recodeControls (SetValue controls) = SetValue controls' /\ controls' ≡ₚ controls.
Proof.
  intros Hnodup. unfold recodeControls, convertControlsMapToTerraformSet,
    convertTerraformSetToControlsMap. simpl.
  eexists. split; [reflexivity|].
  rewrite (foldl_insert_to_list controlKey) by
    (try exact Hnodup; intros x _; apply lookup_empty).
  rewrite map_to_list_empty, app_nil_r, map_map. simpl.
  clear Hnodup. induction controls as [|[] controls IH]; simpl; [reflexivity|].
  rewrite IH. reflexivity.
Qed.

Lemma recodeSection_equiv (s : SectionModel) :
  wellKeyedSection s ->
  sectionEquiv
    (mkSection (sID s) (StringValue (sectionNameOf s)) (recodeControls (sControls s))) s.
Proof.
  intros (Hname & controls & Hcontrols & Hnodup).
  split; [reflexivity|]. split; [simpl; symmetry; exact Hname|].
  cbn [sControls]. rewrite Hcontrols.
  destruct (recodeControls_known controls Hnodup) as (controls' & -> & Hperm).
  exact Hperm.
Qed.

Lemma recodeTree_known (t : list SectionModel) :
  wellKeyedTree t ->
  exists t', recodeTree (SetValue t) = SetValue t' /\ treeEquiv t' t.
Proof.
  intros [Hnodup Hsections].
  unfold recodeTree, convertSectionsMapToTerraformSet, convertTerraformSetToSectionsMap.
  simpl. eexists. split; [reflexivity|].
  exists (map (fun s => mkSection (sID s) (StringValue (sectionNameOf s))
                                  (recodeControls (sControls s))) t).
  split.
  - rewrite map_to_list_fmap.
    rewrite (foldl_insert_to_list sectionNameOf) by
      (try exact Hnodup; intros x _; apply lookup_empty).
    rewrite map_to_list_empty, app_nil_r.
    clear. induction t as [|s t IH]; simpl; [reflexivity|].
    apply Permutation_skip, IH.
  - clear Hnodup. induction Hsections as [|s t Hs _ IH]; simpl; constructor.
    + apply recodeSection_equiv, Hs.
    + exact IH.
Qed.

Lemma convertSectionsMapToTerraformSet_elements (sections : gmap string SectionModel) e :
  e ∈ Tf.Elements (convertSectionsMapToTerraformSet sections).1 <->
  exists k s, sections !! k = Some s
              /\ e = mkSection (sID s) (StringValue k) (sControls s).
Proof.
  unfold convertSectionsMapToTerraformSet. simpl.
  rewrite list_elem_of_In, in_map_iff. split.
  - intros ([k s] & <- & Hin). exists k, s. split; [|reflexivity].
    apply elem_of_map_to_list, list_elem_of_In, Hin.
  - intros (k & s & Hk & ->). exists (k, s). split; [reflexivity|].
    apply list_elem_of_In, elem_of_map_to_list, Hk.
Qed.

Lemma convertControlsMapToTerraformSet_elements (controlsMap : gmap string ControlModel) e :
  e ∈ Tf.Elements (convertControlsMapToTerraformSet controlsMap).1 <->
  exists k, controlsMap !! k = Some e.
Proof.
  unfold convertControlsMapToTerraformSet. simpl.
  rewrite list_elem_of_In, in_map_iff. split.
  - intros ([k c] & <- & Hin). exists k. simpl. destruct c.
    apply elem_of_map_to_list, list_elem_of_In, Hin.
  - intros (k & Hk). exists (k, e). split; [destruct e; reflexivity|].
    apply list_elem_of_In, elem_of_map_to_list, Hk.
Qed.

(** ** Results of runs *)

Lemma returns_ret {A} (Q : A -> Prop) (a : A) : Q a -> returns Q (ret a).
Proof. intros Ha h. exists a. split; [reflexivity | exact Ha]. Qed.


Lemma returns_bind {A B} (Q1 : A -> Prop) (Q2 : B -> Prop) (m : M A) (f : A -> M B) :
  returns Q1 m -> (forall a, Q1 a -> returns Q2 (f a)) -> returns Q2 (bind m f).
Proof.
  intros Hm Hf h. rewrite result_bind.
  destruct (Hm h) as (a & -> & Ha). apply Hf, Ha.
Qed.

Lemma returns_forEach {A S} (I : S -> Prop) (l : list A) (body : A -> S -> M S) (s : S) :
  (forall x s', I s' -> returns I (body x s')) -> I s -> returns I (forEach l body s).
Proof.
  intros Hbody. revert s.
  induction l as [|x l IH]; intros s Hs; simpl.
  - apply returns_ret, Hs.
  - eapply returns_bind; [apply Hbody, Hs | exact IH].
Qed.



(** ** Identifiers of the sections of a read *)


Section ReadSteps.

Variable gw : Gateway.
Variable handleAPIError : ApiError -> ApiOperation -> string -> Diagnostics.
Variable validateAPIResponse : forall R, Payload R -> Summary -> Diagnostics.






End ReadSteps.

Section ReadState.

Variable gw : Gateway.
Variable handleAPIError : ApiError -> ApiOperation -> string -> Diagnostics.
Variable validateAPIResponse : forall R, Payload R -> Summary -> Diagnostics.



End ReadState.

(** ** The identity generator *)

Lemma sha1_twenty_bytes msg :
  exists b0 b1 b2 b3 b4 b5 b6 b7 b8 b9 b10 b11 b12 b13 b14 b15 b16 b17 b18 b19,
    UUID.sha1 msg =
    [b0; b1; b2; b3; b4; b5; b6; b7; b8; b9; b10; b11; b12; b13; b14; b15; b16; b17;
     b18; b19].
Proof.
  unfold UUID.sha1. set (s := fold_left _ _ _). clearbody s.
  cbn [UUID.be_bytes app]. repeat eexists.
Qed.



(** The digest of "abc" (FIPS 180) and the identifier of "python.org" in the
    DNS name space (the example of RFC 4122 implementations). *)
Example sha1_abc :
  UUID.hex (UUID.sha1 (UUID.bytes_of_string "abc"))
  = "a9993e364706816aba3e25717850c26c9cd0d89d".
Proof. vm_compute. reflexivity. Qed.

Example uuid5_python_org :
  UUID.String
    (UUID.NewSHA1
       [107; 167; 184; 16; 157; 173; 17; 209; 128; 180; 0; 192; 79; 212; 48; 200]%Z
       (UUID.bytes_of_string "python.org"))
  = "886313e1-3b8a-5372-9b90-0c9aee199e5d".
Proof. vm_compute. reflexivity. Qed.

Example derived_section_identifier :
  generateDeterministicUUID "example-framework" "Section 1"
  = "3d43184e-6065-5f15-a711-bbca9c835eef".
Proof. vm_compute. reflexivity. Qed.

(** A read keeps the identifier sec-1 the prior state has for "Section 1",
    and derives one when there is no prior state. *)
Example read_keeps_known_identifier :
  Example.sectionIDsOf (Example.readRun (Some Example.priorState))
  = [StringValue "sec-1"].
Proof. vm_compute. reflexivity. Qed.

Example read_derives_identifier :
  Example.sectionIDsOf (Example.readRun None)
  = [StringValue (generateDeterministicUUID "Framework" "Section 1")].
Proof. vm_compute. reflexivity. Qed.

(** ** The deletion of removed controls *)

Section DeleteSteps.

Variable gw : Gateway.
Variable handleAPIError : ApiError -> ApiOperation -> string -> Diagnostics.

(** A control of the state is deleted as soon as the plan section that has
    the name of its state section does not hold its key, wherever else in
    the plan its identifier may be. *)
Lemma deleteRemovedStep_not_in_section planSections stateSectionName key stateControl
    diags h :
  (forall planSection,
     planSections !! stateSectionName = Some planSection ->
     (convertTerraformSetToControlsMap (sControls planSection)).1 !! key = None) ->
  events (deleteRemovedStep gw planSections stateSectionName (key, stateControl) diags) h
  = [Remote (DeleteComplianceControl [Tf.ValueString (cID stateControl)])].
Proof.
  intros Hmissing. unfold deleteRemovedStep. cbn [fst snd].
  destruct (planSections !! stateSectionName) as [planSection|].
  - rewrite (Hmissing planSection eq_refl).
    destruct (HasError _); unfold events, bind, call; simpl;
      destruct (gwDeleteComplianceControl gw h [Tf.ValueString (cID stateControl)]);
      reflexivity.
  - unfold events, bind, call. simpl.
    destruct (gwDeleteComplianceControl gw h [Tf.ValueString (cID stateControl)]);
      reflexivity.
Qed.

(** A control of the state is kept when the plan section that has the name
    of its state section holds its key. *)
Lemma deleteRemovedStep_in_section planSections stateSectionName key stateControl
    planSection planControl diags h :
  planSections !! stateSectionName = Some planSection ->
  (convertTerraformSetToControlsMap (sControls planSection)).1 !! key = Some planControl ->
  HasError diags = false ->
  events (deleteRemovedStep gw planSections stateSectionName (key, stateControl) diags) h
  = [].
Proof.
  intros Hsection Hcontrol Hdiags. unfold deleteRemovedStep. cbn [fst snd].
  rewrite Hsection, Hcontrol.
  assert (Hconv : (convertTerraformSetToControlsMap (sControls planSection)).2 = []).
  { unfold convertTerraformSetToControlsMap. destruct (_ || _); reflexivity. }
  rewrite Hconv, app_nil_r, Hdiags. reflexivity.
Qed.

(** When the query by framework name fails, a delete stops there with an
    error: nothing is deleted. *)
Lemma Delete_query_failure state h err :
  gwQueryComplianceControls gw h
    (complianceControlsByFrameworkFilter (Tf.ValueString (mName state))) = ApiErr err ->
  events (Delete gw handleAPIError state) h
  = [Remote (QueryComplianceControls
               (complianceControlsByFrameworkFilter (Tf.ValueString (mName state))))]
  /\ exists diags, result (Delete gw handleAPIError state) h = Val diags
                   /\ HasError diags = true.
Proof.
  intros Hquery.
  unfold Delete, deleteControlsForFramework, queryFrameworkControls, events, result,
    bind, call.
  rewrite Hquery. simpl. split; [reflexivity|]. eexists. split; reflexivity.
Qed.

End DeleteSteps.

(** * The claims *)

(** Exhibits a diagnostic among those of the result. *)
Ltac exists_diag d :=
  eexists _, d; split; [reflexivity|];
  split; [first [assumption | apply elem_of_app; left; assumption]|];
  split; assumption.

Section Claims.

Variable gw : Gateway.
Variable handleAPIError : ApiError -> ApiOperation -> string -> Diagnostics.
Variable validateAPIResponse : forall R, Payload R -> Summary -> Diagnostics.

(** An update whose active flag passes the validation starts with the
    update of the framework. *)
Lemma Update_starts plan state h :
  validateActiveFieldTransition (mActive state) (mActive plan) = [] ->
  exists rest,
    events (Update gw handleAPIError validateAPIResponse plan state) h =
    frameworkUpdateCall plan :: rest.
Proof.
  intros Hvalid. unfold Update. rewrite Hvalid. simpl.
  rewrite events_bind, result_call, events_call. simpl. eauto.
Qed.

(** C5.  An update that turns the active flag from true to false is
    rejected by the validation before anything is sent to the remote store:
    the run has no event at all and ends with an error.  From false to
    true and from false to false the validation reports nothing and the
    update goes on to its first remote call, the update of the framework. *)
Theorem C5_active_flag_monotonic
    (plan state : cloudComplianceCustomFrameworkResourceModel) (h : list Event) :
  let update p s := Update gw handleAPIError validateAPIResponse p s in
  (events (update (setActive plan (BoolValue false)) (setActive state (BoolValue true))) h = []
   /\ exists diags,
        result (update (setActive plan (BoolValue false))
                       (setActive state (BoolValue true))) h = Val diags
        /\ HasError diags = true)
  /\ (forall new : bool,
        validateActiveFieldTransition (BoolValue false) (BoolValue new) = []
        /\ exists rest,
             events (update (setActive plan (BoolValue new))
                            (setActive state (BoolValue false))) h =
             frameworkUpdateCall (setActive plan (BoolValue new)) :: rest).
Proof.
  intros update. split.
  - split; [reflexivity|]. eexists. split; reflexivity.
  - intros new. split; [reflexivity|].
    apply Update_starts. reflexivity.
Qed.

(** C9.  When the query by framework name answers, a delete issues, in
    this order and nothing else: the query, one call deleting all the
    controls the query returned, one call deleting the framework.  When
    the deletion of the controls fails the run reports a warning and the
    framework is deleted all the same; when the framework is reported as
    not found the run ends without an error. *)
Theorem C9_delete_breadth
    (state : cloudComplianceCustomFrameworkResourceModel) (h : list Event)
    (answer : option (list string)) :
  let frameworkName := Tf.ValueString (mName state) in
  let frameworkID := Tf.ValueString (mID state) in
  let filter := complianceControlsByFrameworkFilter frameworkName in
  let controlIds := default [] answer in
  let delete := Delete gw handleAPIError state in
  gwQueryComplianceControls gw h filter = ApiOk answer ->
  events delete h =
    [Remote (QueryComplianceControls filter);
     Remote (DeleteComplianceControl controlIds);
     Remote (DeleteComplianceFramework frameworkID)]
  /\ (forall e,
        gwDeleteComplianceControl gw (h ++ [Remote (QueryComplianceControls filter)])
          controlIds = ApiErr e ->
        exists diags d,
          result delete h = Val diags /\ d ∈ diags
          /\ dSeverity d = SeverityWarning
          /\ dSummary d = SummaryText "Error Deleting Controls")
  /\ (forall e,
        gwDeleteComplianceFramework gw
          (h ++ [Remote (QueryComplianceControls filter);
                 Remote (DeleteComplianceControl controlIds)]) frameworkID = ApiErr e ->
        errNotFound e = true ->
        exists diags, result delete h = Val diags /\ HasError diags = false).
Proof.
  intros frameworkName frameworkID filter controlIds delete Hquery.
  assert (Hq : forall h',
    h' = h ->
    queryFrameworkControls gw frameworkName h' =
    (Val (controlIds, []), [Remote (QueryComplianceControls filter)])).
  { intros h' ->. unfold queryFrameworkControls, bind, call.
    fold filter. rewrite Hquery. destruct answer; reflexivity. }
  assert (Hd : forall h',
    h' = h ->
    exists wd,
      deleteControlsForFramework gw frameworkName h' =
      (Val wd, [Remote (QueryComplianceControls filter);
                Remote (DeleteComplianceControl controlIds)])
      /\ HasError wd = false
      /\ (forall e,
            gwDeleteComplianceControl gw (h ++ [Remote (QueryComplianceControls filter)])
              controlIds = ApiErr e ->
            exists d, d ∈ wd /\ dSeverity d = SeverityWarning
                      /\ dSummary d = SummaryText "Error Deleting Controls")).
  { intros h' ->. unfold deleteControlsForFramework, bind at 1.
    rewrite (Hq h eq_refl). simpl. unfold bind, call.
    destruct (gwDeleteComplianceControl gw _ controlIds) as [e|[]] eqn:Hdel; simpl.
    - eexists. split; [reflexivity|]. split; [reflexivity|].
      intros e' _. eexists. split; [apply list_elem_of_here|]. split; reflexivity.
    - eexists. split; [reflexivity|]. split; [reflexivity|]. intros e' [=]. }
  destruct (Hd h eq_refl) as (wd & Hrun & Hwd & Hwarn).
  unfold delete, Delete, events, result, bind, call.
  fold frameworkName. rewrite Hrun, Hwd. fold frameworkID. simpl.
  destruct (gwDeleteComplianceFramework gw _ frameworkID) as [e|[errors|]] eqn:Hfw; simpl.
  - split; [destruct (errNotFound e); reflexivity|]. split.
    + intros e' He'. destruct (Hwarn e' He') as (d & Hin & Hsev & Hsum).
      destruct (errNotFound e); simpl; exists_diag d.
    + intros e' [= <-] Hnf. rewrite Hnf. simpl. eauto.
  - split; [destruct (AssertNoError errors); reflexivity|]. split.
    + intros e' He'. destruct (Hwarn e' He') as (d & Hin & Hsev & Hsum).
      destruct (AssertNoError errors); simpl; exists_diag d.
    + intros e' [=].
  - split; [reflexivity|]. split.
    + intros e' He'. destruct (Hwarn e' He') as (d & Hin & Hsev & Hsum).
      exists_diag d.
    + intros e' [=].
Qed.

(** The events of a create: the creation of the framework, then either
    nothing more or the write of the identifier of the created framework
    to the state, followed by all the rest. *)
Lemma Create_events plan h :
  let name := Tf.ValueString (mName plan) in
  let description := Tf.ValueString (mDescription plan) in
  let active := Tf.ValueBool (mActive plan) in
  exists tail,
    events (Create gw handleAPIError validateAPIResponse plan) h =
    Remote (CreateComplianceFramework name description active) :: tail
    /\ (tail = []
        \/ exists payload framework others tail',
             gwCreateComplianceFramework gw h name description active = ApiOk payload
             /\ pResources payload = framework :: others
             /\ tail = StateSetAttributeID (StringValue (fwUUID framework)) :: tail').
Proof.
  intros name description active. unfold Create.
  rewrite events_bind, result_call, events_call. fold name description active.
  destruct (gwCreateComplianceFramework gw h name description active)
    as [err|payload] eqn:Hcreate.
  - exists []. split; [reflexivity | left; reflexivity].
  - destruct (HasError (validateAPIResponse _ payload errorCreatingFramework)).
    + exists []. split; [reflexivity | left; reflexivity].
    + destruct (pResources payload) as [|framework others] eqn:Hres.
      * exists []. split; [reflexivity | left; reflexivity].
      * rewrite events_bind. simpl.
        eexists. split; [reflexivity|]. right.
        exists payload, framework, others. eexists.
        split; [reflexivity|]. split; [exact Hres | reflexivity].
Qed.

(** C8.  In every run of a create, a call that creates a control or
    assigns rules comes after the write of the identifier of the framework,
    as the remote store assigned it, to the state. *)
Theorem C8_framework_id_persisted_first
    (plan : cloudComplianceCustomFrameworkResourceModel) (h : list Event)
    (before after : list Event) (c : Call) :
  events (Create gw handleAPIError validateAPIResponse plan) h
    = before ++ Remote c :: after ->
  isControlCreate (Remote c) || isRuleReplace (Remote c) = true ->
  exists payload framework others before1 before2,
    gwCreateComplianceFramework gw h (Tf.ValueString (mName plan))
      (Tf.ValueString (mDescription plan)) (Tf.ValueBool (mActive plan))
      = ApiOk payload
    /\ pResources payload = framework :: others
    /\ before = before1 ++ StateSetAttributeID (StringValue (fwUUID framework)) :: before2.
Proof.
  intros Hevents Hkind.
  destruct (Create_events plan h) as (tail & Hrun & Htail).
  rewrite Hrun in Hevents.
  destruct before as [|first before'].
  - simpl in Hevents. injection Hevents as Hc _. subst c. discriminate Hkind.
  - simpl in Hevents. injection Hevents as <- Hrest.
    destruct Htail as [->|(payload & framework & others & tail' & Hgw & Hres & ->)].
    + destruct before'; discriminate Hrest.
    + exists payload, framework, others.
      destruct before' as [|second before''].
      * simpl in Hrest. discriminate Hrest.
      * simpl in Hrest. injection Hrest as <- _.
        exists [Remote (CreateComplianceFramework (Tf.ValueString (mName plan))
                          (Tf.ValueString (mDescription plan))
                          (Tf.ValueBool (mActive plan)))], before''.
        split; [exact Hgw|]. split; [exact Hres | reflexivity].
Qed.

(** C10.  The maps the decoder builds file every section under its own
    name, so the rename detector finds no rename between two of them and
    the rename handler sends nothing; and no run of create, read, update
    or delete contains a bulk rename of a section. *)
Theorem C10_no_section_rename_call
    (stateSet planSet : TfSet SectionModel)
    (plan state : cloudComplianceCustomFrameworkResourceModel)
    (frameworkID : string) (h : list Event) :
  let stateSections := (convertTerraformSetToSectionsMap stateSet).1 in
  let planSections := (convertTerraformSetToSectionsMap planSet).1 in
  keyedByName stateSections
  /\ keyedByName planSections
  /\ detectSectionRenames stateSections planSections = ∅
  /\ events (handleSectionRenames gw frameworkID stateSections planSections) h = []
  /\ Forall noSectionRename (events (Create gw handleAPIError validateAPIResponse plan) h)
  /\ Forall noSectionRename (events (Read gw handleAPIError validateAPIResponse state) h)
  /\ Forall noSectionRename
       (events (Update gw handleAPIError validateAPIResponse plan state) h)
  /\ Forall noSectionRename (events (Delete gw handleAPIError state) h).
Proof.
  intros stateSections planSections.
  pose proof (convertTerraformSetToSectionsMap_keyed stateSet) as Hstate.
  pose proof (convertTerraformSetToSectionsMap_keyed planSet) as Hplan.
  fold stateSections in Hstate. fold planSections in Hplan.
  split; [exact Hstate|]. split; [exact Hplan|].
  split; [apply detectSectionRenames_keyed; assumption|].
  split.
  { unfold handleSectionRenames.
    rewrite detectSectionRenames_keyed by assumption.
    rewrite map_to_list_empty. reflexivity. }
  split; [apply Create_quiet|]. split; [apply Read_quiet|].
  split; [apply Update_quiet | apply Delete_quiet].
Qed.

(** C3 (amended).  A desired control that carries the identifier of an
    observed control is updated in place whenever it is processed: exactly
    one update call for that identifier is sent, whether or not the name or
    the section differ from the observed ones, and no call creates or
    deletes a control.  The run does not panic and the control of the
    result keeps the identifier. *)
Theorem C3_matched_control_always_updated
    (frameworkID sectionName key controlID : string)
    (existingControls : gmap string (gmap string ControlModel))
    (planControl existingControl : ControlModel)
    (st : gmap string ControlModel * Diagnostics) (h : list Event) :
  let step :=
    processControlStep gw handleAPIError validateAPIResponse frameworkID
      (buildControlsByIDMap existingControls) sectionName (key, planControl) st in
  cID planControl = StringValue controlID ->
  buildControlsByIDMap existingControls !! controlID = Some existingControl ->
  List.filter isControlUpdate (events step h)
    = [Remote (UpdateComplianceControl controlID key)]
  /\ List.filter isControlCreate (events step h) = []
  /\ List.filter isControlDelete (events step h) = []
  /\ exists updated output,
       result step h = Val updated
       /\ updated.1 !! key = Some output
       /\ cID output = StringValue controlID.
Proof.
  intros step Hplan Hexisting.
  pose proof (buildControlsByIDMap_key _ _ _ Hexisting) as Hid.
  unfold step, processControlStep, events, result. simpl.
  rewrite Hplan. simpl. rewrite Hexisting.
  destruct (updateMatchedControl_run gw existingControl planControl controlID key
              sectionName st h) as (updated & -> & Hout).
  rewrite Hid in *. simpl.
  assert (Hrules :
    forall tail : list Event,
      tail = (if Tf.SetEqual (cRules existingControl) (cRules planControl) then []
              else match planRuleIds (cRules planControl) with
                   | Some ruleIds => [Remote (ReplaceControlRules controlID ruleIds)]
                   | None => []
                   end) ->
      List.filter isControlUpdate tail = []
      /\ List.filter isControlCreate tail = []
      /\ List.filter isControlDelete tail = []).
  { intros tail ->.
    destruct (Tf.SetEqual _ _); [repeat split|].
    destruct (planRuleIds _); repeat split. }
  destruct (Hrules _ eq_refl) as (-> & -> & ->).
  repeat split. eexists _, _. split; [reflexivity|]. split; [exact Hout|].
  reflexivity.
Qed.

(** C4 (amended).  For a desired control that carries the identifier of an
    observed control, the rules are replaced exactly when the rule set of
    the plan is not [Equal] to the observed one: then one call carries all
    the rule identifiers of the plan (none for an empty or a null set),
    otherwise no call is sent.  [Equal] holds for two sets in the same
    state with, when they are known, the same elements in any order; a
    null set and a known empty set are not [Equal]. *)
Theorem C4_rules_replaced_wholesale
    (frameworkID sectionName key controlID : string)
    (existingControls : gmap string (gmap string ControlModel))
    (planControl existingControl : ControlModel) (ruleIds : list string)
    (st : gmap string ControlModel * Diagnostics) (h : list Event) :
  let step :=
    processControlStep gw handleAPIError validateAPIResponse frameworkID
      (buildControlsByIDMap existingControls) sectionName (key, planControl) st in
  cID planControl = StringValue controlID ->
  buildControlsByIDMap existingControls !! controlID = Some existingControl ->
  NoDup (Tf.Elements (cRules existingControl)) ->
  Tf.StringsAs (Tf.Elements (cRules planControl)) = Some ruleIds ->
  (sameElements (cRules existingControl) (cRules planControl) ->
     List.filter isRuleReplace (events step h) = [])
  /\ (~ sameElements (cRules existingControl) (cRules planControl) ->
        List.filter isRuleReplace (events step h)
          = [Remote (ReplaceControlRules controlID ruleIds)]).
Proof.
  intros step Hplan Hexisting Hnodup Hrules.
  pose proof (buildControlsByIDMap_key _ _ _ Hexisting) as Hid.
  assert (Hsent : planRuleIds (cRules planControl) = Some ruleIds).
  { unfold planRuleIds. destruct (cRules planControl) as [| |l]; simpl in *;
      try (injection Hrules as <-; reflexivity).
    destruct l; simpl in *; [injection Hrules as <-; reflexivity | exact Hrules]. }
  unfold step, processControlStep, events. simpl.
  rewrite Hplan. simpl. rewrite Hexisting.
  destruct (updateMatchedControl_run gw existingControl planControl controlID key
              sectionName st h) as (updated & -> & _).
  simpl. rewrite Hsent.
  pose proof (SetEqual_sameElements (cRules existingControl) (cRules planControl)
                Hnodup) as Hequal.
  destruct (Tf.SetEqual (cRules existingControl) (cRules planControl)).
  - split; [reflexivity|]. intros Hdiff. exfalso. apply Hdiff, Hequal. reflexivity.
  - split; [|reflexivity]. intros Hsame. apply Hequal in Hsame. discriminate.
Qed.


End Claims.

(** C6 (amended).  Decoding a tree into maps and encoding the maps again
    gives the tree back up to the order of the sections and of the controls
    of every section (the rules are not touched), provided the names of the
    sections are known and differ from one another and, in every section, the
    keys of the controls differ from one another.  Sections are filed under
    their name and encoded with their key as name; controls are filed under
    their identifier, or under their name when the identifier is empty, and
    encoded without regard to the key. *)
Theorem C6_codec_round_trip
    (t : list SectionModel) (sectionsSet : TfSet SectionModel)
    (controlsSet : TfSet ControlModel) :
  wellKeyedTree t ->
  (exists t', recodeTree (SetValue t) = SetValue t' /\ treeEquiv t' t)
  /\ keyedByName (convertTerraformSetToSectionsMap sectionsSet).1
  /\ keyedByControlKey (convertTerraformSetToControlsMap controlsSet).1
  /\ (forall (sections : gmap string SectionModel) e,
        e ∈ Tf.Elements (convertSectionsMapToTerraformSet sections).1 ->
        exists k, is_Some (sections !! k) /\ sName e = StringValue k)
  /\ (forall (controlsMap : gmap string ControlModel) e,
        e ∈ Tf.Elements (convertControlsMapToTerraformSet controlsMap).1 <->
        exists k, controlsMap !! k = Some e).
Proof.
  intros Htree.
  split; [apply recodeTree_known, Htree|].
  split; [apply convertTerraformSetToSectionsMap_keyed|].
  split; [apply convertTerraformSetToControlsMap_keyed|].
  split; [|apply convertControlsMapToTerraformSet_elements].
  intros sections e He.
  apply convertSectionsMapToTerraformSet_elements in He as (k & s & Hk & ->).
  exists k. split; [rewrite Hk; eauto | reflexivity].
Qed.

(** * The claims on the examples *)

(** C1.  The control X is observed in Section 1 and desired, with the same
    identifier, in Section 2, where the section exists already.  The control
    of the result keeps the identifier and no control is created, but after
    the update of the control a call deletes it: the deletion looks for the
    control among the controls the plan has in Section 1 only.  With a new
    name in the same section the control is neither created nor deleted. *)
Theorem C1_moved_control_is_deleted :
  events_of (Example.reconcile Example.observedTwoSections Example.desiredMovedX)
    = [Remote (UpdateComplianceControl "ctl-Y" "ctl-Y");
       Remote (UpdateComplianceControl "ctl-Z" "ctl-Z");
       Remote (UpdateComplianceControl "ctl-X" "ctl-X");
       Remote (DeleteComplianceControl ["ctl-X"])]
  /\ existsb (deletesControl "ctl-X")
       (events_of (Example.reconcile Example.observedTwoSections Example.desiredMovedX))
     = true
  /\ (exists sections diags,
        result_of (Example.reconcile Example.observedTwoSections Example.desiredMovedX)
          = Val (sections, diags)
        /\ StringValue "ctl-X" ∈ controlIDsOf sections)
  /\ List.filter (fun e => isControlCreate e || isControlDelete e)
       (events_of (Example.reconcile Example.observedTwoSections Example.desiredRenamedX))
     = [].
Proof.
  split; [vm_compute; reflexivity|].
  split; [vm_compute; reflexivity|].
  split; [|vm_compute; reflexivity].
  eexists _, _. split; [vm_compute; reflexivity|].
  vm_compute. apply list_elem_of_In. simpl. tauto.
Qed.

(** C2.  A section with two controls gets a new name, each desired control
    carries its identifier and nothing else changes.  No control is created
    and both identifiers are in the result, but each control is deleted
    after its update, by one call per control; no bulk rename is sent. *)
Theorem C2_renamed_section_deletes_controls :
  events_of (Example.reconcile Example.observedOneSection Example.desiredRenamedSection)
    = [Remote (UpdateComplianceControl "ctl-A" "ctl-A");
       Remote (UpdateComplianceControl "ctl-B" "ctl-B");
       Remote (DeleteComplianceControl ["ctl-A"]);
       Remote (DeleteComplianceControl ["ctl-B"])]
  /\ length (List.filter isControlDelete
               (events_of (Example.reconcile Example.observedOneSection
                                             Example.desiredRenamedSection))) = 2
  /\ (exists sections diags,
        result_of (Example.reconcile Example.observedOneSection
                                     Example.desiredRenamedSection)
          = Val (sections, diags)
        /\ controlIDsOf sections = [StringValue "ctl-A"; StringValue "ctl-B"]).
Proof.
  split; [vm_compute; reflexivity|].
  split; [vm_compute; reflexivity|].
  eexists _, _. split; vm_compute; reflexivity.
Qed.

(** C3, as stated, fails: the rules of ControlA go from r1, r2 to none and
    nothing else changes, yet a call updates the control.  *)
Lemma C3_counterexample :
  events_of (Example.reconcile Example.observedRules Example.desiredNoRules)
    = [Remote (UpdateComplianceControl "ctl-A" "ctl-A");
       Remote (ReplaceControlRules "ctl-A" [])]
  /\ List.filter isControlUpdate
       (events_of (Example.reconcile Example.observedRules Example.desiredNoRules))
     <> [].
Proof. split; [vm_compute; reflexivity | vm_compute; discriminate]. Qed.

(** C4, as stated, fails: the observed control has the empty set of rules
    and the desired control leaves its rules out; neither has a rule, yet a
    call replaces the rules. *)
Lemma C4_counterexample :
  (forall r : TfString,
     r ∈ Tf.Elements (Example.rules []) <-> r ∈ Tf.Elements (@SetNull TfString))
  /\ List.filter isRuleReplace
       (events_of (Example.reconcile Example.observedEmptyRules
                                     Example.desiredOmittedRules))
     = [Remote (ReplaceControlRules "ctl-A" [])].
Proof. split; [intros r; reflexivity | vm_compute; reflexivity]. Qed.

(** C6, as stated, fails: a control that has an identifier is filed under
    the identifier, not under its name; and two controls of a section with
    different names and one identifier do not survive the round trip. *)
Lemma C6_counterexample :
  let decoded :=
    (convertTerraformSetToControlsMap
       (SetValue [Example.control "ctl-1" "Control 1" SetNull])).1 in
  decoded !! "Control 1" = None
  /\ decoded !! "ctl-1" = Some (Example.control "ctl-1" "Control 1" SetNull)
  /\ NoDup (map cName Example.sharedIdentifier)
  /\ recodeControls (SetValue Example.sharedIdentifier)
     = SetValue [Example.control "ctl-1" "Control 2" (Example.rules [])].
Proof.
  split; [vm_compute; reflexivity|].
  split; [vm_compute; reflexivity|].
  split; [|vm_compute; reflexivity].
  apply NoDup_cons. split; [|apply NoDup_singleton].
  intros Hin. apply list_elem_of_singleton in Hin. discriminate.
Qed.

(** ** The theorems at work *)

(** C3 on the example of the rules: one update of ControlA, although only
    its rules changed. *)
Lemma C3_witness :
  List.filter isControlUpdate (events (Example.stepFor Example.observedRules
                                                       (Example.rules [])) [])
  = [Remote (UpdateComplianceControl "ctl-A" "ctl-A")].
Proof.
  refine (proj1 (C3_matched_control_always_updated
                   (Example.gateway [] []) Example.handleAPIError
                   Example.validateAPIResponse "fw-1" "Section1" "ctl-A" "ctl-A"
                   (Example.existingOf Example.observedRules)
                   (Example.control "ctl-A" "ControlA" (Example.rules []))
                   (Example.control "ctl-A" "ControlA" (Example.rules ["r1"; "r2"]))
                   (∅, []) [] _ _)).
  - reflexivity.
  - vm_compute. reflexivity.
Defined.

(** C4 on the same example: the rules r1, r2 are replaced by none in one
    call. *)
Lemma C4_witness :
  List.filter isRuleReplace (events (Example.stepFor Example.observedRules
                                                     (Example.rules [])) [])
  = [Remote (ReplaceControlRules "ctl-A" [])].
Proof.
  refine (proj2 (C4_rules_replaced_wholesale
                   (Example.gateway [] []) Example.handleAPIError
                   Example.validateAPIResponse "fw-1" "Section1" "ctl-A" "ctl-A"
                   (Example.existingOf Example.observedRules)
                   (Example.control "ctl-A" "ControlA" (Example.rules []))
                   (Example.control "ctl-A" "ControlA" (Example.rules ["r1"; "r2"]))
                   [] (∅, []) [] _ _ _ _) _).
  - reflexivity.
  - vm_compute. reflexivity.
  - simpl. apply NoDup_cons. split; [|apply NoDup_singleton].
    intros Hin. apply list_elem_of_singleton in Hin. discriminate.
  - reflexivity.
  - simpl. intros Hperm. apply Permutation_length in Hperm. discriminate.
Defined.

(** C6 on the tree with two sections. *)
Lemma C6_witness :
  exists t',
    recodeTree (SetValue Example.observedTwoSections) = SetValue t'
    /\ treeEquiv t' Example.observedTwoSections.
Proof.
  refine (proj1 (C6_codec_round_trip Example.observedTwoSections SetNull SetNull _)).
  split.
  - apply (bool_decide_unpack _). vm_compute. exact I.
  - repeat constructor; eexists; (split; [reflexivity|]);
      apply (bool_decide_unpack _); vm_compute; exact I.
Defined.

(** C8 on the creation of a framework with one control and two rules: the
    control is created after the identifier fw-Framework is in the state. *)
Lemma C8_witness :
  exists payload framework others before1 before2,
    gwCreateComplianceFramework (Example.gateway [] []) [] "Framework" "description" false
      = ApiOk payload
    /\ pResources payload = framework :: others
    /\ [Remote (CreateComplianceFramework "Framework" "description" false);
        StateSetAttributeID (StringValue "fw-Framework")]
       = before1 ++ StateSetAttributeID (StringValue (fwUUID framework)) :: before2.
Proof.
  refine (C8_framework_id_persisted_first
            (Example.gateway [] []) Example.handleAPIError Example.validateAPIResponse
            Example.planToCreate []
            [Remote (CreateComplianceFramework "Framework" "description" false);
             StateSetAttributeID (StringValue "fw-Framework")]
            (drop 3 (events_of Example.createRun))
            (CreateComplianceControl "fw-Framework" "Section1" "ControlA" "first control")
            _ _).
  - vm_compute. reflexivity.
  - reflexivity.
Defined.

(** C9 on a store on which the deletion of the controls fails and the
    framework is already gone: the three calls are made all the same. *)
Lemma C9_witness :
  events (Delete (Example.failingGateway ["c1"; "c2"]) Example.handleAPIError
                 Example.priorState) []
  = [Remote (QueryComplianceControls
               (complianceControlsByFrameworkFilter "Framework"));
     Remote (DeleteComplianceControl ["c1"; "c2"]);
     Remote (DeleteComplianceFramework "fw-1")].
Proof.
  refine (proj1 (C9_delete_breadth
                   (Example.failingGateway ["c1"; "c2"]) Example.handleAPIError
                   Example.priorState [] (Some ["c1"; "c2"]) _)).
  reflexivity.
Defined.

(** * Further properties of the resource *)

(** ** The decoders *)

Lemma foldl_insert_lookup {A} (key : A -> string) (l : list A) (k : string) (x : A) :
  NoDup (map key l) ->
  foldl (fun acc y => <[key y := y]> acc) (∅ : gmap string A) l !! k = Some x
  <-> x ∈ l /\ key x = k.
Proof.
  intros Hnodup. rewrite <- elem_of_map_to_list.
  rewrite (foldl_insert_to_list key) by
    (try exact Hnodup; intros y _; apply lookup_empty).
  rewrite map_to_list_empty, app_nil_r, list_elem_of_In, in_map_iff. split.
  - intros (y & [= <- <-] & Hin). split; [apply list_elem_of_In, Hin | reflexivity].
  - intros [Hin <-]. exists x. split; [reflexivity | apply list_elem_of_In, Hin].
Qed.

Lemma foldl_insert_last {A} (key : A -> string) (l : list A) (x : A) (m : gmap string A) :
  foldl (fun acc y => <[key y := y]> acc) m (l ++ [x]) !! key x = Some x.
Proof. rewrite foldl_app. simpl. apply lookup_insert_eq. Qed.

Lemma convertTerraformSetToControlsMap_diags (controlsSet : TfSet ControlModel) :
  (convertTerraformSetToControlsMap controlsSet).2 = [].
Proof. unfold convertTerraformSetToControlsMap. destruct (_ || _); reflexivity. Qed.

Lemma convertTerraformSetToSectionsMap_diags (sectionsSet : TfSet SectionModel) :
  (convertTerraformSetToSectionsMap sectionsSet).2 = [].
Proof. unfold convertTerraformSetToSectionsMap. destruct (_ || _); reflexivity. Qed.

(** X1.  With keys that differ from one another the decoders keep every element
    of a known set, each under its key, and nothing else. *)
Theorem decoders_keep_distinct_keys
    (sections : list SectionModel) (controls : list ControlModel) :
  NoDup (map sectionNameOf sections) ->
  NoDup (map controlKey controls) ->
  (forall k s,
     (convertTerraformSetToSectionsMap (SetValue sections)).1 !! k = Some s
     <-> s ∈ sections /\ sectionNameOf s = k)
  /\ size (convertTerraformSetToSectionsMap (SetValue sections)).1 = length sections
  /\ (forall k c,
        (convertTerraformSetToControlsMap (SetValue controls)).1 !! k = Some c
        <-> c ∈ controls /\ controlKey c = k)
  /\ size (convertTerraformSetToControlsMap (SetValue controls)).1 = length controls.
Proof.
  intros Hsections Hcontrols.
  unfold convertTerraformSetToSectionsMap, convertTerraformSetToControlsMap. simpl.
  split; [intros k s; apply (foldl_insert_lookup sectionNameOf), Hsections|].
  split.
  { rewrite <- length_map_to_list.
    rewrite (foldl_insert_to_list sectionNameOf) by
      (try exact Hsections; intros y _; apply lookup_empty).
    rewrite map_to_list_empty, app_nil_r, length_map. reflexivity. }
  split; [intros k c; apply (foldl_insert_lookup controlKey), Hcontrols|].
  rewrite <- length_map_to_list.
  rewrite (foldl_insert_to_list controlKey) by
    (try exact Hcontrols; intros y _; apply lookup_empty).
  rewrite map_to_list_empty, app_nil_r, length_map. reflexivity.
Qed.

Lemma foldl_insert_keeps {A} (key : A -> string) (l : list A) (k : string) (v : A)
    (m : gmap string A) :
  Forall (fun y => key y <> k) l ->
  m !! k = Some v ->
  foldl (fun acc y => <[key y := y]> acc) m l !! k = Some v.
Proof.
  revert m. induction l as [|y l IH]; simpl; intros m Hall Hm; [exact Hm|].
  inversion Hall as [|? ? Hy Hl]; subst.
  apply IH; [exact Hl|]. rewrite lookup_insert_ne; [exact Hm | exact Hy].
Qed.

(** X2.  Of the elements of a set that share a key the decoders keep the one
    that comes last: an element that no later element has the key of is
    found under its key, whatever came before it.  A null or an unknown set
    decodes to the empty map. *)
Theorem decoders_last_duplicate_wins
    (before after : list SectionModel) (s : SectionModel)
    (before' after' : list ControlModel) (c : ControlModel) :
  (Forall (fun later => sectionNameOf later <> sectionNameOf s) after ->
   (convertTerraformSetToSectionsMap (SetValue (before ++ s :: after))).1
     !! sectionNameOf s = Some s)
  /\ (Forall (fun later => controlKey later <> controlKey c) after' ->
      (convertTerraformSetToControlsMap (SetValue (before' ++ c :: after'))).1
        !! controlKey c = Some c)
  /\ (convertTerraformSetToSectionsMap SetNull).1 = ∅
  /\ (convertTerraformSetToSectionsMap SetUnknown).1 = ∅
  /\ (convertTerraformSetToControlsMap SetNull).1 = ∅
  /\ (convertTerraformSetToControlsMap SetUnknown).1 = ∅.
Proof.
  split.
  { intros Hlater. unfold convertTerraformSetToSectionsMap. cbn [Tf.IsNull Tf.IsUnknown orb fst].
    change (before ++ s :: after) with (before ++ [s] ++ after).
    rewrite app_assoc.
    unfold Tf.Elements. rewrite foldl_app.
    apply (foldl_insert_keeps sectionNameOf); [exact Hlater|].
    apply (foldl_insert_last sectionNameOf). }
  split.
  { intros Hlater. unfold convertTerraformSetToControlsMap. cbn [Tf.IsNull Tf.IsUnknown orb fst].
    change (before' ++ c :: after') with (before' ++ [c] ++ after').
    rewrite app_assoc.
    unfold Tf.Elements. rewrite foldl_app.
    apply (foldl_insert_keeps controlKey); [exact Hlater|].
    apply (foldl_insert_last controlKey). }
  repeat split; reflexivity.
Qed.

(** ** The validation of the configuration *)

Lemma decoded_controls_empty (controlsSet : TfSet ControlModel) :
  size (convertTerraformSetToControlsMap controlsSet).1 = 0 <-> noControls controlsSet.
Proof.
  unfold noControls, convertTerraformSetToControlsMap.
  destruct controlsSet as [| |controls]; simpl; try (split; reflexivity).
  destruct controls as [|c controls _] using rev_ind; [split; reflexivity|].
  split.
  - intros Hsize. apply map_size_empty_iff in Hsize.
    pose proof (foldl_insert_last controlKey controls c ∅) as Hlast.
    rewrite Hsize, lookup_empty in Hlast. discriminate.
  - intros Hnil. destruct controls; discriminate.
Qed.

Lemma validateSectionStep_errored diags l :
  HasError diags = true -> foldl validateSectionStep diags l = diags.
Proof.
  intros Herr. induction l as [|kv l IH]; simpl; [reflexivity|].
  unfold validateSectionStep at 2.
  rewrite convertTerraformSetToControlsMap_diags, app_nil_r, Herr. exact IH.
Qed.

(** The loop reports the first section without control it meets, and
    nothing else. *)
Lemma validateSectionStep_first l :
  foldl validateSectionStep [] l =
  match List.find (fun kv : string * SectionModel =>
                     bool_decide (size (convertTerraformSetToControlsMap
                                          (sControls kv.2)).1 = 0)) l with
  | Some kv => [emptySectionError kv.2]
  | None => []
  end.
Proof.
  induction l as [|kv l IH]; simpl; [reflexivity|].
  unfold validateSectionStep at 2.
  rewrite convertTerraformSetToControlsMap_diags. simpl.
  destruct (bool_decide _); [|exact IH].
  apply validateSectionStep_errored. reflexivity.
Qed.

(** X3.  For a known set of sections with names that differ from one
    another, [ValidateConfig] reports an error exactly when a section of the
    configuration has no control, and it reports one section at most: once
    an error is reported the remaining sections are passed over. *)
Theorem ValidateConfig_rejects_empty_section
    (config : cloudComplianceCustomFrameworkResourceModel)
    (sections : list SectionModel) :
  mSections config = SetValue sections ->
  NoDup (map sectionNameOf sections) ->
  (HasError (ValidateConfig config) = true
   <-> exists s, s ∈ sections /\ noControls (sControls s))
  /\ (ValidateConfig config = []
      \/ exists s, s ∈ sections /\ noControls (sControls s)
                   /\ ValidateConfig config = [emptySectionError s]).
Proof.
  intros Hconfig Hnodup.
  assert (Hlookup : forall k s,
            (convertTerraformSetToSectionsMap (SetValue sections)).1 !! k = Some s
            <-> s ∈ sections /\ sectionNameOf s = k).
  { intros k s. apply (foldl_insert_lookup sectionNameOf), Hnodup. }
  unfold ValidateConfig. rewrite Hconfig. simpl.
  fold (convertTerraformSetToSectionsMap (SetValue sections)).
  change (foldl _ ∅ sections) with (convertTerraformSetToSectionsMap (SetValue sections)).1.
  rewrite validateSectionStep_first.
  destruct (List.find _ _) as [[k s]|] eqn:Hfind.
  - apply find_some in Hfind as [Hin Hempty]. simpl in Hempty.
    apply bool_decide_eq_true, decoded_controls_empty in Hempty.
    apply list_elem_of_In, elem_of_map_to_list, Hlookup in Hin as [Hin _].
    split; [split; [eauto | reflexivity]|].
    right. exists s. auto.
  - split; [|left; reflexivity].
    split; [discriminate|]. intros (s & Hin & Hempty). exfalso.
    assert (Hmap : (convertTerraformSetToSectionsMap (SetValue sections)).1
                   !! sectionNameOf s = Some s) by (apply Hlookup; auto).
    apply elem_of_map_to_list, list_elem_of_In in Hmap.
    eapply find_none in Hfind; [|exact Hmap]. simpl in Hfind.
    apply bool_decide_eq_false in Hfind. apply Hfind, decoded_controls_empty, Hempty.
Qed.

(** ** What the operations never do *)

Ltac lane_tac :=
  repeat first [ exact I | left; exact I | right; reflexivity | quiet_step ].

Section Lanes.

Variable gw : Gateway.
Variable handleAPIError : ApiError -> ApiOperation -> string -> Diagnostics.
Variable validateAPIResponse : forall R, Payload R -> Summary -> Diagnostics.

Lemma readControlsForFramework_readsOnly framework existingState :
  quiet readsOnly
    (readControlsForFramework gw handleAPIError validateAPIResponse framework
                              existingState).
Proof.
  unfold readControlsForFramework, queryFrameworkControls, getControlDetails,
    readControlStep, readControlWithRules, queryControlRules, readsOnly.
  lane_tac.
Qed.

(** X4.  A read changes nothing in the remote store: all its calls are reads
    and queries. *)
Theorem Read_changes_nothing_remotely
    (state : cloudComplianceCustomFrameworkResourceModel) (h : list Event) :
  Forall readsOnly (events (Read gw handleAPIError validateAPIResponse state) h).
Proof.
  revert h. change (quiet readsOnly (Read gw handleAPIError validateAPIResponse state)).
  unfold Read. quiet_step; [unfold readsOnly; lane_tac|].
  repeat first [ quiet_step | apply readControlsForFramework_readsOnly
               | right; reflexivity ].
Qed.

(** X5.  Every operation stays with its own kind of calls: a create only
    creates and assigns rules, a delete only queries and deletes, and an
    update neither creates, reads or deletes a framework nor removes the
    resource from the state. *)
Theorem operations_keep_to_their_calls
    (plan state : cloudComplianceCustomFrameworkResourceModel) (h : list Event) :
  Forall createsOnly (events (Create gw handleAPIError validateAPIResponse plan) h)
  /\ Forall deletesOnly (events (Delete gw handleAPIError state) h)
  /\ Forall updatesOnly
       (events (Update gw handleAPIError validateAPIResponse plan state) h).
Proof.
  split; [|split]; revert h.
  - change (quiet createsOnly (Create gw handleAPIError validateAPIResponse plan)).
    unfold Create, createControlsForFramework, createSectionStep, createControlStep,
      createSingleControlAndReturn.
    lane_tac.
  - change (quiet deletesOnly (Delete gw handleAPIError state)).
    unfold Delete, deleteControlsForFramework, queryFrameworkControls. lane_tac.
  - change (quiet updatesOnly (Update gw handleAPIError validateAPIResponse plan state)).
    unfold Update, updateControlsForFramework, processControlUpdates,
      processSectionStep, processControlStep, updateMatchedControl,
      createPlannedControl, createSingleControlAndReturn, updateExistingControl,
      updateControlRules, deleteRemovedControls, deleteRemovedStep,
      deleteControlsForFramework, readControlsForFramework, queryFrameworkControls,
      getControlDetails, readControlStep, readControlWithRules, queryControlRules.
    lane_tac.
Qed.

End Lanes.

(** ** Outcomes of the operations on the framework *)

Lemma bind_call {A B} (answer : list Event -> A) (c : Call) (f : A -> M B) h :
  bind (call answer c) f h =
  ((f (answer h) (h ++ [Remote c])).1, Remote c :: (f (answer h) (h ++ [Remote c])).2).
Proof. unfold bind, call. destruct (f _ _). reflexivity. Qed.

Section Outcomes.

Variable gw : Gateway.
Variable handleAPIError : ApiError -> ApiOperation -> string -> Diagnostics.
Variable validateAPIResponse : forall R, Payload R -> Summary -> Diagnostics.

Lemma bind_val {A B} (m : M A) (f : A -> M B) h a e1 :
  m h = (Val a, e1) ->
  bind m f h = ((f a (h ++ e1)).1, e1 ++ (f a (h ++ e1)).2).
Proof. intros Hm. unfold bind. rewrite Hm. destruct (f _ _). reflexivity. Qed.

(** The answer of the query for the controls of a framework, as
    [queryFrameworkControls] returns it. *)
Lemma queryFrameworkControls_run frameworkName h :
  queryFrameworkControls gw frameworkName h =
  (Val match gwQueryComplianceControls gw h
               (complianceControlsByFrameworkFilter frameworkName) with
       | ApiErr err =>
           ([], AddError [] errorQueryingControls
                  ("Failed to query controls for framework " +:+ frameworkName
                   +:+ ": " +:+ errExplain err))
       | ApiOk None => ([], [])
       | ApiOk (Some resources) => (resources, [])
       end,
   [Remote (QueryComplianceControls (complianceControlsByFrameworkFilter frameworkName))]).
Proof.
  unfold queryFrameworkControls. rewrite bind_call.
  destruct (gwQueryComplianceControls gw h _) as [err|[resources|]]; reflexivity.
Qed.

Lemma readControlsForFramework_first_call framework existingState h :
  exists rest,
    events (readControlsForFramework gw handleAPIError validateAPIResponse framework
                                     existingState) h
    = Remote (QueryComplianceControls
                (complianceControlsByFrameworkFilter (fwName framework))) :: rest.
Proof.
  unfold readControlsForFramework. rewrite events_bind.
  unfold result, events. rewrite queryFrameworkControls_run. cbn [fst snd].
  eexists. reflexivity.
Qed.

(** X6.  A read that cannot get the framework stops after that one call.  On
    the typed NotFound error, and on an answer without resource, it removes
    the resource from the state; on any other error and on an invalid
    answer it leaves the state alone.  Otherwise it goes on to query the
    controls by the name the remote store gave for the framework. *)
Theorem Read_when_framework_is_gone
    (state : cloudComplianceCustomFrameworkResourceModel) (h : list Event) :
  let id := Tf.ValueString (mID state) in
  let read := Read gw handleAPIError validateAPIResponse state in
  match gwGetComplianceFrameworks gw h [id] with
  | ApiErr err =>
      read h =
      (Val (handleAPIError err apiOperationReadFramework id),
       Remote (GetComplianceFrameworks [id])
       :: (if errNotFound err then [StateRemoveResource] else []))
  | ApiOk payload =>
      if HasError (validateAPIResponse _ payload errorReadingFramework)
      then read h = (Val (validateAPIResponse _ payload errorReadingFramework),
                     [Remote (GetComplianceFrameworks [id])])
      else
        match pResources payload with
        | [] => read h = (Val (validateAPIResponse _ payload errorReadingFramework),
                          [Remote (GetComplianceFrameworks [id]); StateRemoveResource])
        | framework :: _ =>
            exists rest,
              events read h =
              Remote (GetComplianceFrameworks [id])
              :: Remote (QueryComplianceControls
                           (complianceControlsByFrameworkFilter (fwName framework)))
              :: rest
        end
  end.
Proof.
  intros id read. unfold read, Read. fold id. unfold events. rewrite bind_call.
  destruct (gwGetComplianceFrameworks gw h [id]) as [err|payload].
  - destruct (errNotFound err); reflexivity.
  - destruct (HasError _); [reflexivity|].
    destruct (pResources payload) as [|framework others]; [reflexivity|].
    cbn [snd].
    match goal with |- context [bind ?m ?k ?h'] =>
      change (bind m k h').2 with (events (bind m k) h');
      rewrite events_bind;
      destruct (readControlsForFramework_first_call framework
                  (Some (wrap state framework)) h') as (rest & ->);
      destruct (result m h')
    end; eexists; reflexivity.
Qed.

(** X7.  A create whose first call fails, or is answered with an invalid
    payload, does nothing else: no control is created and nothing is
    written to the state.  A payload that passes the validation without a
    resource makes the create panic.  Without sections in the plan a create
    makes this one call and writes the identifier, then the whole model with
    the scalar fields of the answer, to the state. *)
Theorem Create_outcomes
    (plan : cloudComplianceCustomFrameworkResourceModel) (h : list Event) :
  let name := Tf.ValueString (mName plan) in
  let description := Tf.ValueString (mDescription plan) in
  let active := Tf.ValueBool (mActive plan) in
  let create := Create gw handleAPIError validateAPIResponse plan in
  let first := Remote (CreateComplianceFramework name description active) in
  match gwCreateComplianceFramework gw h name description active with
  | ApiErr err =>
      create h = (Val (handleAPIError err apiOperationCreateFramework ""), [first])
  | ApiOk payload =>
      let diags := validateAPIResponse _ payload errorCreatingFramework in
      if HasError diags then create h = (Val diags, [first])
      else
        match pResources payload with
        | [] => create h = (Panic, [first])
        | framework :: _ =>
            if sectionsConfigured plan then True
            else create h =
                 (Val diags,
                  [first;
                   StateSetAttributeID (StringValue (fwUUID framework));
                   StateSet (mkModel (StringValue (fwUUID framework))
                                     (StringValue (fwName framework))
                                     (StringValue (fwDescription framework))
                                     (BoolValue (fwActive framework))
                                     (mSections plan))])
        end
  end.
Proof.
  intros name description active create first. unfold create, Create.
  fold name description active. rewrite bind_call.
  destruct (gwCreateComplianceFramework gw h name description active) as [err|payload];
    [reflexivity|].
  cbv zeta. destruct (HasError _) eqn:Herr; [reflexivity|].
  destruct (pResources payload) as [|framework others]; [reflexivity|].
  destruct (sectionsConfigured plan) eqn:Hconf; [exact I|].
  change (sectionsConfigured (withID plan (StringValue (fwUUID framework))))
    with (sectionsConfigured plan).
  change (sectionsConfigured
            (wrap (withID plan (StringValue (fwUUID framework))) framework))
    with (sectionsConfigured plan).
  rewrite Hconf. reflexivity.
Qed.

End Outcomes.

(** ** The creation of a control *)

Section ControlCreation.

Variable gw : Gateway.
Variable handleAPIError : ApiError -> ApiOperation -> string -> Diagnostics.
Variable validateAPIResponse : forall R, Payload R -> Summary -> Diagnostics.

Lemma StringsAs_nil (l : list TfString) : Tf.StringsAs l = Some [] -> l = [].
Proof.
  destruct l as [|[| |s] l]; simpl; try discriminate; [reflexivity|].
  destruct (Tf.StringsAs l); discriminate.
Qed.

(** X8.  Once the remote store has created a control, its rules are assigned
    in one call when there are any, and not at all for a null or an empty
    set of rules.  The control returned carries the identifier the store
    gave it and the name it was created under; when the assignment fails
    the empty control is returned with an error. *)
Theorem createSingleControl_assigns_rules
    (frameworkID sectionName controlName : string) (control : ControlModel)
    (h : list Event) (payload : Payload ApimodelsControl)
    (created : ApimodelsControl) (others : list ApimodelsControl)
    (ruleIds : list string) :
  let description := Tf.ValueString (cDescription control) in
  let createCall :=
    Remote (CreateComplianceControl frameworkID sectionName controlName description) in
  let diags := validateAPIResponse _ payload errorCreatingControl in
  let newControl :=
    mkControl (StringValue (acUUID created)) (StringValue controlName)
              (cDescription control) (cRules control) in
  gwCreateComplianceControl gw h frameworkID sectionName controlName description
    = ApiOk payload ->
  HasError diags = false ->
  pResources payload = created :: others ->
  Tf.StringsAs (Tf.Elements (cRules control)) = Some ruleIds ->
  createSingleControlAndReturn gw handleAPIError validateAPIResponse frameworkID
    sectionName controlName control h
  = match ruleIds with
    | [] => (Val (newControl, diags), [createCall])
    | _ :: _ =>
        (match gwReplaceControlRules gw (h ++ [createCall]) (acUUID created) ruleIds with
         | ApiOk _ => Val (newControl, diags)
         | ApiErr assignRulesErr =>
             Val (emptyControl,
                  AddError diags (SummaryText "Error Assigning Rules")
                    ("Failed to assign rules to control " +:+ controlName +:+ ": "
                     +:+ errExplain assignRulesErr))
         end,
         [createCall; Remote (ReplaceControlRules (acUUID created) ruleIds)])
    end.
Proof.
  intros description createCall diags newControl Hcreate Hvalid Hresources Hrules.
  unfold createSingleControlAndReturn. fold description. rewrite bind_call, Hcreate.
  cbv zeta. rewrite app_nil_l. fold diags. rewrite Hvalid, Hresources.
  destruct ruleIds as [|ruleId ruleIds].
  - apply StringsAs_nil in Hrules. rewrite Hrules.
    rewrite andb_false_r. reflexivity.
  - assert (Hcond : negb (Tf.IsNull (cRules control))
                    && bool_decide (0 < length (Tf.Elements (cRules control))) = true).
    { destruct (cRules control) as [| |[|r l]]; simpl in Hrules; try discriminate.
      reflexivity. }
    rewrite Hcond, Hrules. cbn [fst snd]. rewrite bind_call. cbn [fst snd].
    fold createCall.
    destruct (gwReplaceControlRules gw (h ++ [createCall]) (acUUID created)
                (ruleId :: ruleIds)); reflexivity.
Qed.

(** X9.  A desired control without a known identifier, or with an identifier no
    observed control has, is created: the first call creates it in the
    section of the plan, under the key of the decoded map, and no call
    updates or deletes a control. *)
Theorem unmatched_control_is_created
    (frameworkID sectionName key : string)
    (existingControlsByID : gmap string ControlModel) (planControl : ControlModel)
    (st : gmap string ControlModel * Diagnostics) (h : list Event) :
  let step :=
    processControlStep gw handleAPIError validateAPIResponse frameworkID
      existingControlsByID sectionName (key, planControl) st in
  (forall controlID,
     cID planControl = StringValue controlID ->
     existingControlsByID !! controlID = None) ->
  exists rest,
    events step h =
    Remote (CreateComplianceControl frameworkID sectionName key
              (Tf.ValueString (cDescription planControl))) :: rest
    /\ Forall (fun e => isRuleReplace e = true) rest.
Proof.
  intros step Hunmatched.
  assert (Hstep : step = createPlannedControl gw handleAPIError validateAPIResponse
                           frameworkID sectionName key planControl st).
  { unfold step, processControlStep. cbn [fst snd].
    destruct (cID planControl) as [| |controlID] eqn:Hid; try reflexivity.
    simpl. rewrite (Hunmatched controlID eq_refl). reflexivity. }
  rewrite Hstep. unfold createPlannedControl, createSingleControlAndReturn.
  rewrite events_bind, events_bind, result_bind, result_call, events_call.
  destruct (gwCreateComplianceControl gw h _ _ _ _) as [err|payload].
  { cbn. destruct (negb _); eexists; split; try reflexivity; constructor. }
  cbv zeta. destruct (HasError ([] ++ _)).
  { cbn. destruct (negb _); eexists; split; try reflexivity; constructor. }
  destruct (pResources payload) as [|created others].
  { cbn. eexists; split; try reflexivity; constructor. }
  destruct (negb (Tf.IsNull (cRules planControl)) && _).
  - destruct (Tf.StringsAs _) as [ruleIds|].
    + rewrite events_bind, result_bind, result_call, events_call.
      destruct (gwReplaceControlRules gw _ _ _); cbn;
        destruct (negb _); eexists; (split; [reflexivity|]); repeat constructor.
    + cbn. destruct (negb _); eexists; split; try reflexivity; constructor.
  - cbn. destruct (negb _); eexists; split; try reflexivity; constructor.
Qed.

End ControlCreation.

(** ** Loops over sections and controls *)

(** The calls of a kind a loop makes are those of its steps, when every
    step ends and makes calls of that kind that depend on the element only. *)
Lemma forEach_filter {A S} (kind : Event -> bool) (l : list A) (body : A -> S -> M S)
    (calls : A -> list Event) :
  (forall x, x ∈ l -> forall s h,
     exists s', result (body x s) h = Val s'
                /\ List.filter kind (events (body x s) h) = calls x) ->
  forall s h,
    exists s', result (forEach l body s) h = Val s'
               /\ List.filter kind (events (forEach l body s) h) = flat_map calls l.
Proof.
  induction l as [|x l IH]; intros Hbody s h; simpl.
  - eexists. split; reflexivity.
  - rewrite events_bind, result_bind.
    destruct (Hbody x (list_elem_of_here _ _) s h) as (s1 & -> & Hcalls).
    destruct (IH (fun y Hy => Hbody y (list_elem_of_further _ _ _ Hy)) s1
                 (h ++ events (body x s) h)) as (s2 & -> & Hrest).
    eexists. split; [reflexivity|].
    rewrite List.filter_app, Hcalls, Hrest. reflexivity.
Qed.

Section SectionLoops.

Variable gw : Gateway.
Variable handleAPIError : ApiError -> ApiOperation -> string -> Diagnostics.
Variable validateAPIResponse : forall R, Payload R -> Summary -> Diagnostics.

(** The validation of an answer lets no payload without resource pass. *)
Hypothesis validation_wants_a_resource :
  forall R (payload : Payload R) summary,
    pResources payload = [] -> HasError (validateAPIResponse R payload summary) = true.

Lemma createSingleControlAndReturn_attempt frameworkID sectionName controlName control h :
  exists out,
    result (createSingleControlAndReturn gw handleAPIError validateAPIResponse
              frameworkID sectionName controlName control) h = Val out
    /\ List.filter isControlCreate
         (events (createSingleControlAndReturn gw handleAPIError validateAPIResponse
                    frameworkID sectionName controlName control) h)
       = [createCallFor frameworkID sectionName (controlName, control)].
Proof.
  unfold createSingleControlAndReturn, events, result. rewrite bind_call. cbn [fst snd].
  destruct (gwCreateComplianceControl gw h _ _ _ _) as [err|payload].
  { eexists. split; reflexivity. }
  cbv zeta. rewrite app_nil_l.
  destruct (HasError (validateAPIResponse _ payload errorCreatingControl)) eqn:Hvalid.
  { eexists. split; reflexivity. }
  destruct (pResources payload) as [|created others] eqn:Hresources.
  { rewrite (validation_wants_a_resource _ payload _ Hresources) in Hvalid.
    discriminate. }
  destruct (negb (Tf.IsNull (cRules control)) && _).
  - destruct (Tf.StringsAs _) as [ruleIds|].
    + rewrite bind_call. cbn [fst snd].
      destruct (gwReplaceControlRules gw _ _ _); eexists; split; reflexivity.
    + eexists. split; reflexivity.
  - eexists. split; reflexivity.
Qed.

(** X10.  In a section that is reached without an error, the creation of every
    control is attempted, one call per control of the section, whatever the
    remote store answers to the others.  A section reached after an error
    is passed over, in a create and in an update alike. *)
Theorem every_control_of_a_section_is_attempted
    (frameworkID sectionName : string) (section : SectionModel)
    (sections : gmap string SectionModel) (diags : Diagnostics)
    (existingControlsByID : gmap string ControlModel) (h : list Event) :
  let step :=
    createSectionStep gw handleAPIError validateAPIResponse frameworkID
      (sectionName, section) (sections, diags) in
  let controls := (convertTerraformSetToControlsMap (sControls section)).1 in
  (HasError diags = false ->
     List.filter isControlCreate (events step h)
     = map (createCallFor frameworkID sectionName) (map_to_list controls))
  /\ (HasError diags = true ->
        step h = (Val (sections, diags), [])
        /\ processSectionStep gw handleAPIError validateAPIResponse frameworkID
             existingControlsByID (sectionName, section) (sections, diags) h
           = (Val (sections, diags), [])).
Proof.
  intros step controls. unfold step, createSectionStep, processSectionStep.
  cbn [fst snd]. rewrite convertTerraformSetToControlsMap_diags, app_nil_r.
  split; intros Hdiags; rewrite Hdiags; [|split; reflexivity].
  rewrite events_bind.
  match goal with |- context [forEach ?l ?body ?s0] =>
    destruct (forEach_filter isControlCreate l body
                (fun kv => [createCallFor frameworkID sectionName kv])) with
      (s := s0) (h := h) as (done & Hresult & Hcalls)
  end.
  { intros [controlName control] _ s h'. unfold createControlStep. cbn [fst snd].
    rewrite events_bind, result_bind.
    destruct (createSingleControlAndReturn_attempt frameworkID sectionName
                controlName control h') as (out & -> & Hcall).
    match goal with |- context [if HasError ?d then _ else _] =>
      destruct (HasError d)
    end; (eexists; split; [reflexivity|]);
      rewrite List.filter_app, Hcall; reflexivity. }
  rewrite Hresult, List.filter_app, Hcalls.
  assert (Hflat : forall l : list (string * ControlModel),
            flat_map (fun kv => [createCallFor frameworkID sectionName kv]) l
            = map (createCallFor frameworkID sectionName) l).
  { induction l as [|kv l IH]; simpl; [reflexivity | rewrite IH; reflexivity]. }
  rewrite Hflat.
  match goal with |- _ ++ List.filter _ ?tail = _ =>
    assert (Htail : tail = []); [|rewrite Htail; apply app_nil_r]
  end.
  repeat match goal with
         | |- context [if ?b then _ else _] => destruct b
         end; reflexivity.
Qed.

End SectionLoops.

(** ** Reading the controls of a framework *)

Section Reading.

Variable gw : Gateway.
Variable handleAPIError : ApiError -> ApiOperation -> string -> Diagnostics.
Variable validateAPIResponse : forall R, Payload R -> Summary -> Diagnostics.

Lemma readControlStep_run frameworkName apiControl st h :
  exists st',
    readControlStep gw frameworkName apiControl st h
    = (Val st', [ruleQueryFor frameworkName apiControl]).
Proof.
  unfold readControlStep, readControlWithRules, queryControlRules, ruleQueryFor.
  cbv zeta. unfold bind at 1. unfold bind at 1. rewrite bind_call.
  destruct (gwQueryRule gw h _) as [err|[resources|]]; cbn;
    match goal with
    | |- context [if HasError ?d then _ else _] => destruct (HasError d)
    | _ => idtac
    end; eexists; reflexivity.
Qed.

Lemma getControlDetails_run controlIds h :
  getControlDetails gw handleAPIError validateAPIResponse controlIds h =
  (Val match gwGetComplianceControls gw h controlIds with
       | ApiErr err =>
           ([], handleAPIError err apiOperationReadControls
                  (String.concat "," controlIds))
       | ApiOk payload =>
           if HasError (validateAPIResponse _ payload errorGettingControls)
           then ([], validateAPIResponse _ payload errorGettingControls)
           else (pResources payload,
                 validateAPIResponse _ payload errorGettingControls)
       end,
   [Remote (GetComplianceControls controlIds)]).
Proof.
  unfold getControlDetails. rewrite bind_call.
  destruct (gwGetComplianceControls gw h controlIds) as [err|payload]; [reflexivity|].
  cbv zeta. destruct (HasError _); reflexivity.
Qed.

Lemma readControlsForFramework_empty framework existingState h answer :
  gwQueryComplianceControls gw h (complianceControlsByFrameworkFilter (fwName framework))
    = ApiOk answer ->
  default [] answer = [] ->
  readControlsForFramework gw handleAPIError validateAPIResponse framework
                           existingState h
  = (Val (SetValue [], []),
     [Remote (QueryComplianceControls
                (complianceControlsByFrameworkFilter (fwName framework)))]).
Proof.
  intros Hanswer Hnone.
  pose proof (queryFrameworkControls_run gw (fwName framework) h) as Hquery.
  rewrite Hanswer in Hquery.
  unfold readControlsForFramework.
  rewrite (bind_val _ _ _ _ _ Hquery).
  destruct answer as [[|id ids]|]; try discriminate Hnone;
    cbn; rewrite map_to_list_empty; reflexivity.
Qed.

(** X11.  When the query for the controls of the framework fails, the read of
    the controls returns the null set with an error; when it finds no
    control, the known empty set without a diagnostic.  Either way the query
    is the only call. *)
Theorem read_without_controls
    (framework : ApimodelsSecurityFramework)
    (existingState : option cloudComplianceCustomFrameworkResourceModel)
    (h : list Event) :
  let filter := complianceControlsByFrameworkFilter (fwName framework) in
  let read :=
    readControlsForFramework gw handleAPIError validateAPIResponse framework
                             existingState in
  match gwQueryComplianceControls gw h filter with
  | ApiErr err =>
      exists diags,
        read h = (Val (SetNull, diags), [Remote (QueryComplianceControls filter)])
        /\ HasError diags = true
  | ApiOk None | ApiOk (Some []) =>
      read h = (Val (SetValue [], []), [Remote (QueryComplianceControls filter)])
  | ApiOk (Some (_ :: _)) =>
      exists ids rest,
        events read h =
        Remote (QueryComplianceControls filter) :: Remote (GetComplianceControls ids)
        :: rest
  end.
Proof.
  intros filter read.
  pose proof (queryFrameworkControls_run gw (fwName framework) h) as Hquery.
  fold filter in Hquery.
  unfold read, readControlsForFramework, events.
  destruct (gwQueryComplianceControls gw h filter) as [err|[[|id ids]|]];
    rewrite (bind_val _ _ _ _ _ Hquery).
  - eexists. split; reflexivity.
  - cbn. rewrite map_to_list_empty. reflexivity.
  - cbn [fst snd HasError existsb].
    rewrite bool_decide_eq_false_2 by discriminate.
    rewrite (bind_val _ _ _ _ _ (getControlDetails_run _ _)).
    eexists _, _. reflexivity.
  - cbn. rewrite map_to_list_empty. reflexivity.
Qed.

(** X12.  When the remote store returns the details of the controls, the read
    asks for the rules of every control it returned, once per control and in
    the order of the answer, and makes no other call. *)
Theorem read_queries_rules_once_per_control
    (framework : ApimodelsSecurityFramework)
    (existingState : option cloudComplianceCustomFrameworkResourceModel)
    (h : list Event) (id : string) (ids : list string)
    (payload : Payload ApimodelsControl) :
  let filter := complianceControlsByFrameworkFilter (fwName framework) in
  gwQueryComplianceControls gw h filter = ApiOk (Some (id :: ids)) ->
  gwGetComplianceControls gw (h ++ [Remote (QueryComplianceControls filter)]) (id :: ids)
    = ApiOk payload ->
  HasError (validateAPIResponse _ payload errorGettingControls) = false ->
  events (readControlsForFramework gw handleAPIError validateAPIResponse framework
                                   existingState) h
  = Remote (QueryComplianceControls filter)
    :: Remote (GetComplianceControls (id :: ids))
    :: map (ruleQueryFor (fwName framework)) (pResources payload).
Proof.
  intros filter Hquery Hget Hvalid.
  pose proof (queryFrameworkControls_run gw (fwName framework) h) as Hrun.
  fold filter in Hrun. rewrite Hquery in Hrun.
  unfold readControlsForFramework, events.
  rewrite (bind_val _ _ _ _ _ Hrun).
  cbn [fst snd HasError existsb]. rewrite bool_decide_eq_false_2 by discriminate.
  pose proof (getControlDetails_run (id :: ids)
                (h ++ [Remote (QueryComplianceControls filter)])) as Hdetails.
  rewrite Hget, Hvalid in Hdetails.
  rewrite (bind_val _ _ _ _ _ Hdetails).
  cbn [fst snd app]. rewrite Hvalid.
  unfold bind at 1.
  match goal with |- context [forEach ?l ?body ?s0 ?h0] =>
    assert (Hloop : exists organized,
              forEach l body s0 h0
              = (Val organized, flat_map (fun c => [ruleQueryFor (fwName framework) c]) l))
  end.
  { apply forEach_run. intros c _ s h'. apply readControlStep_run. }
  destruct Hloop as (organized & ->).
  cbn [fst snd ret app]. rewrite app_nil_r.
  do 2 f_equal.
Qed.

End Reading.

(** ** Deleting controls *)

Lemma HasError_app (a b : Diagnostics) : HasError (a ++ b) = HasError a || HasError b.
Proof. unfold HasError. apply existsb_app. Qed.

Lemma filter_none (kind : Event -> bool) (l : list Event) :
  Forall (fun e => kind e = false) l -> List.filter kind l = [].
Proof.
  induction 1 as [|e l He _ IH]; simpl; [reflexivity|]. rewrite He. exact IH.
Qed.

Section Deleting.

Variable gw : Gateway.
Variable handleAPIError : ApiError -> ApiOperation -> string -> Diagnostics.
Variable validateAPIResponse : forall R, Payload R -> Summary -> Diagnostics.

Lemma deleteControlsForFramework_run frameworkName h answer :
  gwQueryComplianceControls gw h (complianceControlsByFrameworkFilter frameworkName)
    = ApiOk answer ->
  exists diags,
    deleteControlsForFramework gw frameworkName h =
    (Val diags,
     [Remote (QueryComplianceControls (complianceControlsByFrameworkFilter frameworkName));
      Remote (DeleteComplianceControl (default [] answer))])
    /\ HasError diags = false.
Proof.
  intros Hquery. unfold deleteControlsForFramework.
  pose proof (queryFrameworkControls_run gw frameworkName h) as Hrun.
  rewrite Hquery in Hrun.
  assert (Hrun' : queryFrameworkControls gw frameworkName h =
                  (Val (default [] answer, []),
                   [Remote (QueryComplianceControls
                              (complianceControlsByFrameworkFilter frameworkName))])).
  { rewrite Hrun. destruct answer; reflexivity. }
  rewrite (bind_val _ _ _ _ _ Hrun'). cbn [fst snd HasError existsb].
  rewrite bind_call.
  destruct (gwDeleteComplianceControl gw _ _); eexists; split; reflexivity.
Qed.

Lemma deleteRemovedStep_returns planSections stateSectionName kv diags :
  HasError diags = false ->
  returns (fun out => HasError out = false)
    (deleteRemovedStep gw planSections stateSectionName kv diags).
Proof.
  intros Hdiags h. unfold deleteRemovedStep, result. cbv zeta.
  assert (Hchecked : forall b d, HasError d = false ->
    exists out,
      ((if negb b then
          deleteResp <- call (fun h0 => gwDeleteComplianceControl gw h0
                                          [Tf.ValueString (cID kv.2)])
                             (DeleteComplianceControl [Tf.ValueString (cID kv.2)]) ;;
          match deleteResp with
          | ApiErr err =>
              ret (AddWarning d (SummaryText "Error Deleting Control")
                     ("Failed to delete control " +:+ kv.1 +:+ ": " +:+ errExplain err))
          | ApiOk _ => ret d
          end
        else ret d) h).1 = Val out /\ HasError out = false).
  { intros b d Hd. destruct b; simpl; [eauto|].
    rewrite bind_call. cbn [fst].
    destruct (gwDeleteComplianceControl gw h _); cbn; eexists; (split; [reflexivity|]);
      [|exact Hd].
    unfold AddWarning. rewrite HasError_app, Hd. reflexivity. }
  destruct (planSections !! stateSectionName) as [planSection|]; cbn [fst snd].
  - rewrite convertTerraformSetToControlsMap_diags, app_nil_r, Hdiags. cbn [negb fst snd].
    apply Hchecked, Hdiags.
  - apply (Hchecked false), Hdiags.
Qed.

Lemma deleteRemovedControls_returns existingControls planSections :
  returns (fun out => HasError out = false)
    (deleteRemovedControls gw existingControls planSections).
Proof.
  unfold deleteRemovedControls.
  apply (returns_forEach (fun out => HasError out = false)); [|reflexivity].
  intros skv diags Hdiags.
  apply (returns_forEach (fun out => HasError out = false)); [|exact Hdiags].
  intros ckv diags' Hdiags'. apply deleteRemovedStep_returns, Hdiags'.
Qed.

(** X13.  The deletion of the controls that left the plan never ends in an
    error: every failure of the remote store is a warning, the run goes on
    with the next control, and every call deletes one control. *)
Theorem removed_controls_deletion_only_warns
    (existingControls : gmap string (gmap string ControlModel))
    (planSections : gmap string SectionModel) (h : list Event) :
  (exists diags,
     result (deleteRemovedControls gw existingControls planSections) h = Val diags
     /\ HasError diags = false)
  /\ Forall (fun e => exists controlID, e = Remote (DeleteComplianceControl [controlID]))
       (events (deleteRemovedControls gw existingControls planSections) h).
Proof.
  split.
  - apply deleteRemovedControls_returns.
  - revert h.
    change (quiet (fun e => exists controlID,
                     e = Remote (DeleteComplianceControl [controlID]))
              (deleteRemovedControls gw existingControls planSections)).
    unfold deleteRemovedControls, deleteRemovedStep.
    repeat first [ quiet_step | eexists; reflexivity ].
Qed.

Lemma processControlUpdates_deletes_nothing frameworkID existingControls planSections :
  quiet (fun e => isControlDelete e = false)
    (processControlUpdates gw handleAPIError validateAPIResponse frameworkID
                           existingControls planSections).
Proof.
  unfold processControlUpdates, processSectionStep, processControlStep,
    updateMatchedControl, createPlannedControl, createSingleControlAndReturn,
    updateExistingControl, updateControlRules.
  quiet_tac.
Qed.

(** X14.  The reconciliation of an update deletes nothing unless all creations
    and updates went through: when it ends with an error, or panics, no
    control has been deleted and the sections it returns are null; when it
    ends without error the sections are a known set. *)
Theorem reconciliation_deletes_only_after_success
    (frameworkID : string) (stateSections planSections : gmap string SectionModel)
    (h : list Event) :
  let reconcile :=
    updateControlsForFramework gw handleAPIError validateAPIResponse frameworkID
      stateSections planSections in
  match result reconcile h with
  | Val out =>
      if HasError out.2
      then out.1 = SetNull /\ List.filter isControlDelete (events reconcile h) = []
      else exists sections, out.1 = SetValue sections
  | Panic => List.filter isControlDelete (events reconcile h) = []
  end.
Proof.
  intros reconcile. unfold reconcile, updateControlsForFramework. cbv zeta.
  destruct (HasError (buildExistingControlsMap stateSections).2) eqn:Hbuilt.
  { unfold result, events, ret. cbn [fst snd]. rewrite Hbuilt. split; reflexivity. }
  rewrite result_bind, events_bind.
  pose proof (processControlUpdates_deletes_nothing frameworkID
                (buildExistingControlsMap stateSections).1 planSections h) as Hquiet.
  apply filter_none in Hquiet.
  destruct (result (processControlUpdates _ _ _ _ _ _) h) as [processed|];
    [|exact Hquiet].
  destruct (HasError (_ ++ processed.2)) eqn:Hprocessed.
  { unfold result at 1, events at 2, ret. cbn [fst snd]. rewrite Hprocessed.
    split; [reflexivity|]. rewrite app_nil_r. exact Hquiet. }
  rewrite result_bind.
  match goal with |- context [result (deleteRemovedControls gw ?e ?p) ?h'] =>
    destruct (deleteRemovedControls_returns e p h') as (deleted & -> & Hwarn)
  end.
  unfold result, ret. cbn [fst snd].
  rewrite app_nil_r, HasError_app, Hprocessed, Hwarn. cbn [orb].
  eexists. reflexivity.
Qed.

End Deleting.

(** ** A framework without controls, a plan without sections *)

Section NoSections.

Variable gw : Gateway.
Variable handleAPIError : ApiError -> ApiOperation -> string -> Diagnostics.
Variable validateAPIResponse : forall R, Payload R -> Summary -> Diagnostics.

(** X15.  A read of a framework that has no control leaves the sections of the
    state as they are when they are null or unknown, and writes the known
    empty set when sections were configured before. *)
Theorem Read_without_controls_keeps_sections_unset
    (state : cloudComplianceCustomFrameworkResourceModel) (h : list Event)
    (payload : Payload ApimodelsSecurityFramework)
    (framework : ApimodelsSecurityFramework) (others : list ApimodelsSecurityFramework)
    (answer : option (list string)) :
  let id := Tf.ValueString (mID state) in
  let filter := complianceControlsByFrameworkFilter (fwName framework) in
  gwGetComplianceFrameworks gw h [id] = ApiOk payload ->
  HasError (validateAPIResponse _ payload errorReadingFramework) = false ->
  pResources payload = framework :: others ->
  gwQueryComplianceControls gw (h ++ [Remote (GetComplianceFrameworks [id])]) filter
    = ApiOk answer ->
  default [] answer = [] ->
  events (Read gw handleAPIError validateAPIResponse state) h
  = [Remote (GetComplianceFrameworks [id]);
     Remote (QueryComplianceControls filter);
     StateSet (mkModel (StringValue (fwUUID framework)) (StringValue (fwName framework))
                       (StringValue (fwDescription framework))
                       (BoolValue (fwActive framework))
                       (if sectionsConfigured state then SetValue []
                        else mSections state))].
Proof.
  intros id filter Hget Hvalid Hresources Hquery Hnone.
  unfold Read, events. fold id. rewrite bind_call, Hget. cbv zeta.
  rewrite Hvalid, Hresources. cbn [snd].
  pose proof (readControlsForFramework_empty gw handleAPIError validateAPIResponse
                framework (Some (wrap state framework))
                (h ++ [Remote (GetComplianceFrameworks [id])]) answer Hquery Hnone)
    as Hrun.
  fold filter in Hrun.
  rewrite (bind_val _ _ _ _ _ Hrun). cbn [fst snd]. rewrite app_nil_r, Hvalid.
  change (sectionsConfigured (wrap state framework)) with (sectionsConfigured state).
  cbn [Tf.Elements length bool_decide orb].
  rewrite bool_decide_eq_false_2 by (simpl; lia). cbn [orb].
  destruct (sectionsConfigured state); reflexivity.
Qed.

(** X16.  An update whose plan has no sections does not reconcile control by
    control and does not read the controls back.  When the state has
    sections it queries the controls by the name of the plan and deletes
    them all in one call; when the state has none either, the update of the
    framework is its only call.  The state written carries the scalar
    fields of the answer and the sections of the plan. *)
Theorem Update_without_plan_sections
    (plan state : cloudComplianceCustomFrameworkResourceModel) (h : list Event)
    (payload : Payload ApimodelsSecurityFramework)
    (framework : ApimodelsSecurityFramework) (others : list ApimodelsSecurityFramework) :
  let id := Tf.ValueString (mID plan) in
  let name := Tf.ValueString (mName plan) in
  let filter := complianceControlsByFrameworkFilter name in
  let updateCall := frameworkUpdateCall plan in
  let written :=
    StateSet (mkModel (StringValue (fwUUID framework)) (StringValue (fwName framework))
                      (StringValue (fwDescription framework))
                      (BoolValue (fwActive framework)) (mSections plan)) in
  sectionsConfigured plan = false ->
  validateActiveFieldTransition (mActive state) (mActive plan) = [] ->
  gwUpdateComplianceFramework gw h id name (Tf.ValueString (mDescription plan))
    (Tf.ValueBool (mActive plan)) = ApiOk payload ->
  HasError (validateAPIResponse _ payload errorUpdatingFramework) = false ->
  pResources payload = framework :: others ->
  (sectionsConfigured state = false ->
     events (Update gw handleAPIError validateAPIResponse plan state) h
     = [updateCall; written])
  /\ (forall answer,
        sectionsConfigured state = true ->
        gwQueryComplianceControls gw (h ++ [updateCall]) filter = ApiOk answer ->
        events (Update gw handleAPIError validateAPIResponse plan state) h
        = [updateCall; Remote (QueryComplianceControls filter);
           Remote (DeleteComplianceControl (default [] answer)); written]).
Proof.
  intros id name filter updateCall written Hplan Hactive Hupdate Hvalid Hresources.
  unfold Update, events. rewrite Hactive. cbn [HasError existsb].
  fold id name. rewrite bind_call, Hupdate. cbv zeta. rewrite app_nil_l.
  rewrite Hvalid, Hresources, Hplan. cbn [snd].
  split.
  - intros Hstate. rewrite Hstate.
    unfold bind, ret. cbn [fst snd].
    change (sectionsConfigured (wrap plan framework)) with (sectionsConfigured plan).
    rewrite Hplan. reflexivity.
  - intros answer Hstate Hquery. rewrite Hstate.
    destruct (deleteControlsForFramework_run gw name
                (h ++ [Remote (UpdateComplianceFramework id name
                                 (Tf.ValueString (mDescription plan))
                                 (Tf.ValueBool (mActive plan)))]) answer Hquery)
      as (diags & Hrun & Hdiags).
    unfold bind at 1. unfold bind at 1. fold name. rewrite Hrun.
    cbn [ret fst snd]. rewrite HasError_app, Hvalid, Hdiags. cbn [orb].
    change (sectionsConfigured (wrap plan framework)) with (sectionsConfigured plan).
    rewrite Hplan. reflexivity.
Qed.

End NoSections.

(** ** The index of the observed controls *)

Lemma controlsByID_step_mono (controlsByID : gmap string ControlModel)
    (l : list (string * ControlModel)) (id : string) :
  is_Some (controlsByID !! id) ->
  is_Some (foldl (fun (acc : gmap string ControlModel) (ckv : string * ControlModel) =>
                    if negb (Tf.StringIsNull (cID ckv.2))
                       && negb (Tf.StringIsUnknown (cID ckv.2))
                    then <[Tf.ValueString (cID ckv.2) := ckv.2]> acc
                    else acc) controlsByID l !! id).
Proof.
  revert controlsByID. induction l as [|ckv l IH]; intros acc Hacc; simpl; [exact Hacc|].
  apply IH. destruct (negb _ && _); [|exact Hacc].
  rewrite lookup_insert. destruct (decide _); [eauto | exact Hacc].
Qed.

Lemma controlsByID_step_in (controlsByID : gmap string ControlModel)
    (l : list (string * ControlModel)) (key id : string) (c : ControlModel) :
  (key, c) ∈ l -> cID c = StringValue id ->
  is_Some (foldl (fun (acc : gmap string ControlModel) (ckv : string * ControlModel) =>
                    if negb (Tf.StringIsNull (cID ckv.2))
                       && negb (Tf.StringIsUnknown (cID ckv.2))
                    then <[Tf.ValueString (cID ckv.2) := ckv.2]> acc
                    else acc) controlsByID l !! id).
Proof.
  intros Hin Hid. revert controlsByID.
  induction l as [|ckv l IH]; intros acc; [inversion Hin|].
  apply elem_of_cons in Hin as [<-|Hin]; simpl.
  - apply controlsByID_step_mono. rewrite Hid. simpl.
    rewrite lookup_insert_eq. eauto.
  - apply IH, Hin.
Qed.

Lemma buildControlsByIDMap_indexed
    (existingControls : gmap string (gmap string ControlModel))
    (sectionName key id : string) (sectionControls : gmap string ControlModel)
    (control : ControlModel) :
  existingControls !! sectionName = Some sectionControls ->
  sectionControls !! key = Some control ->
  cID control = StringValue id ->
  is_Some (buildControlsByIDMap existingControls !! id).
Proof.
  intros Hsection Hcontrol Hid.
  assert (Hmono : forall (l : list (string * gmap string ControlModel)) acc,
            is_Some (acc !! id) ->
            is_Some (foldl (fun (acc : gmap string ControlModel)
                                (skv : string * gmap string ControlModel) =>
                              foldl (fun (acc : gmap string ControlModel)
                                         (ckv : string * ControlModel) =>
                                       if negb (Tf.StringIsNull (cID ckv.2))
                                          && negb (Tf.StringIsUnknown (cID ckv.2))
                                       then <[Tf.ValueString (cID ckv.2) := ckv.2]> acc
                                       else acc) acc (map_to_list skv.2)) acc l !! id)).
  { induction l as [|skv l IH]; intros acc Hacc; simpl; [exact Hacc|].
    apply IH, controlsByID_step_mono, Hacc. }
  unfold buildControlsByIDMap.
  apply elem_of_map_to_list in Hsection. apply elem_of_map_to_list in Hcontrol.
  revert Hsection. generalize (map_to_list existingControls).
  generalize (∅ : gmap string ControlModel).
  intros acc l Hin. revert acc.
  induction l as [|skv l IH]; intros acc; [inversion Hin|].
  apply elem_of_cons in Hin as [<-|Hin]; simpl.
  - apply Hmono. eapply controlsByID_step_in; [exact Hcontrol | exact Hid].
  - apply IH, Hin.
Qed.

(** X17.  The index by identifier covers the observed controls of all sections:
    whatever the section of an observed control with a known identifier, the
    index has a control under that identifier, and that control carries it. *)
Theorem every_identified_control_is_indexed
    (existingControls : gmap string (gmap string ControlModel))
    (sectionName key id : string) (sectionControls : gmap string ControlModel)
    (control : ControlModel) :
  existingControls !! sectionName = Some sectionControls ->
  sectionControls !! key = Some control ->
  cID control = StringValue id ->
  exists indexed,
    buildControlsByIDMap existingControls !! id = Some indexed
    /\ cID indexed = StringValue id.
Proof.
  intros Hsection Hcontrol Hid.
  destruct (buildControlsByIDMap_indexed _ _ _ _ _ _ Hsection Hcontrol Hid)
    as [indexed Hindexed].
  exists indexed. split; [exact Hindexed|].
  eapply buildControlsByIDMap_key, Hindexed.
Qed.

(** ** The identifiers of the sections of a create *)

Lemma foldl_update_notin {A} (p : string * A -> bool) (f : string * A -> A)
    (l : list (string * A)) (acc : gmap string A) (k : string) :
  k ∉ l.*1 ->
  foldl (fun acc kv => if p kv then <[kv.1 := f kv]> acc else acc) acc l !! k = acc !! k.
Proof.
  revert acc. induction l as [|[k0 v0] l IH]; intros acc Hnotin; simpl; [reflexivity|].
  rewrite fmap_cons in Hnotin. apply not_elem_of_cons in Hnotin as [Hne Hnotin].
  rewrite IH by exact Hnotin. destruct (p (k0, v0)); [|reflexivity].
  apply lookup_insert_ne. simpl in *. intros Heq. apply Hne. symmetry. exact Heq.
Qed.

Lemma foldl_update_in {A} (p : string * A -> bool) (f : string * A -> A)
    (l : list (string * A)) (acc : gmap string A) (k : string) (v : A) :
  NoDup l.*1 -> (k, v) ∈ l ->
  foldl (fun acc kv => if p kv then <[kv.1 := f kv]> acc else acc) acc l !! k
  = if p (k, v) then Some (f (k, v)) else acc !! k.
Proof.
  revert acc. induction l as [|[k0 v0] l IH]; intros acc Hnodup Hin; [inversion Hin|].
  rewrite fmap_cons in Hnodup. apply NoDup_cons in Hnodup as [Hnotin Hnodup].
  apply elem_of_cons in Hin as [[= <- <-]|Hin]; simpl.
  - rewrite foldl_update_notin by exact Hnotin.
    destruct (p (k, v)); [apply lookup_insert_eq | reflexivity].
  - rewrite IH by assumption. destruct (p (k, v)); [reflexivity|].
    destruct (p (k0, v0)); [|reflexivity].
    apply lookup_insert_ne. simpl. intros <-. apply Hnotin.
    apply list_elem_of_fmap. exists (k0, v). split; [reflexivity | exact Hin].
Qed.

Lemma deriveSectionIDs_lookup
    (frameworkName : string) (sectionsMap : gmap string SectionModel) (k : string) :
  deriveSectionIDs frameworkName sectionsMap !! k
  = withDerivedID frameworkName k <$> sectionsMap !! k.
Proof.
  unfold deriveSectionIDs.
  pose (p := fun kv : string * SectionModel =>
               Tf.StringIsNull (sID kv.2) || Tf.StringIsUnknown (sID kv.2)).
  pose (f := fun kv : string * SectionModel =>
               mkSection (StringValue (generateDeterministicUUID frameworkName kv.1))
                         (sName kv.2) (sControls kv.2)).
  change (foldl _ sectionsMap (map_to_list sectionsMap))
    with (foldl (fun acc kv => if p kv then <[kv.1 := f kv]> acc else acc)
                sectionsMap (map_to_list sectionsMap)).
  destruct (sectionsMap !! k) as [section|] eqn:Hk.
  - rewrite (foldl_update_in p f _ _ k section).
    + unfold withDerivedID, p, f. simpl. destruct (_ || _); [reflexivity | exact Hk].
    + apply NoDup_fst_map_to_list.
    + apply elem_of_map_to_list, Hk.
  - rewrite foldl_update_notin; [exact Hk|].
    intros Hin. apply list_elem_of_fmap in Hin as ([k' s] & -> & Hin).
    apply elem_of_map_to_list in Hin. simpl in Hk. congruence.
Qed.

(** X18.  Before it creates the controls, a create gives the derived identifier
    to every section whose identifier is null or unknown; it keeps every
    known identifier, the name and the controls of every section, and
    neither adds nor drops a section. *)
Theorem Create_derives_missing_section_identifiers
    (frameworkName : string) (sectionsMap : gmap string SectionModel) :
  (forall k, deriveSectionIDs frameworkName sectionsMap !! k
             = withDerivedID frameworkName k <$> sectionsMap !! k)
  /\ dom (deriveSectionIDs frameworkName sectionsMap) = dom sectionsMap
  /\ (forall k section known,
        sectionsMap !! k = Some section ->
        sID section = StringValue known ->
        deriveSectionIDs frameworkName sectionsMap !! k = Some section)
  /\ (forall k section,
        sectionsMap !! k = Some section ->
        (forall known, sID section <> StringValue known) ->
        deriveSectionIDs frameworkName sectionsMap !! k
        = Some (mkSection (StringValue (generateDeterministicUUID frameworkName k))
                          (sName section) (sControls section))).
Proof.
  split; [intros k; apply deriveSectionIDs_lookup|].
  split.
  { apply set_eq. intros k. rewrite !elem_of_dom, deriveSectionIDs_lookup.
    destruct (sectionsMap !! k); simpl; split; intros [x Hx]; try discriminate;
      eexists; reflexivity. }
  split.
  - intros k section known Hk Hknown. rewrite deriveSectionIDs_lookup, Hk. simpl.
    unfold withDerivedID. rewrite Hknown. reflexivity.
  - intros k section Hk Hunknown. rewrite deriveSectionIDs_lookup, Hk. simpl.
    unfold withDerivedID. destruct (sID section) as [| |known] eqn:Hid; try reflexivity.
    exfalso. exact (Hunknown known eq_refl).
Qed.

(** ** The rename detector *)

Section Renames.

Variable gw : Gateway.

(** X19.  A rename is detected only for a key that both maps have, with
    different names on the two sides: the old name is that of the state, the
    new one that of the plan.  The rename handler sends one bulk rename per
    detected rename and nothing else, whatever the remote store answers. *)
Theorem detected_renames_are_sound
    (frameworkID : string) (stateSections planSections : gmap string SectionModel)
    (h : list Event) :
  (forall oldName newName,
     detectSectionRenames stateSections planSections !! oldName = Some newName ->
     exists key stateSection planSection,
       stateSections !! key = Some stateSection
       /\ planSections !! key = Some planSection
       /\ sectionNameOf stateSection = oldName
       /\ sectionNameOf planSection = newName
       /\ oldName <> newName)
  /\ events (handleSectionRenames gw frameworkID stateSections planSections) h
     = map (renameCallFor frameworkID)
         (map_to_list (detectSectionRenames stateSections planSections)).
Proof.
  split.
  - unfold detectSectionRenames.
    assert (Hall : forall kv, kv ∈ map_to_list planSections ->
                              planSections !! kv.1 = Some kv.2).
    { intros [k s] Hin. apply elem_of_map_to_list, Hin. }
    revert Hall. generalize (map_to_list planSections). intros l Hall.
    assert (Hinit : forall oldName newName,
              (∅ : gmap string string) !! oldName = Some newName ->
              exists key stateSection planSection,
                stateSections !! key = Some stateSection
                /\ planSections !! key = Some planSection
                /\ sectionNameOf stateSection = oldName
                /\ sectionNameOf planSection = newName
                /\ oldName <> newName).
    { intros oldName newName Hk. rewrite lookup_empty in Hk. discriminate. }
    revert Hinit. generalize (∅ : gmap string string).
    induction l as [|kv l IH]; intros renames Hrenames; simpl; [exact Hrenames|].
    apply IH; [intros kv' Hin; apply Hall; right; exact Hin|].
    destruct (stateSections !! kv.1) as [stateSection|] eqn:Hstate; [|exact Hrenames].
    destruct (bool_decide _) eqn:Hdiff; [|exact Hrenames].
    apply bool_decide_eq_true in Hdiff.
    intros oldName newName Hk.
    destruct (decide (Tf.ValueString (sName stateSection) = oldName)) as [<-|Hne].
    + rewrite lookup_insert_eq in Hk. injection Hk as <-.
      exists kv.1, stateSection, kv.2.
      split; [exact Hstate|]. split; [apply Hall; left|].
      repeat split. exact Hdiff.
    + rewrite lookup_insert_ne in Hk by exact Hne. apply Hrenames, Hk.
  - unfold handleSectionRenames, events.
    match goal with |- context [forEach ?l ?body ?s0 ?h0] =>
      assert (Hloop : exists done,
                forEach l body s0 h0
                = (Val done, flat_map (fun kv => [renameCallFor frameworkID kv]) l))
    end.
    { apply forEach_run. intros [oldName newName] _ s h'. rewrite bind_call.
      cbn [fst snd].
      destruct (gwRenameSectionComplianceFramework gw h' frameworkID oldName newName);
        eexists; reflexivity. }
    destruct Hloop as (done & ->). cbn [snd].
    generalize (map_to_list (detectSectionRenames stateSections planSections)).
    intros l. induction l as [|kv l IH]; simpl; [reflexivity | rewrite IH; reflexivity].
Qed.

End Renames.

(** ** Derived identifiers *)

Lemma string_app_cons (x : ascii) (a b : string) :
  String.String x a +:+ b = String.String x (a +:+ b).
Proof. reflexivity. Qed.

Lemma string_app_assoc (a b c : string) : (a +:+ b) +:+ c = a +:+ (b +:+ c).
Proof.
  induction a as [|x a IH]; [reflexivity|].
  rewrite !string_app_cons, IH. reflexivity.
Qed.

Lemma string_app_length (a b : string) :
  String.length (a +:+ b) = String.length a + String.length b.
Proof.
  induction a as [|x a IH]; [reflexivity|].
  rewrite string_app_cons. simpl. rewrite IH. reflexivity.
Qed.

(** X20.  The derivation joins the two names with a colon before it hashes them:
    a framework "a:b" with a section "c" and a framework "a" with a section
    "b:c" get the same section identifier, although the names differ. *)
Theorem derived_identifiers_collide_on_colons (a b c : string) :
  generateDeterministicUUID (a +:+ ":" +:+ b) c
  = generateDeterministicUUID a (b +:+ ":" +:+ c)
  /\ a +:+ ":" +:+ b <> a.
Proof.
  split.
  - unfold generateDeterministicUUID. rewrite string_app_assoc. reflexivity.
  - intros Heq. apply (f_equal String.length) in Heq.
    rewrite !string_app_length in Heq. simpl in Heq. lia.
Qed.

Lemma hex_digit_variant (x : Z) :
  UUID.hex_digit (Z.shiftr (Z.lor (Z.land x 63) 128) 4) ∈
    ["8"; "9"; "a"; "b"]%char.
Proof.
  rewrite Z.shiftr_lor, Z.shiftr_land.
  change (Z.shiftr 63 4) with 3%Z. change (Z.shiftr 128 4) with 8%Z.
  assert (Hrange : (0 <= Z.land (Z.shiftr x 4) 3 < 4)%Z).
  { change 3%Z with (Z.ones 2). rewrite Z.land_ones by lia.
    apply Z.mod_pos_bound. reflexivity. }
  assert (Hcases : Z.land (Z.shiftr x 4) 3 = 0%Z \/ Z.land (Z.shiftr x 4) 3 = 1%Z
                   \/ Z.land (Z.shiftr x 4) 3 = 2%Z \/ Z.land (Z.shiftr x 4) 3 = 3%Z)
    by lia.
  destruct Hcases as [-> | [-> | [-> | ->]]]; vm_compute;
    repeat first [ apply list_elem_of_here | apply list_elem_of_further ].
Qed.

Lemma hex_digit_version (x : Z) :
  UUID.hex_digit (Z.shiftr (Z.lor (Z.land x 15) (Z.shiftl (Z.land 5 15) 4)) 4)
  = "5"%char.
Proof.
  rewrite Z.shiftr_lor, Z.shiftr_land.
  change (Z.shiftr 15 4) with 0%Z. rewrite Z.land_0_r. reflexivity.
Qed.

(** X21.  A derived identifier is a string of thirty-six characters in the
    8-4-4-4-12 layout, with the version digit 5 and the variant digit of
    RFC 4122 (8, 9, a or b), whatever the two names are. *)
Theorem derived_identifier_is_canonical (frameworkName sectionName : string) :
  let id := generateDeterministicUUID frameworkName sectionName in
  String.length id = 36
  /\ String.get 8 id = Some "-"%char
  /\ String.get 13 id = Some "-"%char
  /\ String.get 18 id = Some "-"%char
  /\ String.get 23 id = Some "-"%char
  /\ String.get 14 id = Some "5"%char
  /\ exists v, String.get 19 id = Some v /\ v ∈ ["8"; "9"; "a"; "b"]%char.
Proof.
  unfold generateDeterministicUUID, UUID.NewSHA1.
  destruct (sha1_twenty_bytes
              (crowdStrikeComplianceNamespace
               ++ UUID.bytes_of_string (frameworkName +:+ ":" +:+ sectionName)))
    as (b0 & b1 & b2 & b3 & b4 & b5 & b6 & b7 & b8 & b9 & b10 & b11 & b12 & b13 & b14
        & b15 & b16 & b17 & b18 & b19 & ->).
  cbn [firstn skipn nth app].
  unfold UUID.String.
  cbn [firstn skipn app UUID.hex String.append String.get String.length].
  repeat (split; [reflexivity|]).
  split.
  { transitivity
      (Some (UUID.hex_digit
               (Z.shiftr (Z.lor (Z.land b6 15) (Z.shiftl (Z.land 5 15) 4)) 4)));
      [reflexivity | f_equal; apply hex_digit_version]. }
  eexists. split; [reflexivity | apply hex_digit_variant].
Qed.

(** ** The state an update writes *)

Section UpdateState.

Variable gw : Gateway.
Variable handleAPIError : ApiError -> ApiOperation -> string -> Diagnostics.
Variable validateAPIResponse : forall R, Payload R -> Summary -> Diagnostics.




(** X22.  An update that fails on the framework itself stops there: when the
    active flag may not change nothing is sent; when the update of the
    framework fails or is answered with an invalid payload, no control is
    touched and nothing is written to the state. *)
Theorem Update_stops_when_the_framework_fails
    (plan state : cloudComplianceCustomFrameworkResourceModel) (h : list Event) :
  let update := Update gw handleAPIError validateAPIResponse plan state in
  let checked := validateActiveFieldTransition (mActive state) (mActive plan) in
  if HasError checked then update h = (Val checked, [])
  else
    match gwUpdateComplianceFramework gw h (Tf.ValueString (mID plan))
            (Tf.ValueString (mName plan)) (Tf.ValueString (mDescription plan))
            (Tf.ValueBool (mActive plan)) with
    | ApiErr err =>
        update h =
        (Val (checked ++ handleAPIError err apiOperationUpdateFramework
                           (Tf.ValueString (mID plan))),
         [frameworkUpdateCall plan])
    | ApiOk payload =>
        let diags := checked ++ validateAPIResponse _ payload errorUpdatingFramework in
        if HasError diags then update h = (Val diags, [frameworkUpdateCall plan])
        else
          match pResources payload with
          | [] => update h = (Panic, [frameworkUpdateCall plan])
          | _ :: _ => exists rest, events update h = frameworkUpdateCall plan :: rest
          end
    end.
Proof.
  intros update checked. unfold update, Update. fold checked.
  destruct (HasError checked); [reflexivity|].
  rewrite events_bind, result_call, events_call, bind_call.
  destruct (gwUpdateComplianceFramework gw h _ _ _ _) as [err|payload]; [reflexivity|].
  cbv zeta. destruct (HasError (checked ++ _)); [reflexivity|].
  destruct (pResources payload); [reflexivity|].
  eexists. reflexivity.
Qed.


End UpdateState.

(** ** The state a create writes *)

(** What holds before a loop and is kept by every step that ends holds
    after the loop, when the loop ends. *)
Lemma forEach_ensures {A S} (I : S -> Prop) (l : list A) (body : A -> S -> M S) :
  (forall x, x ∈ l -> forall s h s', I s -> result (body x s) h = Val s' -> I s') ->
  forall s h s', I s -> result (forEach l body s) h = Val s' -> I s'.
Proof.
  induction l as [|x l IH]; intros Hbody s h s' Hs; simpl.
  - intros [= <-]. exact Hs.
  - rewrite result_bind.
    destruct (result (body x s) h) as [s1|] eqn:Hstep; [|discriminate].
    apply (IH (fun y Hy => Hbody y (list_elem_of_further _ _ _ Hy))).
    eapply Hbody; [left | exact Hs | exact Hstep].
Qed.

Section CreateState.

Variable gw : Gateway.
Variable handleAPIError : ApiError -> ApiOperation -> string -> Diagnostics.
Variable validateAPIResponse : forall R, Payload R -> Summary -> Diagnostics.

(** The creation of the controls replaces the controls of the sections and
    nothing else: no section is added, and identifier and name of every
    section stay. *)
Lemma createControlsForFramework_keeps_sections frameworkID sections h out :
  result (createControlsForFramework gw handleAPIError validateAPIResponse
            frameworkID sections) h = Val out ->
  forall k s, out.1 !! k = Some s ->
    exists s0, sections !! k = Some s0 /\ sID s = sID s0 /\ sName s = sName s0.
Proof.
  unfold createControlsForFramework.
  apply (forEach_ensures
           (fun st : gmap string SectionModel * Diagnostics =>
              forall k s, st.1 !! k = Some s ->
                exists s0, sections !! k = Some s0 /\ sID s = sID s0 /\ sName s = sName s0)).
  - intros [sectionName section] Hin st h' st' Hst.
    apply elem_of_map_to_list in Hin.
    unfold createSectionStep. cbn [fst snd].
    match goal with |- context [if HasError ?d then _ else _] => destruct (HasError d) end.
    { intros [= <-]. exact Hst. }
    rewrite result_bind.
    match goal with |- context [result ?inner h'] => destruct (result inner h') as [done|] end;
      [|discriminate].
    destruct (bool_decide _); [|intros [= <-]; exact Hst].
    destruct (negb _); [|intros [= <-]; exact Hst].
    intros [= <-] k s. cbn [fst].
    destruct (decide (sectionName = k)) as [<-|Hne].
    + rewrite lookup_insert_eq. intros [= <-]. exists section. auto.
    + rewrite lookup_insert_ne by exact Hne. apply Hst.
  - intros k s Hk. exists s. auto.
Qed.

Lemma createControlsForFramework_remote frameworkID sections :
  quiet isRemoteCall
    (createControlsForFramework gw handleAPIError validateAPIResponse frameworkID
                                sections).
Proof.
  unfold createControlsForFramework, createSectionStep, createControlStep,
    createSingleControlAndReturn.
  repeat first [ exact I | quiet_step ].
Qed.

(** X24.  The sections a create writes to the state are sections of the plan,
    under their names: each has the identifier of the plan when that is
    known, and otherwise the identifier derived from the name of the
    framework in the plan and the name of the section. *)
Theorem Create_state_sections_are_identified
    (plan : cloudComplianceCustomFrameworkResourceModel) (h : list Event)
    (m : cloudComplianceCustomFrameworkResourceModel) (section : SectionModel) :
  StateSet m ∈ events (Create gw handleAPIError validateAPIResponse plan) h ->
  section ∈ Tf.Elements (mSections m) ->
  exists sectionName planSection,
    sName section = StringValue sectionName
    /\ (convertTerraformSetToSectionsMap (mSections plan)).1 !! sectionName
       = Some planSection
    /\ sID section
       = sID (withDerivedID (Tf.ValueString (mName plan)) sectionName planSection).
Proof.
  unfold Create. rewrite events_bind, result_call, events_call.
  destruct (gwCreateComplianceFramework gw h _ _ _) as [err|payload].
  { intros Hin. apply elem_of_cons in Hin as [[=]|Hin]. inversion Hin. }
  cbv zeta. destruct (HasError _).
  { intros Hin. apply elem_of_cons in Hin as [[=]|Hin]. inversion Hin. }
  destruct (pResources payload) as [|framework others].
  { intros Hin. apply elem_of_cons in Hin as [[=]|Hin]. inversion Hin. }
  rewrite events_bind. cbn [result events emit fst snd].
  change (sectionsConfigured (withID plan (StringValue (fwUUID framework))))
    with (sectionsConfigured plan).
  change (mSections (withID plan (StringValue (fwUUID framework))))
    with (mSections plan).
  change (mName (withID plan (StringValue (fwUUID framework)))) with (mName plan).
  rewrite events_bind.
  set (decoded := (convertTerraformSetToSectionsMap (mSections plan)).1).
  set (derived := deriveSectionIDs (Tf.ValueString (mName plan)) decoded).
  match goal with |- context [result ?created ?h'] =>
    assert (Hremote : Forall isRemoteCall (events created h'));
      [|assert (Hcreated : forall out sectionsMap,
                  result created h' = Val out -> out.1.1 = Some sectionsMap ->
                  forall k s, sectionsMap !! k = Some s ->
                    exists s0, derived !! k = Some s0 /\ sID s = sID s0);
        [|destruct (result created h') as [out|] eqn:Hresult]]
  end.
  { destruct (sectionsConfigured plan); [|constructor].
    destruct (HasError _); [constructor|].
    rewrite events_bind.
    pose proof (createControlsForFramework_remote (fwUUID framework) derived) as Hq.
    match goal with |- context [result ?c ?h'] =>
      specialize (Hq h'); destruct (result c h')
    end; [|exact Hq].
    apply Forall_app. split; [exact Hq | constructor]. }
  { intros out sectionsMap.
    destruct (sectionsConfigured plan); [|intros [= <-] [=]].
    destruct (HasError _); [intros [= <-] [=]|].
    rewrite result_bind.
    match goal with |- context [result ?c ?h'] =>
      destruct (result c h') as [done|] eqn:Hdone; [|discriminate]
    end.
    intros [= <-] [= <-] k s Hk.
    destruct (createControlsForFramework_keeps_sections _ _ _ _ Hdone k s Hk)
      as (s0 & Hs0 & Hid & _).
    exists s0. auto. }
  2:{ intros Hin. apply elem_of_cons in Hin as [[=]|Hin].
      apply elem_of_cons in Hin as [[=]|Hin].
      exfalso. rewrite Forall_forall in Hremote. apply Hremote in Hin. exact Hin. }
  intros Hin Hsection.
  apply elem_of_cons in Hin as [[=]|Hin].
  apply elem_of_cons in Hin as [[=]|Hin].
  apply elem_of_app in Hin as [Hin|Hin].
  { exfalso. rewrite Forall_forall in Hremote. apply Hremote in Hin. exact Hin. }
  destruct out.2 eqn:Hstop; [inversion Hin|].
  change (sectionsConfigured (wrap (withID plan (StringValue (fwUUID framework)))
                                   framework))
    with (sectionsConfigured plan) in Hin.
  destruct (sectionsConfigured plan) eqn:Hconf.
  - destruct out.1.1 as [sectionsMap|] eqn:Hmap.
    + match type of Hin with
        context [events (if HasError ?d then _ else _)] => destruct (HasError d)
      end; [inversion Hin|].
      apply elem_of_cons in Hin as [[= ->]|Hin]; [|inversion Hin].
      cbn [mSections withSections] in Hsection.
      apply convertSectionsMapToTerraformSet_elements in Hsection
        as (k & s & Hk & ->).
      destruct (Hcreated out sectionsMap eq_refl Hmap k s Hk) as (s0 & Hs0 & Hid).
      unfold derived in Hs0.
      rewrite deriveSectionIDs_lookup in Hs0.
      destruct (decoded !! k) as [planSection|] eqn:Hplan; [|discriminate].
      injection Hs0 as <-.
      exists k, planSection. split; [reflexivity|]. split; [exact Hplan | exact Hid].
    + apply elem_of_cons in Hin as [[= ->]|Hin]; [|inversion Hin].
      exfalso. clear -Hconf Hresult Hmap Hstop.
      match type of Hresult with
        context [if HasError ?d then _ else _] => destruct (HasError d)
      end.
      { injection Hresult as <-. discriminate Hstop. }
      rewrite result_bind in Hresult.
      match type of Hresult with context [result ?c ?h'] => destruct (result c h') end;
        [|discriminate].
      injection Hresult as <-. discriminate Hmap.
  - apply elem_of_cons in Hin as [[= ->]|Hin]; [|inversion Hin].
    unfold sectionsConfigured in Hconf. simpl in Hconf, Hsection.
    destruct (mSections plan); simpl in *; try discriminate; inversion Hsection.
Qed.

End CreateState.

(** ** Which controls of the state are deleted *)

Section RemovedControls.

Variable gw : Gateway.

(** X25.  Whether a control of the state is deleted is decided by its key and
    the name of its state section alone: it is kept when the plan has a
    section of that name that holds the key, and deleted, by its
    identifier, in every other case. *)
Theorem removed_control_decision
    (planSections : gmap string SectionModel) (stateSectionName key : string)
    (stateControl : ControlModel) (diags : Diagnostics) (h : list Event) :
  HasError diags = false ->
  events (deleteRemovedStep gw planSections stateSectionName (key, stateControl) diags) h
  = match planSections !! stateSectionName with
    | Some planSection =>
        match (convertTerraformSetToControlsMap (sControls planSection)).1 !! key with
        | Some _ => []
        | None => [Remote (DeleteComplianceControl [Tf.ValueString (cID stateControl)])]
        end
    | None => [Remote (DeleteComplianceControl [Tf.ValueString (cID stateControl)])]
    end.
Proof.
  intros Hdiags.
  destruct (planSections !! stateSectionName) as [planSection|] eqn:Hsection.
  - destruct (_ !! key) as [planControl|] eqn:Hcontrol.
    + eapply deleteRemovedStep_in_section; eassumption.
    + apply deleteRemovedStep_not_in_section.
      intros planSection' Hsection'. rewrite Hsection in Hsection'.
      injection Hsection' as <-. exact Hcontrol.
  - apply deleteRemovedStep_not_in_section.
    intros planSection' Hsection'. rewrite Hsection in Hsection'. discriminate.
Qed.

End RemovedControls.

(** ** How a delete ends *)

Section DeleteOutcomes.

Variable gw : Gateway.
Variable handleAPIError : ApiError -> ApiOperation -> string -> Diagnostics.

(** X26.  A delete reports what stops it.  When the query for the controls
    fails it makes no other call and ends with an error: neither a control
    nor the framework is deleted.  When the deletion of the framework fails
    with an error other than NotFound, the diagnostics of that error are
    returned after the warnings of the controls; when the remote store
    answers with errors in the payload the run ends with an error; an
    answer without payload errors ends it without one. *)
Theorem Delete_reports_failures
    (state : cloudComplianceCustomFrameworkResourceModel) (h : list Event) :
  let filter := complianceControlsByFrameworkFilter (Tf.ValueString (mName state)) in
  let id := Tf.ValueString (mID state) in
  let delete := Delete gw handleAPIError state in
  match gwQueryComplianceControls gw h filter with
  | ApiErr _ =>
      events delete h = [Remote (QueryComplianceControls filter)]
      /\ exists diags, result delete h = Val diags /\ HasError diags = true
  | ApiOk answer =>
      let h' := h ++ [Remote (QueryComplianceControls filter);
                      Remote (DeleteComplianceControl (default [] answer))] in
      match gwDeleteComplianceFramework gw h' id with
      | ApiErr err =>
          errNotFound err = false ->
          exists warnings,
            HasError warnings = false
            /\ result delete h
               = Val (warnings ++ handleAPIError err apiOperationDeleteFramework id)
      | ApiOk (Some (_ :: _)) =>
          exists diags, result delete h = Val diags /\ HasError diags = true
      | ApiOk (Some []) | ApiOk None =>
          exists diags, result delete h = Val diags /\ HasError diags = false
      end
  end.
Proof.
  intros filter id delete.
  destruct (gwQueryComplianceControls gw h filter) as [err|answer] eqn:Hquery.
  { exact (Delete_query_failure gw handleAPIError state h err Hquery). }
  destruct (deleteControlsForFramework_run gw _ h answer Hquery)
    as (warnings & Hrun & Hwarnings).
  cbv zeta. unfold delete, Delete, result.
  rewrite (bind_val _ _ _ _ _ Hrun). rewrite Hwarnings, bind_call. cbn [fst].
  fold filter. fold id.
  destruct (gwDeleteComplianceFramework gw _ id) as [err|[[|e errors]|]].
  - intros Hfound. rewrite Hfound. exists warnings. split; [exact Hwarnings | reflexivity].
  - exists warnings. split; [reflexivity | exact Hwarnings].
  - eexists. split; [reflexivity|].
    unfold AddError, HasError. rewrite existsb_app. simpl. apply orb_true_r.
  - exists warnings. split; [reflexivity | exact Hwarnings].
Qed.

End DeleteOutcomes.

(** ** Controls that stay in the plan *)

Lemma foldl_image_notin {A B} (g : A -> B) (l : list (string * A)) (acc : gmap string B)
    (k : string) :
  k ∉ l.*1 ->
  foldl (fun acc kv => <[kv.1 := g kv.2]> acc) acc l !! k = acc !! k.
Proof.
  revert acc. induction l as [|[k0 v0] l IH]; intros acc Hnotin; simpl; [reflexivity|].
  rewrite fmap_cons in Hnotin. apply not_elem_of_cons in Hnotin as [Hne Hnotin].
  rewrite IH by exact Hnotin.
  apply lookup_insert_ne. simpl in *. intros Heq. apply Hne. symmetry. exact Heq.
Qed.

Lemma foldl_image_in {A B} (g : A -> B) (l : list (string * A)) (acc : gmap string B)
    (k : string) (v : A) :
  NoDup l.*1 -> (k, v) ∈ l ->
  foldl (fun acc kv => <[kv.1 := g kv.2]> acc) acc l !! k = Some (g v).
Proof.
  revert acc. induction l as [|[k0 v0] l IH]; intros acc Hnodup Hin; [inversion Hin|].
  rewrite fmap_cons in Hnodup. apply NoDup_cons in Hnodup as [Hnotin Hnodup].
  apply elem_of_cons in Hin as [[= <- <-]|Hin]; simpl.
  - rewrite foldl_image_notin by exact Hnotin. apply lookup_insert_eq.
  - apply IH; assumption.
Qed.

(** The observed controls by section: every section of the state, under
    its key, with its decoded controls. *)
Lemma buildExistingControlsMap_lookup (stateSections : gmap string SectionModel)
    (name : string) :
  (buildExistingControlsMap stateSections).1 !! name
  = (fun section => (convertTerraformSetToControlsMap (sControls section)).1)
      <$> stateSections !! name.
Proof.
  unfold buildExistingControlsMap.
  assert (Hfold : forall l acc,
            foldl (fun (st : gmap string (gmap string ControlModel) * Diagnostics)
                       (kv : string * SectionModel) =>
                     let converted := convertTerraformSetToControlsMap (sControls kv.2) in
                     let diags := st.2 ++ converted.2 in
                     if HasError diags then (st.1, diags)
                     else (<[kv.1 := converted.1]> st.1, diags))
                  (acc, []) l
            = (foldl (fun acc kv =>
                        <[kv.1 := (convertTerraformSetToControlsMap (sControls kv.2)).1]>
                          acc) acc l, [])).
  { induction l as [|kv l IH]; intros acc; simpl; [reflexivity|].
    rewrite convertTerraformSetToControlsMap_diags. simpl. apply IH. }
  rewrite Hfold. cbn [fst].
  destruct (stateSections !! name) as [section|] eqn:Hname; simpl.
  - apply (foldl_image_in
             (fun section => (convertTerraformSetToControlsMap (sControls section)).1)).
    + apply NoDup_fst_map_to_list.
    + apply elem_of_map_to_list, Hname.
  - rewrite (foldl_image_notin
               (fun section => (convertTerraformSetToControlsMap (sControls section)).1)).
    + apply lookup_empty.
    + intros Hin. apply list_elem_of_fmap in Hin as ([k' s] & -> & Hin).
      apply elem_of_map_to_list in Hin. simpl in Hname. congruence.
Qed.

Lemma forEach_silent {A S} (I : S -> Prop) (l : list A) (body : A -> S -> M S) :
  (forall x, x ∈ l -> forall s h, I s -> exists s', body x s h = (Val s', []) /\ I s') ->
  forall s h, I s -> exists s', forEach l body s h = (Val s', []) /\ I s'.
Proof.
  induction l as [|x l IH]; intros Hbody s h Hs; simpl.
  - exists s. split; [reflexivity | exact Hs].
  - unfold bind.
    destruct (Hbody x (list_elem_of_here _ _) s h Hs) as (s1 & -> & Hs1).
    destruct (IH (fun y Hy => Hbody y (list_elem_of_further _ _ _ Hy)) s1 (h ++ []) Hs1)
      as (s2 & -> & Hs2).
    exists s2. split; [reflexivity | exact Hs2].
Qed.

Lemma forEach_quiet_in {A S} (P : Event -> Prop) (l : list A) (body : A -> S -> M S) :
  (forall x, x ∈ l -> forall s h, Forall P (events (body x s) h)) ->
  forall s h, Forall P (events (forEach l body s) h).
Proof.
  induction l as [|x l IH]; intros Hbody s h; simpl.
  - constructor.
  - rewrite events_bind.
    destruct (result (body x s) h) as [s1|];
      [|apply Hbody, list_elem_of_here].
    apply Forall_app. split; [apply Hbody, list_elem_of_here|].
    apply IH. intros y Hy. apply Hbody, list_elem_of_further, Hy.
Qed.

Section PlannedControls.

Variable gw : Gateway.
Variable handleAPIError : ApiError -> ApiOperation -> string -> Diagnostics.
Variable validateAPIResponse : forall R, Payload R -> Summary -> Diagnostics.

Lemma deleteRemovedStep_kept planSections stateSectionName key stateControl
    planSection diags h :
  planSections !! stateSectionName = Some planSection ->
  is_Some ((convertTerraformSetToControlsMap (sControls planSection)).1 !! key) ->
  HasError diags = false ->
  exists diags',
    deleteRemovedStep gw planSections stateSectionName (key, stateControl) diags h
    = (Val diags', [])
    /\ HasError diags' = false.
Proof.
  intros Hsection [planControl Hcontrol] Hdiags. unfold deleteRemovedStep. cbn [fst snd].
  rewrite Hsection, Hcontrol, convertTerraformSetToControlsMap_diags, app_nil_r, Hdiags.
  exists diags. split; [reflexivity | exact Hdiags].
Qed.

Lemma deleteRemovedControls_silent
    (existingControls : gmap string (gmap string ControlModel))
    (planSections : gmap string SectionModel) (h : list Event) :
  (forall name controls key,
     existingControls !! name = Some controls ->
     is_Some (controls !! key) ->
     exists planSection,
       planSections !! name = Some planSection
       /\ is_Some ((convertTerraformSetToControlsMap (sControls planSection)).1 !! key)) ->
  events (deleteRemovedControls gw existingControls planSections) h = [].
Proof.
  intros Hplanned. unfold deleteRemovedControls, events.
  match goal with |- context [forEach ?l ?body ?s0 h] =>
    assert (Hloop : exists done,
              forEach l body s0 h = (Val done, []) /\ HasError done = false)
  end.
  { apply (forEach_silent (fun diags => HasError diags = false)); [|reflexivity].
    intros [name controls] Hsection diags h' Hdiags. cbn [fst snd].
    apply elem_of_map_to_list in Hsection.
    apply (forEach_silent (fun diags => HasError diags = false)); [|exact Hdiags].
    intros [key control] Hcontrol diags' h'' Hdiags'.
    apply elem_of_map_to_list in Hcontrol.
    destruct (Hplanned name controls key Hsection (mk_is_Some _ _ Hcontrol))
      as (planSection & Hplan & Hkey).
    eapply deleteRemovedStep_kept; eassumption. }
  destruct Hloop as (done & -> & _). reflexivity.
Qed.

(** X27.  When every control of the state is still in the plan, in the section
    of the same name and under the same key, the reconciliation of an
    update deletes no control, whatever else the plan holds and whatever
    the remote store answers. *)
Theorem reconciliation_keeps_planned_controls
    (frameworkID : string) (stateSections planSections : gmap string SectionModel)
    (h : list Event) :
  (forall name stateSection key,
     stateSections !! name = Some stateSection ->
     is_Some ((convertTerraformSetToControlsMap (sControls stateSection)).1 !! key) ->
     exists planSection,
       planSections !! name = Some planSection
       /\ is_Some ((convertTerraformSetToControlsMap (sControls planSection)).1 !! key)) ->
  List.filter isControlDelete
    (events (updateControlsForFramework gw handleAPIError validateAPIResponse
               frameworkID stateSections planSections) h)
  = [].
Proof.
  intros Hplanned. unfold updateControlsForFramework. cbv zeta.
  destruct (HasError (buildExistingControlsMap stateSections).2); [reflexivity|].
  rewrite events_bind.
  pose proof (processControlUpdates_deletes_nothing gw handleAPIError validateAPIResponse
                frameworkID (buildExistingControlsMap stateSections).1 planSections h)
    as Hquiet.
  apply filter_none in Hquiet.
  destruct (result (processControlUpdates _ _ _ _ _ _) h) as [processed|];
    [|exact Hquiet].
  rewrite List.filter_app, Hquiet.
  destruct (HasError (_ ++ processed.2)); [reflexivity|].
  rewrite events_bind, deleteRemovedControls_silent.
  - destruct (result _ _); reflexivity.
  - intros name controls key Hname Hkey.
    rewrite buildExistingControlsMap_lookup in Hname.
    destruct (stateSections !! name) as [stateSection|] eqn:Hstate; [|discriminate].
    injection Hname as <-. exact (Hplanned name stateSection key Hstate Hkey).
Qed.

Lemma matchedCalls_kinds (existingControlsByID : gmap string ControlModel)
    (kv : string * ControlModel) :
  Forall (fun e => isControlUpdate e = true \/ isRuleReplace e = true)
    (matchedCalls existingControlsByID kv).
Proof.
  unfold matchedCalls. destruct (_ !! _); [|constructor].
  constructor; [left; reflexivity|].
  destruct (Tf.SetEqual _ _); [constructor|].
  destruct (planRuleIds _); [|constructor].
  constructor; [right; reflexivity | constructor].
Qed.

(** X28.  An update whose plan is the state itself, with an identifier on every
    control, creates no control and deletes none: every call of the
    reconciliation is the update of a control or the replacement of the
    rules of one. *)
Theorem unchanged_plan_only_updates
    (frameworkID : string) (sections : gmap string SectionModel) (h : list Event) :
  (forall name section key control,
     sections !! name = Some section ->
     (convertTerraformSetToControlsMap (sControls section)).1 !! key = Some control ->
     exists id, cID control = StringValue id) ->
  Forall (fun e => isControlUpdate e = true \/ isRuleReplace e = true)
    (events (updateControlsForFramework gw handleAPIError validateAPIResponse
               frameworkID sections sections) h).
Proof.
  intros Hidentified. unfold updateControlsForFramework. cbv zeta.
  destruct (HasError (buildExistingControlsMap sections).2); [constructor|].
  rewrite events_bind.
  assert (Hprocess :
            Forall (fun e => isControlUpdate e = true \/ isRuleReplace e = true)
              (events (processControlUpdates gw handleAPIError validateAPIResponse
                         frameworkID (buildExistingControlsMap sections).1 sections) h)).
  { unfold processControlUpdates. apply forEach_quiet_in.
    intros [name section] Hsection [updated diags] h'.
    apply elem_of_map_to_list in Hsection.
    destruct (HasError diags) eqn:Hdiags.
    - unfold processSectionStep. cbn [fst snd].
      rewrite convertTerraformSetToControlsMap_diags, app_nil_r, Hdiags. constructor.
    - rewrite processSectionStep_matched.
      + apply Forall_flat_map, Forall_forall. intros kv _. apply matchedCalls_kinds.
      + exact Hdiags.
      + intros key planControl Hcontrol.
        destruct (Hidentified name section key planControl Hsection Hcontrol)
          as [id Hid].
        exists id. split; [exact Hid|].
        eapply buildControlsByIDMap_indexed; [|exact Hcontrol | exact Hid].
        rewrite buildExistingControlsMap_lookup, Hsection. reflexivity. }
  destruct (result (processControlUpdates _ _ _ _ _ _) h) as [processed|];
    [|exact Hprocess].
  apply Forall_app. split; [exact Hprocess|].
  destruct (HasError (_ ++ processed.2)); [constructor|].
  rewrite events_bind, deleteRemovedControls_silent.
  - destruct (result _ _); constructor.
  - intros name controls key Hname Hkey.
    rewrite buildExistingControlsMap_lookup in Hname.
    destruct (sections !! name) as [section|] eqn:Hsection; [|discriminate].
    injection Hname as <-. exists section. split; [reflexivity | exact Hkey].
Qed.

End PlannedControls.

(** Whatever the keys, a decoded element is an element of the set, filed
    under its key. *)
Lemma foldl_insert_elem {A} (key : A -> string) (l : list A) (acc : gmap string A)
    (k : string) (x : A) :
  foldl (fun acc y => <[key y := y]> acc) acc l !! k = Some x ->
  (x ∈ l /\ key x = k) \/ acc !! k = Some x.
Proof.
  revert acc. induction l as [|y l IH]; intros acc Hx; simpl in Hx; [right; exact Hx|].
  apply IH in Hx as [[Hin Hkey]|Hx]; [left; split; [right; exact Hin | exact Hkey]|].
  rewrite lookup_insert in Hx. destruct (decide _) as [Heq|]; [|right; exact Hx].
  injection Hx as <-. left. split; [left | exact Heq].
Qed.

Lemma decoded_section_elem (sections : TfSet SectionModel) (k : string)
    (s : SectionModel) :
  (convertTerraformSetToSectionsMap sections).1 !! k = Some s ->
  s ∈ Tf.Elements sections /\ sectionNameOf s = k.
Proof.
  unfold convertTerraformSetToSectionsMap.
  destruct sections as [| |l]; simpl; try (rewrite lookup_empty; discriminate).
  intros Hs. apply (foldl_insert_elem sectionNameOf) in Hs as [Hin|Hs]; [exact Hin|].
  rewrite lookup_empty in Hs. discriminate.
Qed.

Lemma decoded_control_elem (controls : TfSet ControlModel) (k : string)
    (c : ControlModel) :
  (convertTerraformSetToControlsMap controls).1 !! k = Some c ->
  c ∈ Tf.Elements controls /\ controlKey c = k.
Proof.
  unfold convertTerraformSetToControlsMap.
  destruct controls as [| |l]; simpl; try (rewrite lookup_empty; discriminate).
  intros Hc. apply (foldl_insert_elem controlKey) in Hc as [Hin|Hc]; [exact Hin|].
  rewrite lookup_empty in Hc. discriminate.
Qed.

(** ** The further properties on the examples *)

Lemma decoders_keep_distinct_keys_witness :
  size (Example.sectionsOf Example.observedTwoSections) = 2
  /\ size (convertTerraformSetToControlsMap
             (SetValue [Example.control "ctl-A" "Control A" (Example.rules []);
                        Example.control "" "Control B" (Example.rules [])])).1 = 2.
Proof.
  assert (Hsections : NoDup (map sectionNameOf Example.observedTwoSections)).
  { apply (bool_decide_unpack _). vm_compute. exact I. }
  assert (Hcontrols :
            NoDup (map controlKey
                     [Example.control "ctl-A" "Control A" (Example.rules []);
                      Example.control "" "Control B" (Example.rules [])])).
  { apply (bool_decide_unpack _). vm_compute. exact I. }
  destruct (decoders_keep_distinct_keys _ _ Hsections Hcontrols)
    as (_ & Hsize & _ & Hsize').
  split; [exact Hsize | exact Hsize'].
Defined.

Lemma ValidateConfig_rejects_empty_section_witness :
  HasError (ValidateConfig Scenario.configWithEmptySection) = true.
Proof.
  assert (Hnames :
            NoDup (map sectionNameOf
                     [Example.section "sec-1" "Section 1"
                        [Example.control "" "Control 1" (Example.rules [])];
                      Scenario.emptySection])).
  { apply (bool_decide_unpack _). vm_compute. exact I. }
  apply (proj2 (proj1 (ValidateConfig_rejects_empty_section
                         Scenario.configWithEmptySection _ eq_refl Hnames))).
  exists Scenario.emptySection. split; [|reflexivity].
  apply list_elem_of_In. right. left. reflexivity.
Defined.

Lemma createSingleControl_assigns_rules_witness :
  events (createSingleControlAndReturn (Example.gateway [] []) Example.handleAPIError
            Example.validateAPIResponse "fw-1" "Section1" "ControlA"
            Scenario.newControl) []
  = [Remote (CreateComplianceControl "fw-1" "Section1" "ControlA" "first control");
     Remote (ReplaceControlRules "ctl-ControlA" ["r1"; "r2"])].
Proof.
  unfold events.
  rewrite (createSingleControl_assigns_rules (Example.gateway [] [])
             Example.handleAPIError Example.validateAPIResponse
             "fw-1" "Section1" "ControlA" Scenario.newControl []
             (mkPayload []
                [mkApiControl "ctl-ControlA" "ControlA" "first control" "Section1" "1.1"])
             (mkApiControl "ctl-ControlA" "ControlA" "first control" "Section1" "1.1")
             [] ["r1"; "r2"] eq_refl eq_refl eq_refl eq_refl).
  reflexivity.
Defined.

Lemma unmatched_control_is_created_witness :
  exists rest,
    events (processControlStep (Example.gateway [] []) Example.handleAPIError
              Example.validateAPIResponse "fw-1" ∅ "Section1"
              ("ControlA", Scenario.newControl) (∅, [])) []
    = Remote (CreateComplianceControl "fw-1" "Section1" "ControlA" "first control") :: rest
    /\ Forall (fun e => isRuleReplace e = true) rest.
Proof.
  apply (unmatched_control_is_created (Example.gateway [] []) Example.handleAPIError
           Example.validateAPIResponse "fw-1" "Section1" "ControlA" ∅
           Scenario.newControl (∅, []) []).
  intros controlID _. apply lookup_empty.
Defined.

Lemma every_control_of_a_section_is_attempted_witness :
  List.filter isControlCreate
    (events (createSectionStep (Example.gateway [] []) Example.handleAPIError
               Example.validateAPIResponse "fw-1" ("Section1", Scenario.newSection)
               (∅, [])) [])
  = [Remote (CreateComplianceControl "fw-1" "Section1" "ControlA" "first control");
     Remote (CreateComplianceControl "fw-1" "Section1" "ControlB" "second control")].
Proof.
  assert (Hvalidation :
            forall R (payload : Payload R) summary,
              pResources payload = [] ->
              HasError (Example.validateAPIResponse R payload summary) = true).
  { intros R payload summary Hempty. unfold Example.validateAPIResponse.
    rewrite Hempty. destruct (pErrors payload); reflexivity. }
  rewrite (proj1 (every_control_of_a_section_is_attempted (Example.gateway [] [])
                    Example.handleAPIError Example.validateAPIResponse Hvalidation
                    "fw-1" "Section1" Scenario.newSection ∅ [] ∅ []) eq_refl).
  vm_compute. reflexivity.
Defined.

Lemma read_queries_rules_once_per_control_witness :
  events_of (Example.readRun None)
  = [Remote (QueryComplianceControls (complianceControlsByFrameworkFilter "Framework"));
     Remote (GetComplianceControls ["c1"; "c2"]);
     Remote (QueryRule (complianceRulesByControlFilter "Framework" "Section 1" "c1"));
     Remote (QueryRule (complianceRulesByControlFilter "Framework" "Section 1" "c2"))].
Proof.
  exact (read_queries_rules_once_per_control (Example.gateway ["c1"; "c2"] ["r1"])
           Example.handleAPIError Example.validateAPIResponse
           (mkApiFramework "fw-1" "Framework" "" false) None [] "c1" ["c2"]
           (mkPayload []
              [mkApiControl "c1" "Control c1" "" "Section 1" "c1";
               mkApiControl "c2" "Control c2" "" "Section 1" "c2"])
           eq_refl eq_refl eq_refl).
Defined.

Lemma Read_without_controls_keeps_sections_unset_witness :
  events (Read (Example.gateway [] []) Example.handleAPIError
            Example.validateAPIResponse Example.priorState) []
  = [Remote (GetComplianceFrameworks ["fw-1"]);
     Remote (QueryComplianceControls (complianceControlsByFrameworkFilter "Framework"));
     StateSet (mkModel (StringValue "fw-1") (StringValue "Framework") (StringValue "")
                       (BoolValue false) (SetValue []))].
Proof.
  exact (Read_without_controls_keeps_sections_unset (Example.gateway [] [])
           Example.handleAPIError Example.validateAPIResponse Example.priorState []
           (mkPayload [] [Scenario.remoteFramework]) Scenario.remoteFramework []
           (Some []) eq_refl eq_refl eq_refl eq_refl eq_refl).
Defined.

Lemma Update_without_plan_sections_witness :
  Remote (DeleteComplianceControl ["c1"])
  ∈ events (Update (Example.gateway ["c1"] []) Example.handleAPIError
              Example.validateAPIResponse Scenario.planWithoutSections
              Example.priorState) [].
Proof.
  rewrite (proj2 (Update_without_plan_sections (Example.gateway ["c1"] [])
                    Example.handleAPIError Example.validateAPIResponse
                    Scenario.planWithoutSections Example.priorState []
                    (mkPayload [] [mkApiFramework "fw-1" "Framework" "description" false])
                    (mkApiFramework "fw-1" "Framework" "description" false) []
                    eq_refl eq_refl eq_refl eq_refl eq_refl)
             (Some ["c1"]) eq_refl eq_refl).
  apply list_elem_of_In. right. right. left. reflexivity.
Defined.

Lemma every_identified_control_is_indexed_witness :
  exists indexed,
    buildControlsByIDMap (Example.existingOf Example.observedTwoSections) !! "ctl-Z"
    = Some indexed
    /\ cID indexed = StringValue "ctl-Z".
Proof.
  apply (every_identified_control_is_indexed
           (Example.existingOf Example.observedTwoSections) "Section 2" "ctl-Z" "ctl-Z"
           (convertTerraformSetToControlsMap
              (SetValue [Example.control "ctl-Z" "Control Z" (Example.rules [])])).1
           (Example.control "ctl-Z" "Control Z" (Example.rules []))).
  - vm_compute. reflexivity.
  - vm_compute. reflexivity.
  - reflexivity.
Defined.


Lemma Create_state_sections_are_identified_witness :
  exists sectionName planSection,
    sName (Scenario.firstSection (Scenario.lastWritten Example.createRun))
    = StringValue sectionName
    /\ (convertTerraformSetToSectionsMap (mSections Example.planToCreate)).1
         !! sectionName = Some planSection
    /\ sID (Scenario.firstSection (Scenario.lastWritten Example.createRun))
       = sID (withDerivedID (Tf.ValueString (mName Example.planToCreate)) sectionName
                planSection).
Proof.
  apply (Create_state_sections_are_identified (Example.gateway [] [])
           Example.handleAPIError Example.validateAPIResponse Example.planToCreate []
           (Scenario.lastWritten Example.createRun)
           (Scenario.firstSection (Scenario.lastWritten Example.createRun))).
  - apply list_elem_of_In. vm_compute. repeat first [left; reflexivity | right].
  - apply list_elem_of_In. vm_compute. left. reflexivity.
Defined.

Lemma removed_control_decision_witness :
  events (deleteRemovedStep (Example.gateway [] [])
            (Example.sectionsOf Example.desiredMovedX) "Section 1"
            ("ctl-X", Example.control "ctl-X" "Control X" (Example.rules ["r1"; "r2"]))
            []) []
  = [Remote (DeleteComplianceControl ["ctl-X"])].
Proof.
  rewrite (removed_control_decision (Example.gateway [] [])
             (Example.sectionsOf Example.desiredMovedX) "Section 1" "ctl-X"
             (Example.control "ctl-X" "Control X" (Example.rules ["r1"; "r2"]))
             [] [] eq_refl).
  vm_compute. reflexivity.
Defined.

Lemma decoders_last_duplicate_wins_witness :
  (convertTerraformSetToControlsMap (SetValue Example.sharedIdentifier)).1 !! "ctl-1"
  = Some (Example.control "ctl-1" "Control 2" (Example.rules [])).
Proof.
  apply (proj1 (proj2 (decoders_last_duplicate_wins [] [] Scenario.emptySection
                         [Example.control "ctl-1" "Control 1" (Example.rules [])] []
                         (Example.control "ctl-1" "Control 2" (Example.rules []))))).
  constructor.
Defined.

Lemma reconciliation_keeps_planned_controls_witness :
  List.filter isControlDelete
    (events_of (Example.reconcile Example.observedTwoSections Example.desiredRenamedX))
  = [].
Proof.
  apply (reconciliation_keeps_planned_controls (Example.gateway [] [])
           Example.handleAPIError Example.validateAPIResponse "fw-1"
           (Example.sectionsOf Example.observedTwoSections)
           (Example.sectionsOf Example.desiredRenamedX) []).
  intros name stateSection key Hsection [control Hcontrol].
  apply decoded_section_elem in Hsection as [Hsection <-].
  apply decoded_control_elem in Hcontrol as [Hcontrol <-].
  apply list_elem_of_In in Hsection. apply list_elem_of_In in Hcontrol.
  simpl in Hsection.
  destruct Hsection as [<-|[<-|[]]]; simpl in Hcontrol;
    repeat match goal with H : _ \/ _ |- _ => destruct H as [<-|H] end;
    try contradiction;
    eexists; (split; [reflexivity | eexists; reflexivity]).
Defined.

Lemma unchanged_plan_only_updates_witness :
  Forall (fun e => isControlUpdate e = true \/ isRuleReplace e = true)
    (events_of (Example.reconcile Example.observedTwoSections
                  Example.observedTwoSections)).
Proof.
  apply (unchanged_plan_only_updates (Example.gateway [] []) Example.handleAPIError
           Example.validateAPIResponse "fw-1"
           (Example.sectionsOf Example.observedTwoSections) []).
  intros name section key control Hsection Hcontrol.
  apply decoded_section_elem in Hsection as [Hsection _].
  apply decoded_control_elem in Hcontrol as [Hcontrol _].
  apply list_elem_of_In in Hsection. apply list_elem_of_In in Hcontrol.
  simpl in Hsection.
  destruct Hsection as [<-|[<-|[]]]; simpl in Hcontrol;
    repeat match goal with H : _ \/ _ |- _ => destruct H as [<-|H] end;
    try contradiction; eexists; reflexivity.
Defined.
